(** * Upwork job matcher: the ingestion filter and the job transform

    A shallow embedding of [filter_jobs] and [transform_job] of
    [upwork_apify_scraper.py], together with the fragment of the Python
    runtime the two functions rely on: JSON values, truthiness, [dict.get],
    the [in] operator, [str()], [float()], the string methods [replace],
    [strip], [lower] and [split], and exceptions. The rest of the script
    ([scrape_jobs], [main]) and the functions of
    [upwork_proposal_generator.py] that build a proposal follow, with the
    services they call as parameters.

    Conventions.
    - A Python [str] is a Rocq [string]; a character is a code point below
      256, so the case and white-space tables are those of Unicode
      restricted to that block.
    - A Python [int] is a [Z]; a Python [float] is a value of [pyfloat]
      (not-a-number, the two infinities, or a signed dyadic number), and
      [float()] rounds a decimal literal to binary64, ties to even.
    - A Python [int] has any size, and its decimal text at most 4300
      digits, the limit the interpreter starts with: [str()], [repr()]
      and an f-string raise [ValueError] on a value that holds a longer
      integer. A value decoded from JSON holds none.
    - What the scripts print is left out, together with the texts that
      are built only to be printed.
    - A computation that may raise is a value of [result].
    - [filter_jobs] reads the clock once; the reading is the parameter
      [now]. *)

From Stdlib Require Import ZArith QArith List Bool Ascii String Lia.
From Stdlib Require Import DecimalString.
Import ListNotations.

Local Open Scope string_scope.
Local Open Scope Z_scope.

(* ================================================================== *)
(** * Characters and strings *)
(* ================================================================== *)

Module PyStr.

Definition code (c : ascii) : Z := Z.of_N (N_of_ascii c).

Definition chr (z : Z) : ascii := ascii_of_N (Z.to_N z).

Definition in_range (lo hi : Z) (c : ascii) : bool :=
  (lo <=? code c) && (code c <=? hi).

Definition is_digit (c : ascii) : bool := in_range 48 57 c.

Definition digit_val (c : ascii) : Z := code c - 48.

(** [str.isspace] on one character: the Unicode white-space code points
    below 256. *)
Definition is_space (c : ascii) : bool :=
  in_range 9 13 c || in_range 28 32 c
  || (code c =? 133) || (code c =? 160).

(** [str.isprintable] on one character, as [repr] uses it. *)
Definition is_printable (c : ascii) : bool :=
  in_range 32 126 c || in_range 161 172 c || in_range 174 255 c.

(** [str.lower] on one character. *)
Definition lower_char (c : ascii) : ascii :=
  if in_range 65 90 c
     || (in_range 192 222 c && negb (code c =? 215))
  then chr (code c + 32) else c.

Fixpoint lower (s : string) : string :=
  match s with
  | EmptyString => EmptyString
  | String c s' => String (lower_char c) (lower s')
  end.

Fixpoint lstrip (s : string) : string :=
  match s with
  | EmptyString => EmptyString
  | String c s' => if is_space c then lstrip s' else s
  end.

Fixpoint rstrip (s : string) : string :=
  match s with
  | EmptyString => EmptyString
  | String c s' =>
      match rstrip s' with
      | EmptyString => if is_space c then EmptyString else String c EmptyString
      | r => String c r
      end
  end.

(** [s.strip()] *)
Definition strip (s : string) : string := rstrip (lstrip s).

(** [p in s] for two strings. *)
Fixpoint contains (p s : string) : bool :=
  prefix p s ||
  match s with
  | EmptyString => false
  | String _ s' => contains p s'
  end.

(** [s.replace(c, new)] for a one-character pattern [c]. *)
Fixpoint replace (c : ascii) (new s : string) : string :=
  match s with
  | EmptyString => EmptyString
  | String a s' =>
      if Ascii.eqb a c then new ++ replace c new s'
      else String a (replace c new s')
  end.

(** [s.split(c)] for a one-character separator [c]. *)
Fixpoint split (c : ascii) (s : string) : list string :=
  match s with
  | EmptyString => [EmptyString]
  | String a s' =>
      if Ascii.eqb a c then EmptyString :: split c s'
      else match split c s' with
           | h :: t => String a h :: t
           | [] => [String a EmptyString]
           end
  end.

(** [l[-1]] on a list of strings; [None] stands for [IndexError]. *)
Definition last_item (l : list string) : option string :=
  match rev l with
  | x :: _ => Some x
  | [] => None
  end.

(** The decimal text of an integer. *)
Definition of_Z (z : Z) : string := NilZero.string_of_int (Z.to_int z).

(** The longest decimal text the interpreter builds for an integer, and
    the integers that have one: those of at most 4300 digits. *)
Definition int_max_str_digits : Z := 4300.

(** The least integer above zero that has no text, worked out once. *)
Definition int_text_bound : Z := Eval vm_compute in 10 ^ int_max_str_digits.

Definition int_renders (z : Z) : bool := Z.abs z <? int_text_bound.

(** [sep.join(l)] *)
Fixpoint join (sep : string) (l : list string) : string :=
  match l with
  | [] => EmptyString
  | [x] => x
  | x :: l' => x ++ sep ++ join sep l'
  end.

Definition hex_digit (z : Z) : ascii :=
  if z <? 10 then chr (48 + z) else chr (87 + z).

(** One character of [repr(s)], for the quote character [q]. *)
Definition repr_char (q : ascii) (c : ascii) : string :=
  if Ascii.eqb c "\" then "\\"
  else if Ascii.eqb c q then String "\" (String c EmptyString)
  else if code c =? 9 then "\t"
  else if code c =? 10 then "\n"
  else if code c =? 13 then "\r"
  else if is_printable c then String c EmptyString
  else String "\" (String "x"
         (String (hex_digit (code c / 16))
            (String (hex_digit (code c mod 16)) EmptyString))).

Fixpoint concat_map (f : ascii -> string) (s : string) : string :=
  match s with
  | EmptyString => EmptyString
  | String c s' => f c ++ concat_map f s'
  end.

(** [repr(s)] for a string: single quotes unless the text has a single
    quote and no double quote. *)
Definition repr (s : string) : string :=
  let q : ascii :=
    if contains "'" s && negb (contains (String (chr 34) EmptyString) s)
    then chr 34 else "'"%char in
  String q (concat_map (repr_char q) s ++ String q EmptyString).

End PyStr.

(* ================================================================== *)
(** * Floats *)
(* ================================================================== *)

Module PyFloat.

Import PyStr.

(** A Python [float]: [FFin neg m e] is the number [(-1)^neg * m * 2^e]
    with [0 <= m]; [FFin true 0 e] is the negative zero. *)
Inductive pyfloat : Type :=
| FNan
| FInf (neg : bool)
| FFin (neg : bool) (m : Z) (e : Z).

(** The numbers Python compares: an exact rational, an infinity, or
    not-a-number. *)
Inductive xreal : Type :=
| XNan
| XInf (neg : bool)
| XFin (q : Q).

Definition pow2 (e : Z) : Q := Qpower (2 # 1) e.

Definition to_xreal (f : pyfloat) : xreal :=
  match f with
  | FNan => XNan
  | FInf neg => XInf neg
  | FFin neg m e =>
      XFin (inject_Z (if neg then - m else m) * pow2 e)
  end.

Definition Qltb (p q : Q) : bool :=
  match Qcompare p q with Lt => true | _ => false end.

Definition Qleb (p q : Q) : bool :=
  match Qcompare p q with Gt => false | _ => true end.

(** [a < b] *)
Definition xlt (a b : xreal) : bool :=
  match a, b with
  | XNan, _ | _, XNan => false
  | XInf true, XInf true => false
  | XInf true, _ => true
  | _, XInf true => false
  | XInf false, _ => false
  | XFin _, XInf false => true
  | XFin p, XFin q => Qltb p q
  end.

(** [a <= b] *)
Definition xle (a b : xreal) : bool :=
  match a, b with
  | XNan, _ | _, XNan => false
  | XInf true, _ => true
  | _, XInf true => false
  | _, XInf false => true
  | XInf false, XFin _ => false
  | XFin p, XFin q => Qleb p q
  end.

(** Truth value of a float: everything but the two zeros. *)
Definition nonzero (f : pyfloat) : bool :=
  match f with
  | FFin _ m _ => negb (m =? 0)
  | _ => true
  end.

(** ** Rounding to binary64 *)

(** [scale b x k] is [x * b^k] for [0 <= k], and [x] otherwise. *)
Definition scale (b x k : Z) : Z := x * b ^ Z.max 0 k.

(** [round_b64 neg n d] is the binary64 number nearest to [n / d]
    ([0 <= n], [0 < d]), ties to even, with sign [neg]; it is an infinity
    when the rounded magnitude exceeds the largest finite binary64. *)
Definition round_b64 (neg : bool) (n d : Z) : pyfloat :=
  if n <=? 0 then FFin neg 0 0
  else
    let k := Z.log2 n - Z.log2 d in
    let fl := if scale 2 d k <=? scale 2 n (- k) then k else k - 1 in
    let e := Z.max (fl - 52) (-1074) in
    let num := scale 2 n (- e) in
    let den := scale 2 d e in
    let q := num / den in
    let r := num mod den in
    let m := if 2 * r <? den then q
             else if den <? 2 * r then q + 1
             else q + q mod 2 in
    let '(m, e) := if m =? 2 ^ 53 then (2 ^ 52, e + 1) else (m, e) in
    if 971 <? e then FInf neg else FFin neg m e.

(** ** [float(s)] for a string *)

(** White space [float] strips from both ends of its argument. *)
Definition is_float_space (c : ascii) : bool :=
  in_range 9 13 c || (code c =? 32) || (code c =? 133) || (code c =? 160).

Fixpoint lstrip_space (s : string) : string :=
  match s with
  | EmptyString => EmptyString
  | String c s' => if is_float_space c then lstrip_space s' else s
  end.

Fixpoint rstrip_space (s : string) : string :=
  match s with
  | EmptyString => EmptyString
  | String c s' =>
      match rstrip_space s' with
      | EmptyString =>
          if is_float_space c then EmptyString else String c EmptyString
      | r => String c r
      end
  end.

(** Underscores of a numeric literal: each one stands between two
    digits and is dropped; [None] when one is misplaced. [prev] is the
    character before [s]. *)
Fixpoint drop_underscores (prev : ascii) (s : string) : option string :=
  match s with
  | EmptyString =>
      if Ascii.eqb prev "_" then None else Some EmptyString
  | String c s' =>
      if Ascii.eqb c "_" then
        if is_digit prev then drop_underscores c s' else None
      else if Ascii.eqb prev "_" && negb (is_digit c) then None
      else option_map (String c) (drop_underscores c s')
  end.

(** The longest prefix of digits, and what follows it. *)
Fixpoint span_digits (s : string) : string * string :=
  match s with
  | String c s' =>
      if is_digit c
      then let '(ds, r) := span_digits s' in (String c ds, r)
      else (EmptyString, s)
  | EmptyString => (EmptyString, EmptyString)
  end.

(** The number a string of digits denotes, continuing from [acc]. *)
Fixpoint digits_val (acc : Z) (s : string) : Z :=
  match s with
  | EmptyString => acc
  | String c s' => digits_val (10 * acc + digit_val c) s'
  end.

(** An optional sign: whether it is [-], and what follows it. *)
Definition take_sign (s : string) : bool * string :=
  match s with
  | String "-" s' => (true, s')
  | String "+" s' => (false, s')
  | _ => (false, s)
  end.

(** The exponent part of a decimal literal: empty, or [e] or [E], an
    optional sign and at least one digit. *)
Definition parse_exponent (s : string) : option Z :=
  match s with
  | EmptyString => Some 0
  | String c s' =>
      if Ascii.eqb c "e" || Ascii.eqb c "E" then
        let '(neg, s1) := take_sign s' in
        let '(ds, rest) := span_digits s1 in
        match ds, rest with
        | String _ _, EmptyString =>
            Some (if neg then - digits_val 0 ds else digits_val 0 ds)
        | _, _ => None
        end
      else None
  end.

(** A literal without surrounding space and without underscores. *)
Definition parse_literal (s : string) : option pyfloat :=
  let '(neg, s0) := take_sign s in
  let w := lower s0 in
  if String.eqb w "inf" || String.eqb w "infinity" then Some (FInf neg)
  else if String.eqb w "nan" then Some FNan
  else
    let '(ip, r1) := span_digits s0 in
    let '(fp, r2) :=
      match r1 with
      | String "." r => span_digits r
      | _ => (EmptyString, r1)
      end in
    match (ip ++ fp)%string with
    | EmptyString => None
    | ds =>
        match parse_exponent r2 with
        | None => None
        | Some x =>
            let n := digits_val 0 ds in
            let k := x - Z.of_nat (String.length fp) in
            Some (round_b64 neg (scale 10 n k) (scale 10 1 (- k)))
        end
    end.

(** [float(s)]; [None] stands for [ValueError]. *)
Definition of_string (s : string) : option pyfloat :=
  let t := rstrip_space (lstrip_space s) in
  if contains "_" t then
    match drop_underscores "000" t with
    | Some u => parse_literal u
    | None => None
    end
  else parse_literal t.

(** ** [repr(f)] for a float *)

(** Two floats denote the same number. *)
Definition same_value (f g : pyfloat) : bool :=
  match to_xreal f, to_xreal g with
  | XFin p, XFin q => Qeq_bool p q
  | XInf a, XInf b => Bool.eqb a b
  | _, _ => false
  end.

(** [10^t <= n / d] *)
Definition pow10_le (t n d : Z) : bool :=
  scale 10 d t <=? scale 10 n (- t).

Fixpoint ilog10_from (fuel : nat) (t n d : Z) : Z :=
  match fuel with
  | O => t
  | S fuel' =>
      if pow10_le (t + 1) n d then ilog10_from fuel' (t + 1) n d else t
  end.

(** The largest [t] with [10^t <= n / d], for [0 < n] and [0 < d]. *)
Definition ilog10 (n d : Z) : Z :=
  let l := Z.log2 n - Z.log2 d in
  ilog10_from 6 ((l - 1) * 30103 / 100000 - 2) n d.

Fixpoint strip_zeros (fuel : nat) (D k : Z) : Z * Z :=
  match fuel with
  | O => (D, k)
  | S fuel' =>
      if (D mod 10 =? 0) && negb (D =? 0)
      then strip_zeros fuel' (D / 10) (k + 1) else (D, k)
  end.

(** The decimal [D * 10^k] with at most [p] digits that [repr] prints
    for [n / d], if one with that many digits reads back as [f]: of the
    two decimals around [n / d], the nearer one that reads back. *)
Definition digits_at (f : pyfloat) (n d : Z) (p : Z) : option (Z * Z) :=
  let k := ilog10 n d - (p - 1) in
  let num := scale 10 n (- k) in
  let den := scale 10 d k in
  let lo := num / den in
  let r := num mod den in
  let hi := if r =? 0 then lo else lo + 1 in
  let back D := same_value (round_b64 false (scale 10 D k) (scale 10 1 (- k))) f in
  let nearer :=
    if 2 * r <? den then lo
    else if den <? 2 * r then hi
    else if lo mod 2 =? 0 then lo else hi in
  let other := if nearer =? lo then hi else lo in
  if back nearer then Some (nearer, k)
  else if back other then Some (other, k)
  else None.

Fixpoint shortest_digits (fuel : nat) (f : pyfloat) (n d p : Z) : Z * Z :=
  match fuel with
  | O =>
      let k := ilog10 n d - 16 in
      (scale 10 n (- k) / scale 10 d k, k)
  | S fuel' =>
      match digits_at f n d p with
      | Some Dk => Dk
      | None => shortest_digits fuel' f n d (p + 1)
      end
  end.

Fixpoint zeros (n : nat) : string :=
  match n with
  | O => EmptyString
  | S n' => String "0" (zeros n')
  end.

(** Positional notation for the digits [ds] with the point after the
    first [decpt] of them. *)
Definition format_fixed (ds : string) (decpt : Z) : string :=
  let len := Z.of_nat (String.length ds) in
  if decpt <=? 0 then "0." ++ zeros (Z.to_nat (- decpt)) ++ ds
  else if len <=? decpt then ds ++ zeros (Z.to_nat (decpt - len)) ++ ".0"
  else substring 0 (Z.to_nat decpt) ds ++ "."
       ++ substring (Z.to_nat decpt) (Z.to_nat (len - decpt)) ds.

(** Scientific notation for the digits [ds] with the point after the
    first [decpt] of them: the exponent has a sign and two digits at
    least. *)
Definition format_exp (ds : string) (decpt : Z) : string :=
  let len := Z.of_nat (String.length ds) in
  let x := decpt - 1 in
  (substring 0 1 ds
   ++ (if 1 <? len then "." ++ substring 1 (Z.to_nat (len - 1)) ds
       else EmptyString))
  ++ String "e"
       (String (if x <? 0 then "-"%char else "+"%char)
          ((if Z.abs x <? 10 then "0" else EmptyString) ++ of_Z (Z.abs x))).

(** The text of the positive decimal [D * 10^k], [D] without trailing
    zeros: positional when the point falls within 16 digits to the
    right or 3 zeros to the left, scientific otherwise. *)
Definition format_decimal (D k : Z) : string :=
  let ds := of_Z D in
  let decpt := k + Z.of_nat (String.length ds) in
  if (-4 <? decpt) && (decpt <=? 16)
  then format_fixed ds decpt
  else format_exp ds decpt.

(** [repr(f)], which is also [str(f)]. *)
Definition repr_float (f : pyfloat) : string :=
  match f with
  | FNan => "nan"
  | FInf neg => if neg then "-inf" else "inf"
  | FFin neg m e =>
      (if neg then "-" else EmptyString) ++
      (if m <=? 0 then "0.0"
       else
         let n := scale 2 m e in
         let d := scale 2 1 (- e) in
         let '(D, k) := shortest_digits 17 (FFin false m e) n d 1 in
         let '(D, k) := strip_zeros 400 D k in
         format_decimal D k)
  end.

End PyFloat.

(* ================================================================== *)
(** * Values, exceptions and the operations of the runtime *)
(* ================================================================== *)

Module Py.

Import PyStr PyFloat.

#[local] Set Warnings "-register-all".

(** A value decoded from JSON. A mapping keeps its items in order; a
    lookup takes the first item with the key. *)
Inductive pyval : Type :=
| PNone
| PBool (b : bool)
| PInt (z : Z)
| PFloat (f : pyfloat)
| PStr (s : string)
| PList (l : list pyval)
| PDict (d : list (string * pyval)).

Inductive exn : Type :=
| AttributeError
| TypeError
| ValueError
| OverflowError.

Inductive result (A : Type) : Type :=
| Ok (a : A)
| Raise (e : exn).

Arguments Ok {A} a.
Arguments Raise {A} e.

Definition bind {A B : Type} (m : result A) (k : A -> result B) : result B :=
  match m with
  | Ok a => k a
  | Raise e => Raise e
  end.

(** [try: x = m  except: x = d] *)
Definition try_except {A : Type} (m : result A) (d : A) : A :=
  match m with
  | Ok a => a
  | Raise _ => d
  end.

(** [bool(v)] *)
Definition truthy (v : pyval) : bool :=
  match v with
  | PNone => false
  | PBool b => b
  | PInt z => negb (z =? 0)
  | PFloat f => nonzero f
  | PStr s => negb (String.eqb s EmptyString)
  | PList l => match l with [] => false | _ => true end
  | PDict d => match d with [] => false | _ => true end
  end.

(** [a or b], [b] evaluated only when [a] is false. *)
Definition or_else (a : pyval) (b : result pyval) : result pyval :=
  if truthy a then Ok a else b.

(** [a or b] when [b] cannot raise. *)
Definition por (a b : pyval) : pyval := if truthy a then a else b.

(** [v is None], [v is True] *)
Definition is_None (v : pyval) : bool :=
  match v with PNone => true | _ => false end.

Definition is_True (v : pyval) : bool :=
  match v with PBool true => true | _ => false end.

(** [v == s] for a string literal [s] *)
Definition eq_str (v : pyval) (s : string) : bool :=
  match v with PStr t => String.eqb t s | _ => false end.

Fixpoint lookup (k : string) (d : list (string * pyval)) : option pyval :=
  match d with
  | [] => None
  | (k', v) :: d' => if String.eqb k' k then Some v else lookup k d'
  end.

(** [d.get(k, default)] on a mapping *)
Definition dict_get (d : list (string * pyval)) (k : string)
    (default : pyval) : pyval :=
  match lookup k d with
  | Some v => v
  | None => default
  end.

(** [v.get(k, default)] on any value: only a mapping has [get]. *)
Definition get_attr (v : pyval) (k : string) (default : pyval)
    : result pyval :=
  match v with
  | PDict d => Ok (dict_get d k default)
  | _ => Raise AttributeError
  end.

(** [s in v] for a string [s]: a substring of a string, an element of a
    list, a key of a mapping; anything else is not iterable. *)
Definition str_in (s : string) (v : pyval) : result bool :=
  match v with
  | PStr t => Ok (contains s t)
  | PList l => Ok (existsb (fun x => eq_str x s) l)
  | PDict d => Ok (match lookup s d with Some _ => true | None => false end)
  | _ => Raise TypeError
  end.

(** [v.lower()] *)
Definition lower_of (v : pyval) : result string :=
  match v with
  | PStr s => Ok (lower s)
  | _ => Raise AttributeError
  end.

(** [v.split(c)[-1]] *)
Definition split_last (c : ascii) (v : pyval) : result string :=
  match v with
  | PStr s =>
      match last_item (split c s) with
      | Some x => Ok x
      | None => Raise ValueError
      end
  | _ => Raise AttributeError
  end.

(** [str(v)], [repr(v)] and an f-string raise on an integer of more than
    4300 digits, wherever it stands in [v]. *)
Fixpoint renders (v : pyval) : bool :=
  match v with
  | PInt z => int_renders z
  | PList l => forallb renders l
  | PDict d => forallb (fun kv : string * pyval => let (_, x) := kv in renders x) d
  | _ => true
  end.

(** The text of [repr(v)], for a value that has one. *)
Fixpoint py_repr (v : pyval) : string :=
  match v with
  | PNone => "None"
  | PBool b => if b then "True" else "False"
  | PInt z => of_Z z
  | PFloat f => repr_float f
  | PStr s => repr s
  | PList l => "[" ++ join ", " (map py_repr l) ++ "]"
  | PDict d =>
      "{" ++ join ", "
               (map (fun kv : string * pyval =>
                       let (k, x) := kv in repr k ++ ": " ++ py_repr x) d)
      ++ "}"
  end.

(** The text of [str(v)], for a value that has one. *)
Definition py_str (v : pyval) : string :=
  match v with
  | PStr s => s
  | _ => py_repr v
  end.

(** [str(v)], which is also how an f-string renders [v]. *)
Definition str_of (v : pyval) : result string :=
  if renders v then Ok (py_str v) else Raise ValueError.

(** A number: an [int] or a [float]. *)
Inductive pynum : Type :=
| NInt (z : Z)
| NFloat (f : pyfloat).

Definition num_val (n : pynum) : xreal :=
  match n with
  | NInt z => XFin (inject_Z z)
  | NFloat f => to_xreal f
  end.

(** [isinstance(v, (int, float))] with the number it holds; a [bool]
    is an [int]. *)
Definition as_number (v : pyval) : option pynum :=
  match v with
  | PBool b => Some (NInt (if b then 1 else 0))
  | PInt z => Some (NInt z)
  | PFloat f => Some (NFloat f)
  | _ => None
  end.

(** [a < b], [a <= b] on numbers *)
Definition num_lt (a b : pynum) : bool := xlt (num_val a) (num_val b).
Definition num_le (a b : pynum) : bool := xle (num_val a) (num_val b).

(** ** The clock *)

(** An aware [datetime]: the day number in the proleptic Gregorian
    calendar (day 1 is 0001-01-01, day 3652059 is 9999-12-31) and the
    microsecond within the day. *)
Record datetime : Type := mk_datetime { ordinal : Z; microsecond : Z }.

Definition max_ordinal : Z := 3652059.
Definition max_delta_days : Z := 999999999.

(** [timedelta(days=d)] *)
Definition timedelta (d : Z) : result Z :=
  if Z.abs d <=? max_delta_days then Ok d else Raise OverflowError.

(** [t - delta] for a [timedelta] of whole days *)
Definition datetime_sub (t : datetime) (delta : Z) : result datetime :=
  let o := ordinal t - delta in
  if (1 <=? o) && (o <=? max_ordinal)
  then Ok (mk_datetime o (microsecond t))
  else Raise OverflowError.

End Py.

Declare Scope py_scope.
Delimit Scope py_scope with py.
Notation "x <- m ;; k" := (Py.bind m (fun x => k))
  (at level 61, m at next level, right associativity) : py_scope.

Import PyStr PyFloat Py.
Local Open Scope py_scope.

(* ================================================================== *)
(** * The program: [upwork_apify_scraper.py] *)
(* ================================================================== *)

(** A RawJobRecord: the items of a mapping with string keys. *)
Definition record : Type := list (string * pyval).

(** [job.get(k)] and [job.get(k, default)] *)
Definition get (job : record) (k : string) : pyval := dict_get job k PNone.

Definition empty_dict : pyval := PDict [].

(** ** [filter_jobs] *)

(** Lines 160: the posted date, read and never used. *)
Definition posted_date_of (job : record) : pyval :=
  por (get job "postedDate") (por (get job "date_created") (get job "createdAt")).

(** Lines 171-178, the body of [if verified_payment:]. The result tells
    whether the loop takes [continue]. *)
Definition unverified (job : record) : result bool :=
  let client := dict_get job "client" empty_dict in
  is_verified <-
    or_else (get job "isPaymentVerified")
      (pmv <- get_attr client "paymentMethodVerified" PNone ;;
       or_else (PBool (is_True pmv))
         (status <- get_attr client "paymentVerificationStatus" PNone ;;
          Ok (PBool (eq_str status "VERIFIED")))) ;;
  Ok (negb (truthy is_verified)).

(** Lines 182-186: the total spent the filter reads. *)
Definition resolve_total_spent (job : record) : result pyval :=
  let client := dict_get job "client" empty_dict in
  total_spent <- get_attr client "totalSpent" PNone ;;
  if is_None total_spent then
    has_stats <- str_in "stats" client ;;
    if has_stats then
      stats <- get_attr client "stats" empty_dict ;;
      get_attr stats "totalSpent" PNone
    else Ok total_spent
  else Ok total_spent.

(** Lines 188-194: [total_spent or 0], then [float] of its text without
    [,] and [$], and 0 when that raises. *)
Definition coerce_spent (total_spent : pyval) : pynum :=
  let total_spent := por total_spent (PInt 0) in
  try_except
    (text <- str_of total_spent ;;
     match of_string (replace "$" "" (replace "," "" text)) with
     | Some f => Ok (NFloat f)
     | None => Raise ValueError
     end)
    (NInt 0).

(** Lines 182-198, the body of [if min_spent > 0:]. *)
Definition low_spend (min_spent : pynum) (job : record) : result bool :=
  total_spent <- resolve_total_spent job ;;
  Ok (num_lt (coerce_spent total_spent) min_spent).

(** Line 202: the experience level the filter reads. *)
Definition resolve_level (job : record) : result pyval :=
  or_else (get job "experienceLevel")
    (get_attr (dict_get job "vendor" empty_dict) "experienceLevel" PNone).

(** Lines 202-208 *)
Definition level_mismatch (experience_levels : list string) (job : record)
    : result bool :=
  job_level <- resolve_level job ;;
  if match experience_levels with [] => false | _ => true end
     && truthy job_level
  then
    let permitted := map (fun l => lower (strip l)) experience_levels in
    lowered <- lower_of job_level ;;
    Ok (negb (existsb (String.eqb lowered) permitted))
  else Ok false.

Definition reject_phrases : list string := ["15 to 20"; "20 to 50"; "50+"].

(** Line 214: the proposal count the filter reads. *)
Definition resolve_proposals (job : record) : pyval :=
  por (get job "proposals") (get job "proposalCount").

(** Lines 214-222. [str(proposals)] is built for the first phrase, and
    raises there when the value has no text. *)
Definition high_competition (job : record) : result bool :=
  let proposals := resolve_proposals job in
  if truthy proposals then
    text <- str_of proposals ;;
    if existsb (fun phrase => contains phrase text) reject_phrases
    then Ok true
    else Ok (match as_number proposals with
             | Some n => num_le (NInt 15) n
             | None => false
             end)
  else Ok false.

(** The body of the loop, lines 157-224: [true] when the job is skipped
    by a [continue], [false] when it reaches [filtered.append(job)]. *)
Definition rejected (verified_payment : bool) (min_spent : pynum)
    (experience_levels : list string) (job : record) : result bool :=
  let posted_date_str := posted_date_of job in
  r1 <- (if verified_payment then unverified job else Ok false) ;;
  if r1 then Ok true else
  r2 <- (if num_lt (NInt 0) min_spent then low_spend min_spent job
         else Ok false) ;;
  if r2 then Ok true else
  r3 <- level_mismatch experience_levels job ;;
  if r3 then Ok true else
  high_competition job.

(** The loop over [jobs], appending to [filtered]. *)
Fixpoint filter_loop (verified_payment : bool) (min_spent : pynum)
    (experience_levels : list string) (jobs filtered : list record)
    : result (list record) :=
  match jobs with
  | [] => Ok filtered
  | job :: jobs' =>
      r <- rejected verified_payment min_spent experience_levels job ;;
      filter_loop verified_payment min_spent experience_levels jobs'
        (if r then filtered else filtered ++ [job])
  end.

(** [filter_jobs(jobs, verified_payment, min_spent, experience_levels,
    days_back)], with the reading of the clock passed as [now]. *)
Definition filter_jobs (now : datetime) (jobs : list record)
    (verified_payment : bool) (min_spent : pynum)
    (experience_levels : list string) (days_back : Z)
    : result (list record) :=
  delta <- timedelta days_back ;;
  cutoff_time <- datetime_sub now delta ;;
  filter_loop verified_payment min_spent experience_levels jobs [].

(** ** [transform_job] *)

Record NormalizedJob : Type := mk_job {
  job_id : pyval;
  title : pyval;
  description : pyval;
  skills : pyval;
  budget : pyval;
  hourly_rate : pyval;
  job_type : pyval;
  experience_level : pyval;
  client_country : pyval;
  client_total_spent : pyval;
  client_hires : pyval;
  proposal_count : pyval;
  posted_date : pyval;
  job_url : pyval;
  apply_url : pyval
}.

Definition apply_prefix : string := "https://www.upwork.com/nx/proposals/job/".
Definition apply_suffix : string := "/apply/".

(** Lines 239-247: the identifier, direct or read off the URL. *)
Definition derive_job_id (job : record) : result pyval :=
  let job_id := por (get job "id") (get job "ciphertext") in
  let job_url := por (get job "url") (get job "externalLink") in
  if negb (truthy job_id) && truthy job_url then
    has_tilde <- str_in "~" job_url ;;
    if has_tilde then
      Ok (try_except
            (last <- split_last "~" job_url ;; Ok (PStr ("~" ++ last)))
            job_id)
    else Ok job_id
  else Ok job_id.

(** Line 249 *)
Definition apply_url_of (job_id : pyval) : result pyval :=
  if truthy job_id
  then text <- str_of job_id ;; Ok (PStr (apply_prefix ++ text ++ apply_suffix))
  else Ok (PStr "").

(** [client.get("stats", {}).get(k) if "stats" in client else client.get(k)],
    lines 261 and 262. *)
Definition client_stat (client : pyval) (k : string) : result pyval :=
  has_stats <- str_in "stats" client ;;
  if has_stats then
    stats <- get_attr client "stats" empty_dict ;;
    get_attr stats k PNone
  else get_attr client k PNone.

(** Line 260 *)
Definition resolve_country (client : pyval) : result pyval :=
  location <- get_attr client "location" empty_dict ;;
  country <- get_attr location "country" PNone ;;
  or_else country (get_attr client "countryCode" PNone).

(** [transform_job(job)] *)
Definition transform_job (job : record) : result NormalizedJob :=
  let client := dict_get job "client" empty_dict in
  job_id <- derive_job_id job ;;
  let job_url := por (get job "url") (get job "externalLink") in
  apply_url <- apply_url_of job_id ;;
  experience_level <- resolve_level job ;;
  client_country <- resolve_country client ;;
  client_total_spent <- client_stat client "totalSpent" ;;
  client_hires <- client_stat client "totalHires" ;;
  Ok {| job_id := job_id;
        title := get job "title";
        description := get job "description";
        skills := dict_get job "skills" (PList []);
        budget := get job "budget";
        hourly_rate := get job "hourlyRate";
        job_type := get job "jobType";
        experience_level := experience_level;
        client_country := client_country;
        client_total_spent := client_total_spent;
        client_hires := client_hires;
        proposal_count := por (get job "proposals") (get job "proposalCount");
        posted_date := posted_date_of job;
        job_url := job_url;
        apply_url := apply_url |}.

(* ================================================================== *)
(** * The rest of [upwork_apify_scraper.py]: [scrape_jobs] and [main] *)
(* ================================================================== *)

(** What the scripts raise beyond the built-in exceptions of [exn].
    [HTTPError] is the one of [requests], with the status code of the
    reply; [HttpError] is the one of the Google client; [OSError]
    stands for its subclasses too. *)
Inductive error : Type :=
| Builtin (e : exn)
| KeyError
| UnboundLocalError
| JSONDecodeError
| RequestError
| HTTPError (status_code : Z)
| RunFailure (status : pyval)
| HttpError
| OSError
| UnicodeEncodeError.

Inductive outcome (A : Type) : Type :=
| Done (a : A)
| Failed (e : error).

Arguments Done {A} a.
Arguments Failed {A} e.

(** A computation of [result] seen as one of [outcome]. *)
Definition lift {A : Type} (r : result A) : outcome A :=
  match r with
  | Ok a => Done a
  | Raise e => Failed (Builtin e)
  end.

Module Ingest.

(** What a request meets: no reply at all (a connection error or a
    timeout, raised by [requests]), or a reply with its status code and
    what [.json()] gives, [None] when the body is not JSON. *)
Inductive http_reply : Type :=
| NoReply
| Reply (status_code : Z) (json : option pyval).

(** The input of the actor run. The two dates are kept as day numbers;
    the script sends their [strftime] text. *)
Record run_input : Type := mk_run_input {
  limit : pyval;
  fromDate : Z;
  toDate : Z;
  keywords : list string
}.

(** The provider: its reply to the n-th request of each kind (counted
    from 0), given what the request carries. *)
Record server : Type := mk_server {
  post_reply : run_input -> nat -> http_reply;
  poll_reply : pyval -> nat -> http_reply;
  fetch_reply : pyval -> nat -> http_reply
}.

(** What the script does that the outside can see, in order. *)
Inductive event : Type :=
| Post (input : run_input)
| Poll (run_id : pyval)
| Fetch (dataset_id : pyval)
| Sleep (seconds : Z).

Definition max_retries : nat := 3.

(** [response.raise_for_status()] raises for the codes 400 to 599. *)
Definition raises_for_status (status_code : Z) : bool :=
  (400 <=? status_code) && (status_code <? 600).

(** Line 40: the search terms. *)
Definition queries_of (search_queries : option string) : list string :=
  match search_queries with
  | Some s =>
      if String.eqb s EmptyString then ["workflow automation"]
      else map strip (split "," s)
  | None => ["workflow automation"]
  end.

(** Lines 72-96: the loop that starts the run, over the attempts left.
    It ends with what [response.json()] will give, or with what it
    raises. *)
Fixpoint start_run (srv : server) (input : run_input) (attempts : list nat)
    : outcome (option pyval) * list event :=
  match attempts with
  | [] => (Failed UnboundLocalError, [])
  | attempt :: attempts' =>
      match post_reply srv input attempt with
      | NoReply => (Failed RequestError, [Post input])
      | Reply status_code json =>
          if raises_for_status status_code then
            if existsb (Z.eqb status_code) [400; 403; 404]
               && Nat.eqb attempt (max_retries - 1)
            then (Failed (HTTPError status_code), [Post input])
            else if Nat.eqb attempt (max_retries - 1)
            then (Failed (HTTPError status_code), [Post input])
            else
              let '(r, trace) := start_run srv input attempts' in
              (r, Post input :: Sleep (2 * (Z.of_nat attempt + 1)) :: trace)
          else (Done json, [Post input])
      end
  end.

Definition terminal_statuses : list string :=
  ["SUCCEEDED"; "FAILED"; "ABORTED"; "TIMED-OUT"].

(** Lines 107-110, the part of one poll that can raise: the status the
    reply reports. *)
Definition reported_status (reply : http_reply) : outcome pyval :=
  match reply with
  | NoReply => Failed RequestError
  | Reply _ None => Failed JSONDecodeError
  | Reply _ (Some body) =>
      lift (status_data <- get_attr body "data" empty_dict ;;
            get_attr status_data "status" PNone)
  end.

(** Lines 105-120: the polling loop, from the n-th poll on. [None]
    when [fuel] polls do not reach a terminal status. *)
Fixpoint poll (fuel : nat) (srv : server) (run_id : pyval) (n : nat)
    : option (pyval * list event) :=
  match fuel with
  | O => None
  | S fuel' =>
      let again :=
        option_map (fun '(status, trace) =>
                      (status, Poll run_id :: Sleep 5 :: trace))
          (poll fuel' srv run_id (S n)) in
      match reported_status (poll_reply srv run_id n) with
      | Done status =>
          if existsb (eq_str status) terminal_statuses
          then Some (status, [Poll run_id])
          else again
      | Failed _ => again
      end
  end.

(** Lines 129-131, the part of one fetch that can raise. *)
Definition fetched (reply : http_reply) : outcome pyval :=
  match reply with
  | NoReply => Failed RequestError
  | Reply status_code json =>
      if raises_for_status status_code then Failed (HTTPError status_code)
      else match json with
           | Some body => Done body
           | None => Failed JSONDecodeError
           end
  end.

(** Lines 127-136: the loop that fetches the dataset. Falling out of
    the loop, the function returns [None]. *)
Fixpoint fetch (srv : server) (dataset_id : pyval) (attempts : list nat)
    : outcome pyval * list event :=
  match attempts with
  | [] => (Done PNone, [])
  | attempt :: attempts' =>
      match fetched (fetch_reply srv dataset_id attempt) with
      | Done body => (Done body, [Fetch dataset_id])
      | Failed e =>
          if Nat.eqb attempt (max_retries - 1)
          then (Failed e, [Fetch dataset_id])
          else
            let '(r, trace) := fetch srv dataset_id attempts' in
            (r, Fetch dataset_id :: Sleep 2 :: trace)
      end
  end.

(** [scrape_jobs(limit, days_back, search_queries)], with the token of
    the environment, the reading of the clock and the provider as
    parameters. [None] when [fuel] polls do not reach a terminal
    status. What it prints and the error log it writes are left out.
    The replies are decoded JSON, so the ids of the run and of the
    dataset have a text, and the two addresses built from them exist. *)
Definition scrape_jobs (token : option string) (now : datetime)
    (srv : server) (fuel : nat)
    (limit : pyval) (days_back : Z) (search_queries : option string)
    : option (outcome pyval * list event) :=
  match token with
  | None | Some EmptyString => Some (Failed (Builtin ValueError), [])
  | Some _ =>
      match (delta <- timedelta days_back ;; datetime_sub now delta) with
      | Raise e => Some (Failed (Builtin e), [])
      | Ok from_date =>
          let queries := queries_of search_queries in
          let input :=
            mk_run_input limit (ordinal from_date) (ordinal now) queries in
          match start_run srv input (seq 0 max_retries) with
          | (Failed e, trace) => Some (Failed e, trace)
          | (Done json, trace) =>
              match json with
              | None => Some (Failed JSONDecodeError, trace)
              | Some body =>
                  match (run_data <- get_attr body "data" empty_dict ;;
                         run_id <- get_attr run_data "id" PNone ;;
                         dataset_id <-
                           get_attr run_data "defaultDatasetId" PNone ;;
                         Ok (run_id, dataset_id)) with
                  | Raise e => Some (Failed (Builtin e), trace)
                  | Ok (run_id, dataset_id) =>
                      match poll fuel srv run_id 0 with
                      | None => None
                      | Some (status, polls) =>
                          if negb (eq_str status "SUCCEEDED")
                          then Some (Failed (RunFailure status),
                                     (trace ++ polls)%list)
                          else
                            let '(r, fetches) :=
                              fetch srv dataset_id (seq 0 max_retries) in
                            Some (r, (trace ++ polls ++ fetches)%list)
                      end
                  end
              end
          end
      end
  end.

(** ** [main] *)

(** The parsed command line. *)
Record arguments : Type := mk_arguments {
  arg_search_queries : string;
  arg_limit : Z;
  arg_days : Z;
  arg_verified_payment : bool;
  arg_min_spent : pynum;
  arg_experience : option string;
  arg_output : string
}.

(** Line 291 *)
Definition exp_levels_of (experience : option string) : list string :=
  match experience with
  | Some s => if String.eqb s EmptyString then [] else split "," s
  | None => []
  end.

(** The loop of [filter_jobs] over values that need not be mappings:
    [job.get] raises on the others. *)
Fixpoint filter_raw_loop (verified_payment : bool) (min_spent : pynum)
    (experience_levels : list string) (jobs : list pyval)
    (filtered : list record) : result (list record) :=
  match jobs with
  | [] => Ok filtered
  | PDict job :: jobs' =>
      r <- rejected verified_payment min_spent experience_levels job ;;
      filter_raw_loop verified_payment min_spent experience_levels jobs'
        (if r then filtered else filtered ++ [job])
  | _ :: _ => Raise AttributeError
  end.

(** [filter_jobs] as [main] calls it, on whatever the dataset holds.
    [len(jobs)] comes first; then the cutoff time; then
    [jobs[0].get('client')] when [jobs] counts as true; then the loop. *)
Definition filter_raw (now : datetime) (raw_jobs : pyval)
    (verified_payment : bool) (min_spent : pynum)
    (experience_levels : list string) (days_back : Z)
    : outcome (list record) :=
  match lift (delta <- timedelta days_back ;; datetime_sub now delta) with
  | Failed e => Failed e
  | Done cutoff_time =>
      match raw_jobs with
      | PList jobs =>
          match jobs with
          | [] => Done []
          | PDict _ :: _ =>
              lift (filter_raw_loop verified_payment min_spent
                      experience_levels jobs [])
          | _ :: _ => Failed (Builtin AttributeError)
          end
      | PStr s =>
          if String.eqb s EmptyString then Done []
          else Failed (Builtin AttributeError)
      | PDict d =>
          match d with
          | [] => Done []
          | _ => Failed KeyError
          end
      | _ => Failed (Builtin TypeError)
      end
  end.

(** [[transform_job(j) for j in filtered]] *)
Fixpoint transform_all (filtered : list record)
    : result (list NormalizedJob) :=
  match filtered with
  | [] => Ok []
  | j :: filtered' =>
      out <- transform_job j ;;
      outs <- transform_all filtered' ;;
      Ok (out :: outs)
  end.

(** The file system, as lines 303-309 meet it: what [os.makedirs]
    raises for the directory of the output path (when the path has one),
    what [open] raises for the path, and what a write to the file raises
    before [json.dump] is through; [None] when nothing is raised. *)
Record file_system : Type := mk_file_system {
  makedirs_reply : string -> option error;
  open_reply : string -> option error;
  write_reply : string -> list NormalizedJob -> option error
}.

(** The values [json.dump] writes for a job. *)
Definition fields (out : NormalizedJob) : list pyval :=
  [job_id out; title out; description out; skills out; budget out;
   hourly_rate out; job_type out; experience_level out; client_country out;
   client_total_spent out; client_hires out; proposal_count out;
   posted_date out; job_url out; apply_url out].

(** Lines 303-309: the directory, the file, and [json.dump], which
    raises on an integer that has no text. *)
Definition save (disk : file_system) (path : string)
    (output_data : list NormalizedJob) : outcome unit :=
  match makedirs_reply disk path with
  | Some e => Failed e
  | None =>
      match open_reply disk path with
      | Some e => Failed e
      | None =>
          match write_reply disk path output_data with
          | Some e => Failed e
          | None =>
              if forallb (fun out => forallb renders (fields out)) output_data
              then Done tt
              else Failed (Builtin ValueError)
          end
      end
  end.

(** How a run of the script ends: [sys.exit(1)] after a failed scrape,
    an exception nothing catches, or the output written to the file. *)
Inductive ending : Type :=
| Exit1
| Uncaught (e : error)
| Saved (path : string) (output_data : list NormalizedJob).

(** [len(raw_jobs)] raises on what has no length. *)
Definition has_len (v : pyval) : bool :=
  match v with
  | PStr _ | PList _ | PDict _ => true
  | _ => false
  end.

(** [main()], with the parsed arguments, the token, the two readings of
    the clock (one in [scrape_jobs], one in [filter_jobs]), the provider
    and the file system as parameters. [None] when [fuel] polls do not
    reach a terminal status. *)
Definition main (args : arguments) (token : option string)
    (now_scrape now_filter : datetime) (srv : server) (disk : file_system)
    (fuel : nat) : option (ending * list event) :=
  match scrape_jobs token now_scrape srv fuel (PInt (arg_limit args))
          (arg_days args) (Some (arg_search_queries args)) with
  | None => None
  | Some (Failed _, trace) => Some (Exit1, trace)
  | Some (Done raw_jobs, trace) =>
      if negb (has_len raw_jobs)
      then Some (Uncaught (Builtin TypeError), trace)
      else
        let exp_levels := exp_levels_of (arg_experience args) in
        match filter_raw now_filter raw_jobs (arg_verified_payment args)
                (arg_min_spent args) exp_levels (arg_days args) with
        | Failed e => Some (Uncaught e, trace)
        | Done filtered =>
            match transform_all filtered with
            | Raise e => Some (Uncaught (Builtin e), trace)
            | Ok output_data =>
                match save disk (arg_output args) output_data with
                | Failed e => Some (Uncaught e, trace)
                | Done _ =>
                    Some (Saved (arg_output args) output_data, trace)
                end
            end
        end
  end.

End Ingest.

(** ** Counting what a trace holds *)

Module Trace.

Import Ingest.

Definition is_post (e : event) : bool :=
  match e with Post _ => true | _ => false end.

Definition is_poll (e : event) : bool :=
  match e with Poll _ => true | _ => false end.

Definition is_fetch (e : event) : bool :=
  match e with Fetch _ => true | _ => false end.

Definition posts (trace : list event) : nat :=
  List.length (filter is_post trace).

Definition polls (trace : list event) : nat :=
  List.length (filter is_poll trace).

Definition fetches (trace : list event) : nat :=
  List.length (filter is_fetch trace).

(** The seconds slept, in all. *)
Fixpoint slept (trace : list event) : Z :=
  match trace with
  | [] => 0
  | Sleep seconds :: trace' => seconds + slept trace'
  | _ :: trace' => slept trace'
  end.

(** [n] polls, each followed by a sleep of 5 seconds. *)
Fixpoint waiting (run_id : pyval) (n : nat) : list event :=
  match n with
  | O => []
  | S n' => Poll run_id :: Sleep 5 :: waiting run_id n'
  end.

(** The poll reports a terminal status. *)
Definition ends_polling (reply : http_reply) : bool :=
  match reported_status reply with
  | Done status => existsb (eq_str status) terminal_statuses
  | Failed _ => false
  end.

(** The mappings a dataset holds, when it is a list. *)
Fixpoint mappings (l : list pyval) : list record :=
  match l with
  | [] => []
  | PDict d :: l' => d :: mappings l'
  | _ :: l' => mappings l'
  end.

Definition records_of (raw_jobs : pyval) : list record :=
  match raw_jobs with
  | PList l => mappings l
  | _ => []
  end.

End Trace.

(* ================================================================== *)
(** * The program: [upwork_proposal_generator.py] *)
(* ================================================================== *)

(** [create_google_doc], [update_sheet], [create_sheet], [load_bio],
    [call_llm], the two prompt builders and [process_job]. The language
    model, the Google client, the bio file, the clock and
    [datetime.fromisoformat] are parameters; what is printed is left
    out, and so are errors of the file system. [main], which runs
    [process_job] on a pool of threads, is not modelled. The jobs are
    what [json.load] returns and the replies what the Google client
    decodes, so every value [process_job] turns into text has one;
    [budget_str], whose errors are listed below, is modelled on the
    values that have none as well. *)

Module Proposals.

(** What a call of the Google client brings: the decoded body, or an
    exception, [HttpError] or another. *)
Inductive api_reply : Type :=
| Returns (body : pyval)
| Raises (e : error).

(** The Docs service: its replies to the [create] and to the
    [batchUpdate] of the attempt-th try of [create_google_doc]. *)
Record docs_service : Type := mk_docs_service {
  create_reply : string -> nat -> api_reply;
  update_reply : pyval -> string -> nat -> api_reply
}.

Inductive kind : Type :=
| CoverLetter
| ProposalBody.

(** A prompt: the template, and the three texts it is filled with. *)
Record prompt : Type := mk_prompt {
  template : kind;
  about_title : string;
  about_description : string;
  background : string
}.

(** What the [try] block of [call_llm] comes to: the content of the
    first choice, or an exception with its message. *)
Inductive llm_reply : Type :=
| Completion (content : string)
| LlmRaises (message : string).

(** What [datetime.fromisoformat] makes of a text: a [ValueError], a
    naive datetime, or an aware one, given in UTC. *)
Inductive parsed : Type :=
| Unparsed
| Naive
| Aware (t : datetime).

(** What the script does that the outside can see, in order. The pauses
    are in milliseconds. *)
Inductive effect : Type :=
| Ask (p : prompt)
| CreateDoc (title : string)
| UpdateDoc (doc_id : pyval) (content : string)
| NewSheet (title : string)
| AppendRow (sheet_id : pyval) (row : list pyval)
| Pause (milliseconds : Z).

(** The world around [process_job]. *)
Record services : Type := mk_services {
  api_key : option string;
  bio_file : option string;
  llm : prompt -> llm_reply;
  docs : docs_service;
  new_sheet_reply : string -> api_reply;
  append_reply : pyval -> list pyval -> api_reply;
  fromisoformat : string -> parsed
}.

(** ** [load_bio], [call_llm] and the two prompts *)

Definition load_bio (env : services) : string :=
  match bio_file env with
  | Some text => strip text
  | None => EmptyString
  end.

Definition call_llm (env : services) (p : prompt) : string * list effect :=
  match api_key env with
  | None | Some EmptyString => ("[Error: OPENAI_API_KEY missing]", [])
  | Some _ =>
      match llm env p with
      | Completion content => (strip content, [Ask p])
      | LlmRaises message =>
          ("[Error generating content: " ++ message ++ "]", [Ask p])
      end
  end.

Definition generate_cover_letter (env : services) (job : record)
    (bio : string) : string * list effect :=
  call_llm env
    (mk_prompt CoverLetter (py_str (get job "title"))
       (py_str (get job "description")) bio).

Definition generate_proposal_body (env : services) (job : record)
    (bio : string) : string * list effect :=
  call_llm env
    (mk_prompt ProposalBody (py_str (get job "title"))
       (py_str (get job "description")) bio).

(** ** [create_google_doc] *)

Definition doc_url_of (doc_id : pyval) : string :=
  "https://docs.google.com/document/d/" ++ py_str doc_id ++ "/edit".

(** Lines 150-181: the loop, over the attempts left, with the backoff
    it has reached. It ends with [doc_url], or with what it raises. *)
Fixpoint create_loop (service_docs : docs_service) (title content : string)
    (attempts : list nat) (backoff : Z) : outcome pyval * list effect :=
  match attempts with
  | [] => (Done PNone, [])
  | attempt :: attempts' =>
      match create_reply service_docs title attempt with
      | Raises HttpError =>
          let '(r, trace) :=
            create_loop service_docs title content attempts' (backoff * 2) in
          (r, CreateDoc title :: Pause backoff :: trace)
      | Raises e => (Failed e, [CreateDoc title])
      | Returns doc =>
          match get_attr doc "documentId" PNone with
          | Raise e => (Failed (Builtin e), [CreateDoc title])
          | Ok doc_id =>
              match update_reply service_docs doc_id content attempt with
              | Raises HttpError =>
                  let '(r, trace) :=
                    create_loop service_docs title content attempts'
                      (backoff * 2) in
                  (r, CreateDoc title :: UpdateDoc doc_id content
                        :: Pause backoff :: trace)
              | Raises e =>
                  (Failed e, [CreateDoc title; UpdateDoc doc_id content])
              | Returns _ =>
                  (Done (PStr (doc_url_of doc_id)),
                   [CreateDoc title; UpdateDoc doc_id content; Pause 1000])
              end
          end
      end
  end.

Definition create_google_doc (service_docs : docs_service)
    (title content : string) : outcome pyval * list effect :=
  create_loop service_docs title content (seq 0 4) 1500.

(** ** [update_sheet] and [create_sheet] *)

(** An [HttpError] is printed and dropped. *)
Definition update_sheet (env : services) (sheet_id : pyval)
    (row_data : list pyval) : outcome unit * list effect :=
  match append_reply env sheet_id row_data with
  | Returns _ | Raises HttpError => (Done tt, [AppendRow sheet_id row_data])
  | Raises e => (Failed e, [AppendRow sheet_id row_data])
  end.

Definition headers : list pyval :=
  map PStr
    ["Title"; "Job URL"; "Budget"; "Experience"; "Skills"; "Category";
     "Client Country"; "Client Spent"; "Client Hires"; "Connects";
     "Proposal Count"; "Posted Age"; "Apply Link"; "Cover Letter";
     "Proposal Doc"; "Status"; "Rejection Reason"].

Definition create_sheet (env : services) (title : string)
    : outcome pyval * list effect :=
  match new_sheet_reply env title with
  | Raises e => (Failed e, [NewSheet title])
  | Returns spreadsheet =>
      match get_attr spreadsheet "spreadsheetId" PNone with
      | Raise e => (Failed (Builtin e), [NewSheet title])
      | Ok sheet_id =>
          match update_sheet env sheet_id headers with
          | (Failed e, appended) => (Failed e, NewSheet title :: appended)
          | (Done _, appended) => (Done sheet_id, NewSheet title :: appended)
          end
      end
  end.

(** ** [process_job] *)

(** [v[:30]] raises on anything but a text or a list. *)
Definition sliceable (v : pyval) : bool :=
  match v with
  | PStr _ | PList _ => true
  | _ => false
  end.

(** [v > 0] *)
Definition gt_zero (v : pyval) : result bool :=
  match as_number v with
  | Some n => Ok (num_lt (NInt 0) n)
  | None => Raise TypeError
  end.

(** Lines 259-273: the budget cell. *)
Definition budget_str (budget_raw : pyval) : result string :=
  match budget_raw with
  | PDict d =>
      let fixed := dict_get d "fixedBudget" PNone in
      let hourly := dict_get d "hourlyRate" empty_dict in
      positive <- (if truthy fixed then gt_zero fixed else Ok false) ;;
      if positive then text <- str_of fixed ;; Ok ("$" ++ text)
      else if truthy hourly then
        min_rate <- get_attr hourly "min" PNone ;;
        max_rate <- get_attr hourly "max" PNone ;;
        if truthy (por min_rate max_rate)
        then
          low <- str_of (por min_rate (PStr "?")) ;;
          high <- str_of (por max_rate (PStr "?")) ;;
          Ok ("$" ++ low ++ "-$" ++ high ++ " /hr")
        else Ok EmptyString
      else Ok EmptyString
  | _ => if truthy budget_raw then str_of budget_raw else Ok EmptyString
  end.

(** The microseconds from the start of day 0 to [t]. *)
Definition instant (t : datetime) : Z :=
  ordinal t * 86400000000 + microsecond t.

(** Lines 283-295: the age, from [diff.days] and [diff.seconds]. *)
Definition age_of (now_dt posted_dt : datetime) : string :=
  let diff := instant now_dt - instant posted_dt in
  let days := diff / 86400000000 in
  let seconds := (diff mod 86400000000) / 1000000 in
  let hours := seconds / 3600 in
  let minutes := (seconds mod 3600) / 60 in
  if 0 <? days then of_Z days ++ "d ago"
  else if 0 <? hours then of_Z hours ++ "h ago"
  else of_Z minutes ++ "m ago".

(** Lines 275-297: the age cell. Whatever the [try] block raises leaves
    it empty. *)
Definition age_str (env : services) (now_dt : datetime)
    (posted_date_str : pyval) : string :=
  if truthy posted_date_str then
    match posted_date_str with
    | PStr s =>
        match fromisoformat env (replace "Z" "+00:00" s) with
        | Aware posted_dt => age_of now_dt posted_dt
        | Naive | Unparsed => EmptyString
        end
    | _ => EmptyString
    end
  else EmptyString.

(** [", ".join(l)] raises on an item that is not a text. *)
Fixpoint texts (l : list pyval) : result (list string) :=
  match l with
  | [] => Ok []
  | PStr s :: l' => ss <- texts l' ;; Ok (s :: ss)
  | _ :: _ => Raise TypeError
  end.

(** Line 306: the skills cell. *)
Definition skills_cell (skills : pyval) : result string :=
  match skills with
  | PList l => ss <- texts l ;; Ok (join ", " ss)
  | _ => Ok (py_str (por skills (PStr EmptyString)))
  end.

(** What [process_job] returns: the mapping with the status [success],
    or the one with the status [failed], whose error text is left out. *)
Inductive job_result : Type :=
| Success (job_id doc_url : pyval) (row_data : list pyval)
| Failure (job_id : pyval).

Definition nl : string := String (chr 10) EmptyString.

(** Lines 301-319: the row of the sheet. *)
Definition row_of (job : record) (budget_cell age_cell skills cl : string)
    (doc_url : pyval) : list pyval :=
  [por (get job "title") (PStr EmptyString);
   por (get job "job_url") (PStr EmptyString);
   PStr budget_cell;
   por (get job "experience_level") (PStr EmptyString);
   PStr skills;
   PStr EmptyString;
   por (get job "client_country") (PStr EmptyString);
   PStr (py_str (por (get job "client_total_spent") (PStr EmptyString)));
   PStr (py_str (por (get job "client_hires") (PStr EmptyString)));
   PStr EmptyString;
   PStr (py_str (por (get job "proposal_count") (PStr EmptyString)));
   PStr age_cell;
   por (get job "apply_url") (PStr EmptyString);
   PStr cl;
   PStr (py_str doc_url);
   PStr "Ready";
   PStr EmptyString].

Definition process_job (env : services) (now_dt : datetime) (job : record)
    (sheet_id : pyval) : job_result * list effect :=
  if negb (sliceable (get job "title")) then (Failure (get job "job_id"), [])
  else
    let bio := load_bio env in
    let '(cl, asked_cl) := generate_cover_letter env job bio in
    let '(prop, asked_prop) := generate_proposal_body env job bio in
    let doc_title :=
      "Proposal: " ++ py_str (get job "title") ++ " - "
      ++ py_str (get job "job_id") in
    let combined_text :=
      "Cover Letter:" ++ nl ++ cl ++ nl ++ nl ++ "Proposal:" ++ nl ++ prop in
    let '(created, doc_trace) :=
      create_google_doc (docs env) doc_title combined_text in
    let doc_url :=
      match created with
      | Done url => url
      | Failed _ => PStr "FALLBACK_TEXT_ONLY"
      end in
    let trace := (asked_cl ++ asked_prop ++ doc_trace)%list in
    match budget_str (get job "budget") with
    | Raise _ => (Failure (get job "job_id"), trace)
    | Ok budget_cell =>
        let age_cell := age_str env now_dt (get job "posted_date") in
        match skills_cell (get job "skills") with
        | Raise _ => (Failure (get job "job_id"), trace)
        | Ok skills =>
            let row := row_of job budget_cell age_cell skills cl doc_url in
            if truthy sheet_id && negb (eq_str sheet_id "DRY_RUN")
            then
              match update_sheet env sheet_id row with
              | (Failed _, appended) =>
                  (Failure (get job "job_id"), (trace ++ appended)%list)
              | (Done _, appended) =>
                  (Success (get job "job_id") doc_url row,
                   (trace ++ appended)%list)
              end
            else (Success (get job "job_id") doc_url row, trace)
        end
    end.

(** The mapping the scraper writes for a job with [json.dump], as
    [json.load] reads it back. *)
Definition to_record (out : NormalizedJob) : record :=
  [("job_id", job_id out); ("title", title out);
   ("description", description out); ("skills", skills out);
   ("budget", budget out); ("hourly_rate", hourly_rate out);
   ("job_type", job_type out);
   ("experience_level", experience_level out);
   ("client_country", client_country out);
   ("client_total_spent", client_total_spent out);
   ("client_hires", client_hires out);
   ("proposal_count", proposal_count out);
   ("posted_date", posted_date out); ("job_url", job_url out);
   ("apply_url", apply_url out)].

End Proposals.

(** ** Counting what the generator does *)

Module Tally.

Import Proposals.

Definition is_ask (e : effect) : bool :=
  match e with Ask _ => true | _ => false end.

Definition is_create (e : effect) : bool :=
  match e with CreateDoc _ => true | _ => false end.

Definition is_update (e : effect) : bool :=
  match e with UpdateDoc _ _ => true | _ => false end.

Definition is_append (e : effect) : bool :=
  match e with AppendRow _ _ => true | _ => false end.

Definition asks (trace : list effect) : nat :=
  List.length (filter is_ask trace).

Definition creates (trace : list effect) : nat :=
  List.length (filter is_create trace).

Definition updates (trace : list effect) : nat :=
  List.length (filter is_update trace).

Definition appends (trace : list effect) : nat :=
  List.length (filter is_append trace).

(** The milliseconds paused, in all. *)
Fixpoint paused (trace : list effect) : Z :=
  match trace with
  | [] => 0
  | Pause milliseconds :: trace' => milliseconds + paused trace'
  | _ :: trace' => paused trace'
  end.

(** The try hits an [HttpError], at the create or at the update. *)
Definition refused (service_docs : docs_service) (title content : string)
    (attempt : nat) : bool :=
  match create_reply service_docs title attempt with
  | Raises HttpError => true
  | Raises _ => false
  | Returns doc =>
      match get_attr doc "documentId" PNone with
      | Raise _ => false
      | Ok doc_id =>
          match update_reply service_docs doc_id content attempt with
          | Raises HttpError => true
          | _ => false
          end
      end
  end.

(** The try goes through: the document it has made and filled. *)
Definition filled (service_docs : docs_service) (title content : string)
    (attempt : nat) : option pyval :=
  match create_reply service_docs title attempt with
  | Raises _ => None
  | Returns doc =>
      match get_attr doc "documentId" PNone with
      | Raise _ => None
      | Ok doc_id =>
          match update_reply service_docs doc_id content attempt with
          | Returns _ => Some doc_id
          | Raises _ => None
          end
      end
  end.

(** The title and the text of the document [process_job] asks for. *)
Definition doc_title_of (job : record) : string :=
  "Proposal: " ++ py_str (get job "title") ++ " - "
  ++ py_str (get job "job_id").

Definition cover_letter_of (env : services) (job : record) : string :=
  fst (generate_cover_letter env job (load_bio env)).

Definition proposal_of (env : services) (job : record) : string :=
  fst (generate_proposal_body env job (load_bio env)).

Definition combined_text_of (env : services) (job : record) : string :=
  "Cover Letter:" ++ nl ++ cover_letter_of env job ++ nl ++ nl
  ++ "Proposal:" ++ nl ++ proposal_of env job.

(** The sheet is one that rows are appended to. *)
Definition live (sheet_id : pyval) : bool :=
  truthy sheet_id && negb (eq_str sheet_id "DRY_RUN").

(** The document address [process_job] ends with, from what
    [create_google_doc] has come to. *)
Definition doc_url_from (created : outcome pyval) : pyval :=
  match created with
  | Done url => url
  | Failed _ => PStr "FALLBACK_TEXT_ONLY"
  end.

(** The keys of a job that [process_job] reads. *)
Definition keys_read : list string :=
  ["title"; "description"; "job_id"; "budget"; "posted_date"; "skills";
   "job_url"; "experience_level"; "client_country"; "client_total_spent";
   "client_hires"; "proposal_count"; "apply_url"].

End Tally.

(* ================================================================== *)
(** * Vocabulary of the statements *)
(* ================================================================== *)

(** The job reaches [filtered.append(job)]: the body of the loop returns
    and takes no [continue]. *)
Definition admitted (verified_payment : bool) (min_spent : pynum)
    (experience_levels : list string) (job : record) : Prop :=
  rejected verified_payment min_spent experience_levels job = Ok false.

(** The same as a test, and the jobs of a list that pass it, in the
    order of the list. *)
Definition admits (verified_payment : bool) (min_spent : pynum)
    (experience_levels : list string) (job : record) : bool :=
  match rejected verified_payment min_spent experience_levels job with
  | Ok false => true
  | _ => false
  end.

Definition admitted_records (verified_payment : bool) (min_spent : pynum)
    (experience_levels : list string) (jobs : list record) : list record :=
  filter (admits verified_payment min_spent experience_levels) jobs.

(** The days for which the cutoff time exists. *)
Definition cutoff_exists (now : datetime) (days : Z) : Prop :=
  Z.abs days <= max_delta_days /\ 1 <= ordinal now - days <= max_ordinal.

(** The settings of one run of the filter. *)
Record settings : Type := mk_settings {
  verified_payment : bool;
  min_spent : pynum;
  experience_levels : list string
}.

(** [filter_jobs] under the settings [c]. *)
Definition run (now : datetime) (jobs : list record) (c : settings)
    (days_back : Z) : result (list record) :=
  filter_jobs now jobs (verified_payment c) (min_spent c)
    (experience_levels c) days_back.

(** [tightens loose tight]: [tight] is [loose] with one threshold
    tightened. *)
Inductive tightens : settings -> settings -> Prop :=
| raise_min_spent vp m1 m2 el :
    num_le m1 m2 = true ->
    tightens (mk_settings vp m1 el) (mk_settings vp m2 el)
| narrow_levels vp m el1 el2 :
    el2 <> [] ->
    el1 = [] \/ incl el2 el1 ->
    tightens (mk_settings vp m el1) (mk_settings vp m el2)
| require_verified m el :
    tightens (mk_settings false m el) (mk_settings true m el).

(** The value is a mapping. *)
Definition is_mapping (v : pyval) : bool :=
  match v with PDict _ => true | _ => false end.

(** A string, or a value that counts as false. *)
Definition text_or_false (v : pyval) : bool :=
  match v with PStr _ => true | _ => negb (truthy v) end.

(** The member [k] of [v] when [v] is a mapping that has it, [default]
    otherwise. *)
Definition member (v : pyval) (k : string) (default : pyval) : pyval :=
  match v with PDict d => dict_get d k default | _ => default end.

(** [client] and [vendor], and the client's [location] and [stats], are
    mappings when present; the two experience levels and the two URLs are
    strings or count as false; and the record holds no integer of more
    than 4300 digits, as no record decoded from JSON does. *)
Definition well_shaped (job : record) : bool :=
  let client := dict_get job "client" empty_dict in
  let vendor := dict_get job "vendor" empty_dict in
  is_mapping client && is_mapping vendor
  && is_mapping (member client "location" empty_dict)
  && is_mapping (member client "stats" empty_dict)
  && text_or_false (get job "experienceLevel")
  && text_or_false (member vendor "experienceLevel" PNone)
  && text_or_false (get job "url")
  && text_or_false (get job "externalLink")
  && renders (PDict job).

(** [client] and [vendor], and the client's [location] and [stats], are
    mappings when present: the values [transform_job] reads members
    of. *)
Definition reads_mappings (job : record) : bool :=
  let client := dict_get job "client" empty_dict in
  let vendor := dict_get job "vendor" empty_dict in
  is_mapping client && is_mapping vendor
  && is_mapping (member client "location" empty_dict)
  && is_mapping (member client "stats" empty_dict).

(** The record has no key [k]. *)
Definition absent (job : record) (k : string) : Prop := lookup k job = None.




(** The text [float] is applied to: the total spent, or 0 when it
    counts as false, without its [,] and [$]. *)
Definition spend_text (total_spent : pyval) : string :=
  replace "$" "" (replace "," "" (py_str (por total_spent (PInt 0)))).

(** The flag as the block resolves it: the record's own
    [isPaymentVerified] counting as true, else the client's
    [paymentMethodVerified] being [True], else the client's
    [paymentVerificationStatus] being the text VERIFIED. *)
Definition verified_flag (job : record) : bool :=
  let client := dict_get job "client" empty_dict in
  truthy (get job "isPaymentVerified")
  || is_True (member client "paymentMethodVerified" PNone)
  || eq_str (member client "paymentVerificationStatus" PNone) "VERIFIED".

(** The text mentions one of the three phrases. *)
Definition mentions_phrase (s : string) : bool :=
  existsb (fun phrase => contains phrase s) reject_phrases.






(* ================================================================== *)
(** * Example records *)
(* ================================================================== *)

(** The clock of the examples: 4 November 2026, midnight. *)
Definition clock : datetime := mk_datetime 739924 0.

Definition sample_jobs : list record :=
  [ [("title", PStr "Automate invoices");
     ("client", PDict [("stats", PDict [("totalSpent", PStr "2,500")])]);
     ("experienceLevel", PStr "Expert");
     ("url", PStr "https://x/jobs/~0198abc")];
    [("proposals", PStr "20 to 50")] ].

Definition two_spends : record :=
  [("client", PDict [("totalSpent", PInt 100);
                     ("stats", PDict [("totalSpent", PInt 200)])])].

(** An integer of 4401 digits. *)
Definition long_int : Z := Eval vm_compute in 10 ^ 4400.

Definition url_only : record := [("url", PStr "https://x/jobs/~0198abc")].

Definition url_and_number_client : record :=
  [("url", PStr "https://x/jobs/~0198abc"); ("client", PInt 5)].

Definition url_only_out : NormalizedJob :=
  {| job_id := PStr "~0198abc";
     title := PNone; description := PNone; skills := PList [];
     budget := PNone; hourly_rate := PNone; job_type := PNone;
     experience_level := PNone; client_country := PNone;
     client_total_spent := PNone; client_hires := PNone;
     proposal_count := PNone; posted_date := PNone;
     job_url := PStr "https://x/jobs/~0198abc";
     apply_url :=
       PStr "https://www.upwork.com/nx/proposals/job/~0198abc/apply/" |}.

Definition spend_2500 : record :=
  [("client", PDict [("stats", PDict [("totalSpent", PStr "2,500")])])].

Definition negative_spend : record :=
  [("client", PDict [("totalSpent", PInt (-5))])].

Definition nan_spend : record :=
  [("client", PDict [("totalSpent", PStr "nan")])].

Definition verified_client : record :=
  [("client", PDict [("paymentMethodVerified", PBool true)])].



Definition spend_500 : record :=
  [("client", PDict [("totalSpent", PInt 500)])].

(** A reply that starts the run [run1] with the dataset [ds1]. *)
Definition started_reply : Ingest.http_reply :=
  Ingest.Reply 201
    (Some (PDict [("data", PDict [("id", PStr "run1");
                                  ("defaultDatasetId", PStr "ds1")])])).

Definition status_reply (status : string) : Ingest.http_reply :=
  Ingest.Reply 200 (Some (PDict [("data", PDict [("status", PStr status)])])).

(** A provider that starts the run at once, reports RUNNING twice and
    then SUCCEEDED, and serves [sample_jobs] as the dataset. *)
Definition good_server : Ingest.server :=
  Ingest.mk_server
    (fun _ _ => started_reply)
    (fun _ n => if (n <? 2)%nat then status_reply "RUNNING"
                else status_reply "SUCCEEDED")
    (fun _ _ => Ingest.Reply 200 (Some (PList (map PDict sample_jobs)))).

(** A provider that answers every post with the status 404. *)
Definition refusing_server : Ingest.server :=
  Ingest.mk_server
    (fun _ _ => Ingest.Reply 404 None)
    (fun _ _ => Ingest.NoReply)
    (fun _ _ => Ingest.NoReply).

(** A provider that starts the run and then answers every poll with an
    error that carries no status. *)
Definition stuck_server : Ingest.server :=
  Ingest.mk_server
    (fun _ _ => started_reply)
    (fun _ _ => Ingest.Reply 404
                  (Some (PDict [("error", PStr "run not found")])))
    (fun _ _ => Ingest.NoReply).

(** A provider that no request reaches. *)
Definition silent_server : Ingest.server :=
  Ingest.mk_server
    (fun _ _ => Ingest.NoReply)
    (fun _ _ => Ingest.NoReply)
    (fun _ _ => Ingest.NoReply).

(** A provider whose run succeeds at once and whose dataset comes
    wrapped in an object. *)
Definition wrapping_server : Ingest.server :=
  Ingest.mk_server
    (fun _ _ => started_reply)
    (fun _ _ => status_reply "SUCCEEDED")
    (fun _ _ => Ingest.Reply 200
                  (Some (PDict [("items", PList (map PDict sample_jobs))]))).

(** A file system that takes every file, and one that is full. *)
Definition open_disk : Ingest.file_system :=
  Ingest.mk_file_system (fun _ => None) (fun _ => None) (fun _ _ => None).

Definition full_disk : Ingest.file_system :=
  Ingest.mk_file_system (fun _ => None) (fun _ => None)
    (fun _ _ => Some OSError).

(** A provider whose run fails. *)
Definition failing_server : Ingest.server :=
  Ingest.mk_server
    (fun _ _ => started_reply)
    (fun _ _ => status_reply "FAILED")
    (fun _ _ => Ingest.NoReply).

Definition sample_input : Ingest.run_input :=
  Ingest.mk_run_input (PInt 50) 739923 739924 ["workflow automation"].

Definition sample_arguments : Ingest.arguments :=
  Ingest.mk_arguments "workflow automation" 50 1 false (NInt 1000)
    (Some "intermediate, expert") "out/jobs.json".

(** The reply to a [create] that makes the document [doc1]. *)
Definition made_reply : Proposals.api_reply :=
  Proposals.Returns (PDict [("documentId", PStr "doc1")]).

(** A Docs service that accepts everything. *)
Definition quiet_docs : Proposals.docs_service :=
  Proposals.mk_docs_service
    (fun _ _ => made_reply)
    (fun _ _ _ => Proposals.Returns (PDict [])).

(** A Docs service over its quota: every call raises [HttpError]. *)
Definition busy_docs : Proposals.docs_service :=
  Proposals.mk_docs_service
    (fun _ _ => Proposals.Raises HttpError)
    (fun _ _ _ => Proposals.Raises HttpError).

(** A Docs service whose first [batchUpdate] raises [HttpError]. *)
Definition flaky_docs : Proposals.docs_service :=
  Proposals.mk_docs_service
    (fun _ _ => made_reply)
    (fun _ _ n => if (n <? 1)%nat then Proposals.Raises HttpError
                  else Proposals.Returns (PDict [])).

(** A Docs service that cannot be reached. *)
Definition offline_docs : Proposals.docs_service :=
  Proposals.mk_docs_service
    (fun _ _ => Proposals.Raises RequestError)
    (fun _ _ _ => Proposals.Raises RequestError).

(** A world with a key, no bio file, a model that answers [Hello], a
    Sheets service whose appends raise [HttpError], and a parser that
    reads every date as one minute after [clock]. *)
Definition studio (service_docs : Proposals.docs_service)
    : Proposals.services :=
  Proposals.mk_services (Some "key") None
    (fun _ => Proposals.Completion " Hello ")
    service_docs
    (fun _ => Proposals.Returns (PDict [("spreadsheetId", PStr "sheet1")]))
    (fun _ _ => Proposals.Raises HttpError)
    (fun _ => Proposals.Aware (mk_datetime 739924 60000000)).

Definition titled_job : record :=
  [("job_id", PStr "~01"); ("title", PStr "Automate invoices");
   ("budget", PDict [("fixedBudget", PInt 500)]);
   ("hourly_rate", PStr "$40");
   ("skills", PList [PStr "n8n"; PStr "Zapier"]);
   ("client_hires", PInt 0);
   ("posted_date", PStr "2026-11-04T00:01:00Z")].

Definition titled_job_other_rate : record :=
  [("job_id", PStr "~01"); ("title", PStr "Automate invoices");
   ("budget", PDict [("fixedBudget", PInt 500)]);
   ("hourly_rate", PInt 95);
   ("skills", PList [PStr "n8n"; PStr "Zapier"]);
   ("client_hires", PInt 0);
   ("posted_date", PStr "2026-11-04T00:01:00Z")].



(* ================================================================== *)
(** * Properties *)
(* ================================================================== *)

(** ** Order on the numbers Python compares *)

Lemma Qltb_lt (p q : Q) : Qltb p q = true <-> (p < q)%Q.
Proof.
  unfold Qltb. rewrite Qlt_alt.
  destruct (p ?= q)%Q; split; congruence.
Qed.

Lemma Qleb_le (p q : Q) : Qleb p q = true <-> (p <= q)%Q.
Proof.
  unfold Qleb. rewrite Qle_alt.
  destruct (p ?= q)%Q; split; congruence.
Qed.

Lemma xlt_le_trans (a b c : xreal) :
  xlt a b = true -> xle b c = true -> xlt a c = true.
Proof.
  destruct a as [| [] | p], b as [| [] | q], c as [| [] | r];
    simpl; try congruence.
  rewrite !Qltb_lt, Qleb_le. apply Qlt_le_trans.
Qed.

Lemma num_lt_le_trans (a b c : pynum) :
  num_lt a b = true -> num_le b c = true -> num_lt a c = true.
Proof. apply xlt_le_trans. Qed.

(** ** The loop of [filter_jobs] *)

Lemma admits_admitted vp ms el job :
  admits vp ms el job = true <-> admitted vp ms el job.
Proof.
  unfold admits, admitted.
  destruct (rejected vp ms el job) as [[] |]; split; congruence.
Qed.

(** When the loop returns, it returns what [filtered] holds followed by
    the jobs the body admits, in the order of [jobs]. *)
Lemma filter_loop_kept vp ms el (jobs : list record) :
  forall filtered out,
    filter_loop vp ms el jobs filtered = Ok out ->
    out = (filtered ++ admitted_records vp ms el jobs)%list.
Proof.
  induction jobs as [| job jobs IH]; intros filtered out H; simpl in H.
  - injection H as <-. now rewrite app_nil_r.
  - unfold bind in H. unfold admitted_records, admits. simpl.
    destruct (rejected vp ms el job) as [r |]; [| discriminate].
    apply IH in H. subst out. destruct r; [reflexivity |].
    now rewrite <- app_assoc.
Qed.

(** The loop returns as soon as the body returns on every job. *)
Lemma filter_loop_total vp ms el (jobs : list record) :
  Forall (fun job => exists r, rejected vp ms el job = Ok r) jobs ->
  forall filtered, exists out, filter_loop vp ms el jobs filtered = Ok out.
Proof.
  induction 1 as [| job jobs [r Hr] _ IH]; intros filtered; simpl.
  - eauto.
  - rewrite Hr. simpl. apply IH.
Qed.

(** [filter_jobs] is the loop, once the cutoff time has been computed. *)
Lemma filter_jobs_loop now jobs vp ms el days out :
  filter_jobs now jobs vp ms el days = Ok out ->
  filter_loop vp ms el jobs [] = Ok out.
Proof.
  unfold filter_jobs, bind.
  destruct (timedelta days); [| discriminate].
  destruct (datetime_sub now a); [| discriminate].
  trivial.
Qed.


(** A job reaches [filtered.append(job)] exactly when none of the four
    blocks of the loop body skips it, each of them returning. *)
Lemma admitted_iff vp ms el job :
  admitted vp ms el job <->
  (if vp then unverified job else Ok false) = Ok false /\
  (if num_lt (NInt 0) ms then low_spend ms job else Ok false) = Ok false /\
  level_mismatch el job = Ok false /\
  high_competition job = Ok false.
Proof.
  unfold admitted, rejected, bind.
  destruct (if vp then unverified job else Ok false) as [[] |];
    [intuition congruence | | intuition congruence].
  destruct (if num_lt (NInt 0) ms then low_spend ms job else Ok false)
    as [[] |]; [intuition congruence | | intuition congruence].
  destruct (level_mismatch el job) as [[] |];
    [intuition congruence | | intuition congruence].
  destruct (high_competition job) as [[] |]; intuition congruence.
Qed.

(** ** Tightening one threshold *)

Lemma low_spend_monotone m1 m2 job :
  num_le m1 m2 = true ->
  (if num_lt (NInt 0) m2 then low_spend m2 job else Ok false) = Ok false ->
  (if num_lt (NInt 0) m1 then low_spend m1 job else Ok false) = Ok false.
Proof.
  intros Hle H.
  destruct (num_lt (NInt 0) m1) eqn:H1; [| reflexivity].
  rewrite (num_lt_le_trans _ _ _ H1 Hle) in H.
  unfold low_spend, bind in *.
  destruct (resolve_total_spent job) as [v |]; [| discriminate].
  destruct (num_lt (coerce_spent v) m1) eqn:Hv; [| reflexivity].
  rewrite (num_lt_le_trans _ _ _ Hv Hle) in H. discriminate.
Qed.

Lemma existsb_incl {A : Type} (f : A -> bool) (l1 l2 : list A) :
  incl l1 l2 -> existsb f l1 = true -> existsb f l2 = true.
Proof.
  intros Hi H. apply existsb_exists in H. destruct H as (x & Hx & Hf).
  apply existsb_exists. exists x. auto.
Qed.

Lemma level_mismatch_monotone el1 el2 job :
  el2 <> [] ->
  el1 = [] \/ incl el2 el1 ->
  level_mismatch el2 job = Ok false ->
  level_mismatch el1 job = Ok false.
Proof.
  intros Hne Hsub. unfold level_mismatch, bind.
  destruct (resolve_level job) as [v |]; [| discriminate].
  destruct el2 as [| x2 el2]; [congruence |].
  destruct el1 as [| x1 el1]; [reflexivity |].
  destruct Hsub as [? | Hsub]; [discriminate |].
  simpl andb. destruct (truthy v); [| reflexivity].
  destruct (lower_of v) as [lw |]; [| discriminate].
  intros H. injection H as H'. apply negb_false_iff in H'.
  f_equal. apply negb_false_iff.
  apply (existsb_incl _ _ _ (incl_map (fun l => lower (strip l)) Hsub)).
  exact H'.
Qed.

Lemma tightens_admitted loose tight job :
  tightens loose tight ->
  admitted (verified_payment tight) (min_spent tight)
    (experience_levels tight) job ->
  admitted (verified_payment loose) (min_spent loose)
    (experience_levels loose) job.
Proof.
  intros T. rewrite !admitted_iff.
  destruct T as [vp m1 m2 el Hle | vp m el1 el2 Hne Hsub | m el]; simpl;
    intros (H1 & H2 & H3 & H4); repeat split; trivial.
  - eapply low_spend_monotone; eauto.
  - eapply level_mismatch_monotone; eauto.
Qed.

(** What a run returns is the list of the jobs its settings admit. *)
Lemma run_kept now jobs c days kept :
  run now jobs c days = Ok kept ->
  kept = admitted_records (verified_payment c) (min_spent c)
           (experience_levels c) jobs.
Proof. intros H. now apply filter_jobs_loop, filter_loop_kept in H. Qed.

(** C9. Tightening one threshold (a larger minimum spend, an allow-set
    narrowed to a non-empty subset or put in place of the empty one, or
    verified payment required) never admits more: over the same jobs,
    the records the tighter settings admit are among those the looser
    settings admit, and so every record the tighter run returns is
    returned by the looser run. *)
Theorem tightening_admits_no_more loose tight jobs :
  tightens loose tight ->
  incl (admitted_records (verified_payment tight) (min_spent tight)
          (experience_levels tight) jobs)
       (admitted_records (verified_payment loose) (min_spent loose)
          (experience_levels loose) jobs) /\
  forall now days kept_tight kept_loose,
    run now jobs tight days = Ok kept_tight ->
    run now jobs loose days = Ok kept_loose ->
    incl kept_tight kept_loose.
Proof.
  intros T.
  assert (I : incl (admitted_records (verified_payment tight) (min_spent tight)
                      (experience_levels tight) jobs)
                   (admitted_records (verified_payment loose) (min_spent loose)
                      (experience_levels loose) jobs)).
  { intros job Hin. unfold admitted_records in *.
    apply filter_In in Hin. destruct Hin as [Hin A].
    apply filter_In. split; [exact Hin |].
    apply admits_admitted. apply admits_admitted in A.
    eapply tightens_admitted; eassumption. }
  split; [exact I |].
  intros now days kt kl Ht Hl.
  apply run_kept in Ht, Hl. now subst.
Qed.

(** C10. Two runs that differ only in [days_back] return the same
    list, the jobs the settings admit in the order of [jobs]: no decision
    of the loop reads the cutoff time. *)
Theorem days_back_does_not_decide now jobs vp ms el days1 days2 kept1 kept2 :
  filter_jobs now jobs vp ms el days1 = Ok kept1 ->
  filter_jobs now jobs vp ms el days2 = Ok kept2 ->
  kept1 = kept2 /\ kept1 = admitted_records vp ms el jobs.
Proof.
  intros H1 H2. apply filter_jobs_loop, filter_loop_kept in H1, H2.
  simpl in *. now subst.
Qed.

(** ** Strings *)

Lemma prefix_char c a s :
  prefix (String c EmptyString) (String a s) = Ascii.eqb a c.
Proof.
  simpl. destruct (ascii_dec c a) as [-> | Hne].
  - rewrite Ascii.eqb_refl. destruct s; reflexivity.
  - symmetry. apply Ascii.eqb_neq. congruence.
Qed.

Lemma contains_char_cons c a s :
  contains (String c EmptyString) (String a s)
  = Ascii.eqb a c || contains (String c EmptyString) s.
Proof.
  change (contains (String c EmptyString) (String a s))
    with (prefix (String c EmptyString) (String a s)
          || contains (String c EmptyString) s).
  now rewrite prefix_char.
Qed.

(** A string with the character [c] splits at its last [c]. *)
Lemma last_occurrence c s :
  contains (String c EmptyString) s = true ->
  exists pre suf,
    s = pre ++ String c suf /\ contains (String c EmptyString) suf = false.
Proof.
  induction s as [| a s IH]; [discriminate |].
  rewrite contains_char_cons.
  destruct (contains (String c EmptyString) s) eqn:Hs.
  - intros _. destruct (IH eq_refl) as (pre & suf & -> & Hsuf).
    exists (String a pre), suf. split; [reflexivity | assumption].
  - rewrite orb_false_r. intros Ha. apply Ascii.eqb_eq in Ha. subst a.
    exists EmptyString, s. split; [reflexivity | assumption].
Qed.

Lemma split_without c s :
  contains (String c EmptyString) s = false -> split c s = [s].
Proof.
  induction s as [| a s IH]; [reflexivity |].
  rewrite contains_char_cons. intros H. apply orb_false_iff in H.
  destruct H as [Ha Hs]. simpl. rewrite Ha, (IH Hs). reflexivity.
Qed.

Lemma split_not_nil c s : split c s <> [].
Proof.
  destruct s as [| a s]; simpl; [discriminate |].
  destruct (Ascii.eqb a c); [discriminate |].
  destruct (split c s); discriminate.
Qed.

Lemma split_at_last c pre suf :
  contains (String c EmptyString) suf = false ->
  split c (pre ++ String c suf) = (split c pre ++ [suf])%list.
Proof.
  intros Hsuf. induction pre as [| a pre IH]; simpl.
  - rewrite Ascii.eqb_refl, (split_without _ _ Hsuf). reflexivity.
  - rewrite IH. destruct (Ascii.eqb a c); [reflexivity |].
    pose proof (split_not_nil c pre) as Hne.
    destruct (split c pre); [congruence | reflexivity].
Qed.

Lemma last_item_app l x : last_item (l ++ [x]) = Some x.
Proof. unfold last_item. rewrite rev_unit. reflexivity. Qed.

(** [s.split(c)[-1]] is what follows the last [c] of [s]. *)
Lemma split_last_suffix c pre suf :
  contains (String c EmptyString) suf = false ->
  split_last c (PStr (pre ++ String c suf)) = Ok suf.
Proof.
  intros H. unfold split_last. rewrite (split_at_last _ _ _ H).
  rewrite last_item_app. reflexivity.
Qed.

Lemma truthy_str s : truthy (PStr s) = true <-> s <> EmptyString.
Proof.
  simpl. rewrite negb_true_iff. split.
  - intros H ->. discriminate.
  - intros H. apply String.eqb_neq. assumption.
Qed.

(** ** Records on which no read raises *)

Lemma is_mapping_inv v : is_mapping v = true -> exists d, v = PDict d.
Proof. destruct v; try discriminate. eauto. Qed.

Lemma text_or_false_truthy v :
  text_or_false v = true -> truthy v = true -> exists s, v = PStr s.
Proof.
  destruct v; simpl; intros H T; rewrite ?T in H; try discriminate; eauto.
Qed.

Lemma text_or_false_por a b :
  text_or_false a = true -> text_or_false b = true ->
  text_or_false (por a b) = true.
Proof. unfold por. destruct (truthy a); trivial. Qed.

(** ** Values that have a text *)

(** The integers that have a text are those of at most 4300 digits:
    the bound is the least number of 4301. *)
Lemma int_renders_iff z :
  int_renders z = true <-> Z.abs z < 10 ^ int_max_str_digits.
Proof.
  unfold int_renders.
  replace int_text_bound with (10 ^ int_max_str_digits)
    by (vm_compute; reflexivity).
  apply Z.ltb_lt.
Qed.

Lemma renders_lookup d : forall k v,
  renders (PDict d) = true -> lookup k d = Some v -> renders v = true.
Proof.
  induction d as [| [k' x] d IH]; intros k v; simpl; [discriminate |].
  rewrite andb_true_iff. intros [Hx Hd].
  destruct (String.eqb k' k); [intros [= <-]; exact Hx |].
  apply IH. exact Hd.
Qed.

Lemma renders_dict_get d k default :
  renders (PDict d) = true -> renders default = true ->
  renders (dict_get d k default) = true.
Proof.
  intros Hd Hdef. unfold dict_get.
  destruct (lookup k d) eqn:E; [| exact Hdef].
  eapply renders_lookup; eassumption.
Qed.

Lemma renders_get job k :
  renders (PDict job) = true -> renders (get job k) = true.
Proof. intros H. now apply renders_dict_get. Qed.

Lemma renders_member v k default :
  renders v = true -> renders default = true ->
  renders (member v k default) = true.
Proof.
  intros Hv Hd. destruct v; simpl; trivial. now apply renders_dict_get.
Qed.

Lemma renders_por a b :
  renders a = true -> renders b = true -> renders (por a b) = true.
Proof. unfold por. now destruct (truthy a). Qed.

Lemma str_of_renders v : renders v = true -> str_of v = Ok (py_str v).
Proof. unfold str_of. now intros ->. Qed.

Lemma str_of_raises v e :
  str_of v = Raise e <-> renders v = false /\ e = ValueError.
Proof.
  unfold str_of. destruct (renders v); split;
    [discriminate | intros [? _]; discriminate
     | intros [= <-]; auto | intros [_ ->]; reflexivity].
Qed.

(** The identifier [transform_job] derives from a record that has a
    text has one too. *)
Lemma derive_job_id_renders job jid :
  renders (PDict job) = true ->
  derive_job_id job = Ok jid -> renders jid = true.
Proof.
  intros R. unfold derive_job_id.
  assert (Rid : renders (por (get job "id") (get job "ciphertext")) = true)
    by (apply renders_por; apply renders_get; exact R).
  destruct (negb _ && _); [| now intros [= <-]].
  destruct (str_in "~" _) as [[] |]; simpl; try discriminate;
    [| now intros [= <-]].
  intros [= <-].
  destruct (split_last "~" _) as [last |]; simpl; [reflexivity | exact Rid].
Qed.

Lemma apply_url_of_renders jid :
  renders jid = true ->
  apply_url_of jid
  = Ok (if truthy jid
        then PStr (apply_prefix ++ py_str jid ++ apply_suffix)
        else PStr "").
Proof.
  intros R. unfold apply_url_of.
  destruct (truthy jid); [| reflexivity]. now rewrite (str_of_renders _ R).
Qed.

(** What line 249 has built, when it has built it. *)
Lemma apply_url_of_inv jid url :
  apply_url_of jid = Ok url ->
  url = (if truthy jid
         then PStr (apply_prefix ++ py_str jid ++ apply_suffix)
         else PStr "") /\
  (truthy jid = true -> renders jid = true).
Proof.
  unfold apply_url_of, str_of.
  destruct (truthy jid); [| intros [= <-]; split; [reflexivity | discriminate]].
  destruct (renders jid); simpl; [| discriminate].
  intros [= <-]. split; reflexivity.
Qed.

(** ** Records on which no read raises, continued *)

Lemma derive_job_id_total job :
  text_or_false (get job "url") = true ->
  text_or_false (get job "externalLink") = true ->
  exists v, derive_job_id job = Ok v.
Proof.
  intros Hu He. unfold derive_job_id.
  pose proof (text_or_false_por _ _ Hu He) as H.
  destruct (negb (truthy (por (get job "id") (get job "ciphertext")))
            && truthy (por (get job "url") (get job "externalLink")))
    eqn:Hc; [| eauto].
  apply andb_true_iff in Hc. destruct Hc as [_ Ht].
  destruct (text_or_false_truthy _ H Ht) as [s ->]. simpl.
  destruct (contains "~" s); eauto.
Qed.

Lemma resolve_level_total job :
  is_mapping (dict_get job "vendor" empty_dict) = true ->
  text_or_false (get job "experienceLevel") = true ->
  text_or_false (member (dict_get job "vendor" empty_dict)
                   "experienceLevel" PNone) = true ->
  exists v, resolve_level job = Ok v /\ text_or_false v = true.
Proof.
  intros Hv Ht Hm. unfold resolve_level, or_else.
  destruct (truthy (get job "experienceLevel")); [eauto |].
  destruct (is_mapping_inv _ Hv) as [d Hd]. rewrite Hd in *. simpl in *.
  eauto.
Qed.

Lemma client_stat_total d k :
  is_mapping (member (PDict d) "stats" empty_dict) = true ->
  exists v, client_stat (PDict d) k = Ok v.
Proof.
  simpl. intros H. unfold client_stat. simpl.
  destruct (lookup "stats" d); simpl; [| eauto].
  destruct (is_mapping_inv _ H) as [st ->]. simpl. eauto.
Qed.

Lemma transform_job_total job :
  well_shaped job = true -> exists out, transform_job job = Ok out.
Proof.
  unfold well_shaped. rewrite !andb_true_iff.
  intros [[[[[[[[Hc Hv] Hl] Hs] He] Hve] Hu] Hx] Hr].
  unfold transform_job.
  destruct (derive_job_id_total job Hu Hx) as [jid Hj]. rewrite Hj.
  cbn [bind].
  rewrite (apply_url_of_renders _ (derive_job_id_renders _ _ Hr Hj)).
  cbn [bind].
  destruct (resolve_level_total job Hv He Hve) as (lv & -> & _).
  destruct (is_mapping_inv _ Hc) as [d Hd]. rewrite Hd in *.
  destruct (client_stat_total d "totalSpent" Hs) as [ts ->].
  destruct (client_stat_total d "totalHires" Hs) as [th ->].
  simpl in Hl. destruct (is_mapping_inv _ Hl) as [loc Hloc].
  unfold resolve_country. simpl. rewrite Hloc. simpl.
  unfold or_else.
  destruct (truthy (dict_get loc "country" PNone)); simpl; eauto.
Qed.

Lemma rejected_total vp ms el job :
  well_shaped job = true -> exists r, rejected vp ms el job = Ok r.
Proof.
  unfold well_shaped. rewrite !andb_true_iff.
  intros [[[[[[[[Hc Hv] Hl] Hs] He] Hve] Hu] Hx] Hr].
  assert (H4 : exists r, high_competition job = Ok r).
  { unfold high_competition.
    destruct (truthy (resolve_proposals job)); [| eauto].
    rewrite str_of_renders
      by (apply renders_por; apply renders_get; exact Hr).
    cbn [bind]. destruct (existsb _ reject_phrases); eauto. }
  destruct (is_mapping_inv _ Hc) as [d Hd].
  assert (H1 : exists r, (if vp then unverified job else Ok false) = Ok r).
  { destruct vp; [| eauto]. unfold unverified, or_else. rewrite Hd. simpl.
    destruct (truthy (get job "isPaymentVerified")); simpl; [eauto |].
    destruct (is_True (dict_get d "paymentMethodVerified" PNone));
      simpl; eauto. }
  assert (H2 : exists r,
    (if num_lt (NInt 0) ms then low_spend ms job else Ok false) = Ok r).
  { destruct (num_lt (NInt 0) ms); [| eauto].
    unfold low_spend, resolve_total_spent. rewrite Hd in *. simpl.
    destruct (is_None (dict_get d "totalSpent" PNone)); simpl; [| eauto].
    simpl in Hs. destruct (lookup "stats" d) eqn:Hst; simpl; [| eauto].
    unfold dict_get in Hs |- *. rewrite Hst in *.
    destruct (is_mapping_inv _ Hs) as [st ->]. simpl. eauto. }
  assert (H3 : exists r, level_mismatch el job = Ok r).
  { unfold level_mismatch.
    destruct (resolve_level_total job Hv He Hve) as (lv & -> & Hlv). simpl.
    destruct (match el with [] => false | _ => true end); simpl; [| eauto].
    destruct (truthy lv) eqn:T; [| eauto].
    destruct (text_or_false_truthy _ Hlv T) as [s ->]. simpl. eauto. }
  unfold rejected.
  destruct H1 as [r1 ->], H2 as [r2 ->], H3 as [r3 ->], H4 as [r4 ->]. simpl.
  destruct r1, r2, r3; eauto.
Qed.

(** ** The output of [transform_job] *)

(** What [transform_job] returns, field by field. *)
Lemma transform_job_inv job out :
  transform_job job = Ok out ->
  let client := dict_get job "client" empty_dict in
  derive_job_id job = Ok (job_id out) /\
  apply_url_of (job_id out) = Ok (apply_url out) /\
  job_url out = por (get job "url") (get job "externalLink") /\
  resolve_level job = Ok (experience_level out) /\
  resolve_country client = Ok (client_country out) /\
  client_stat client "totalSpent" = Ok (client_total_spent out) /\
  client_stat client "totalHires" = Ok (client_hires out) /\
  title out = get job "title" /\
  description out = get job "description" /\
  skills out = dict_get job "skills" (PList []) /\
  budget out = get job "budget" /\
  hourly_rate out = get job "hourlyRate" /\
  job_type out = get job "jobType" /\
  proposal_count out = por (get job "proposals") (get job "proposalCount") /\
  posted_date out = posted_date_of job.
Proof.
  unfold transform_job, bind.
  destruct (derive_job_id job) as [jid |]; [| discriminate].
  destruct (apply_url_of jid) as [url |] eqn:U; [| discriminate].
  destruct (resolve_level job) as [lv |]; [| discriminate].
  destruct (resolve_country _) as [cc |]; [| discriminate].
  destruct (client_stat _ "totalSpent") as [ts |]; [| discriminate].
  destruct (client_stat _ "totalHires") as [th |]; [| discriminate].
  intros H. injection H as <-. simpl. repeat split; try reflexivity.
  exact U.
Qed.

Lemma get_absent job k : absent job k -> get job k = PNone.
Proof. unfold absent, get, dict_get. now intros ->. Qed.

Lemma dict_get_absent job k default :
  absent job k -> dict_get job k default = default.
Proof. unfold absent, dict_get. now intros ->. Qed.






(** ** Total spent: the two orders *)

(** In [filter_jobs] the client's own [totalSpent] comes first, and
    [stats] is read only when it is missing or [None]. *)
Lemma filter_reads_top_level_first job d :
  dict_get job "client" empty_dict = PDict d ->
  let top := dict_get d "totalSpent" PNone in
  (top <> PNone -> resolve_total_spent job = Ok top) /\
  (top = PNone -> forall st, lookup "stats" d = Some (PDict st) ->
   resolve_total_spent job = Ok (dict_get st "totalSpent" PNone)) /\
  (top = PNone -> lookup "stats" d = None ->
   resolve_total_spent job = Ok PNone).
Proof.
  intros Hd top. unfold resolve_total_spent. rewrite Hd. simpl.
  fold top. repeat split.
  - intros Hn. destruct top; try reflexivity. congruence.
  - intros -> st Hst. simpl. unfold dict_get at 1. rewrite Hst. reflexivity.
  - intros -> Hst. simpl. rewrite Hst. reflexivity.
Qed.

(** In [transform_job] the order is the other one: a client with a
    [stats] mapping reports what [stats] holds, whatever its own
    [totalSpent]. *)
Lemma transform_reads_stats_first d st :
  lookup "stats" d = Some (PDict st) ->
  client_stat (PDict d) "totalSpent" = Ok (dict_get st "totalSpent" PNone).
Proof.
  intros H. unfold client_stat. simpl. rewrite H. simpl.
  unfold dict_get at 1. rewrite H. reflexivity.
Qed.

(** C2 fails in [transform_job]: for a client with [totalSpent] 100 and
    [stats.totalSpent] 200 the filter reads 100, and [transform_job]
    reports 200 as [client_total_spent]. *)
Theorem total_spent_orders_differ :
  resolve_total_spent two_spends = Ok (PInt 100) /\
  exists out,
    transform_job two_spends = Ok out /\ client_total_spent out = PInt 200.
Proof. split; [reflexivity |]. eexists. split; reflexivity. Qed.

(** ** [job_id] and [apply_url] *)

Lemma apply_prefix_not_empty s : (apply_prefix ++ s)%string <> EmptyString.
Proof. discriminate. Qed.

(** C3. In every output of [transform_job], [apply_url] is a string,
    non-empty exactly when [job_id] is non-empty (counts as true: for a
    string, is not the empty string; [None] is empty); it is then the
    template around the text of [job_id]; and [job_id] is empty when
    neither [id] nor [ciphertext] holds one and the URL is not a string
    with a [~]. *)
Theorem apply_url_iff_job_id job out :
  transform_job job = Ok out ->
  (exists url, apply_url out = PStr url /\
               (url <> EmptyString <-> truthy (job_id out) = true)) /\
  (truthy (job_id out) = true ->
   apply_url out = PStr (apply_prefix ++ py_str (job_id out) ++ apply_suffix)) /\
  (forall s, job_id out = PStr s ->
   (s = EmptyString <-> apply_url out = PStr EmptyString)) /\
  (job_id out = PNone -> apply_url out = PStr EmptyString) /\
  (truthy (por (get job "id") (get job "ciphertext")) = false ->
   (forall u, por (get job "url") (get job "externalLink") = PStr u ->
              contains "~" u = false) ->
   truthy (job_id out) = false).
Proof.
  intros H. apply transform_job_inv in H. cbv zeta in H.
  destruct H as (Hid & Hap & _).
  apply apply_url_of_inv in Hap. destruct Hap as [Hap _]. rewrite Hap.
  split; [| split; [| split; [| split]]].
  - destruct (truthy (job_id out)).
    + eexists. split; [reflexivity |].
      split; [reflexivity | intros _; apply apply_prefix_not_empty].
    + exists EmptyString. split; [reflexivity |].
      split; [congruence | discriminate].
  - now intros ->.
  - intros s ->. destruct s as [| c s]; simpl.
    + split; reflexivity.
    + split; discriminate.
  - now intros ->.
  - intros Hno Hurl. unfold derive_job_id in Hid. rewrite Hno in Hid.
    simpl in Hid.
    destruct (truthy (por (get job "url") (get job "externalLink")));
      [| congruence].
    destruct (por (get job "url") (get job "externalLink")) as
      [| b | z | f | u | l | d]; simpl in Hid; try discriminate.
    + rewrite (Hurl u eq_refl) in Hid. congruence.
    + destruct (existsb _ l); simpl in Hid; congruence.
    + destruct (lookup "~" d); simpl in Hid; congruence.
Qed.

Lemma apply_url_iff_job_id_witness :
  transform_job url_only = Ok url_only_out /\
  (exists url, apply_url url_only_out = PStr url /\
               (url <> EmptyString <-> truthy (job_id url_only_out) = true)).
Proof.
  split; [reflexivity |].
  apply (apply_url_iff_job_id url_only url_only_out eq_refl).
Defined.

(** With mappings where it reads members, [transform_job] returns as
    soon as the identifier is derived and has a text. *)
Lemma transform_job_returns job jid :
  reads_mappings job = true ->
  derive_job_id job = Ok jid -> renders jid = true ->
  exists out, transform_job job = Ok out.
Proof.
  unfold reads_mappings. rewrite !andb_true_iff.
  intros [[[Hc Hv] Hl] Hs] Hj Hr.
  unfold transform_job. rewrite Hj. cbn [bind].
  rewrite (apply_url_of_renders _ Hr). cbn [bind].
  assert (L : exists lv, resolve_level job = Ok lv).
  { unfold resolve_level, or_else.
    destruct (truthy (get job "experienceLevel")); [eauto |].
    destruct (is_mapping_inv _ Hv) as [dv ->]. simpl. eauto. }
  destruct L as [lv ->]. cbn [bind].
  destruct (is_mapping_inv _ Hc) as [d Hd]. rewrite Hd in *.
  destruct (client_stat_total d "totalSpent" Hs) as [ts ->].
  destruct (client_stat_total d "totalHires" Hs) as [th ->].
  simpl in Hl. destruct (is_mapping_inv _ Hl) as [loc Hloc].
  unfold resolve_country. simpl. rewrite Hloc. simpl.
  unfold or_else.
  destruct (truthy (dict_get loc "country" PNone)); simpl; eauto.
Qed.

(** C8, as amended. On a record whose [client] and [vendor], and the
    client's [location] and [stats], are mappings when present: when
    neither [id] nor [ciphertext] holds an identifier and [url] is a
    string with a [~], [transform_job] returns an output whose [job_id]
    is [~] followed by what follows the last [~] of the URL, and whose
    [apply_url] is the template around that identifier. *)
Theorem job_id_from_url job u :
  reads_mappings job = true ->
  truthy (get job "id") = false ->
  truthy (get job "ciphertext") = false ->
  get job "url" = PStr u ->
  contains "~" u = true ->
  exists pre suf out,
    u = (pre ++ String "~" suf)%string /\
    contains "~" suf = false /\
    derive_job_id job = Ok (PStr (String "~" suf)) /\
    transform_job job = Ok out /\
    job_id out = PStr (String "~" suf) /\
    apply_url out = PStr (apply_prefix ++ String "~" suf ++ apply_suffix).
Proof.
  intros Hm Hid Hc Hu Ht.
  destruct (last_occurrence _ _ Ht) as (pre & suf & -> & Hsuf).
  assert (D : derive_job_id job = Ok (PStr (String "~" suf))).
  { unfold derive_job_id, por. rewrite Hid, Hc, Hu.
    assert (T : truthy (PStr (pre ++ String "~" suf)) = true).
    { apply truthy_str. destruct pre; discriminate. }
    rewrite T. cbv iota. rewrite T.
    change (negb false && true) with true. cbv iota.
    unfold str_in, bind. rewrite Ht, (split_last_suffix _ _ _ Hsuf).
    reflexivity. }
  destruct (transform_job_returns job _ Hm D eq_refl) as [out H].
  exists pre, suf, out. split; [reflexivity |]. split; [assumption |].
  split; [exact D |]. split; [exact H |].
  apply transform_job_inv in H. cbv zeta in H.
  destruct H as (Hd & Hap & _).
  assert (E : job_id out = PStr (String "~" suf)) by congruence.
  split; [exact E |].
  apply apply_url_of_inv in Hap. destruct Hap as [Hap _].
  rewrite Hap, E. reflexivity.
Qed.

Lemma job_id_from_url_witness :
  exists pre suf out,
    "https://x/jobs/~0198abc" = (pre ++ String "~" suf)%string /\
    contains "~" suf = false /\
    derive_job_id url_only = Ok (PStr (String "~" suf)) /\
    transform_job url_only = Ok out /\
    job_id out = PStr (String "~" suf) /\
    apply_url out = PStr (apply_prefix ++ String "~" suf ++ apply_suffix).
Proof.
  apply (job_id_from_url url_only "https://x/jobs/~0198abc");
    reflexivity.
Defined.

(** C8, as stated, fails: the record has no identifier and a URL with
    a [~], and [transform_job] returns nothing, because its [client] is
    a number. *)
Lemma no_job_id_when_client_is_mistyped :
  truthy (get url_and_number_client "id") = false /\
  truthy (get url_and_number_client "ciphertext") = false /\
  get url_and_number_client "url" = PStr "https://x/jobs/~0198abc" /\
  contains "~" "https://x/jobs/~0198abc" = true /\
  derive_job_id url_and_number_client = Ok (PStr "~0198abc") /\
  transform_job url_and_number_client = Raise AttributeError.
Proof. repeat split; reflexivity. Qed.

(** The scenario of C8: the record with only that URL. *)
Example url_only_transformed : transform_job url_only = Ok url_only_out.
Proof. reflexivity. Qed.

(** ** The minimum-spend block *)

Lemma replace_removes c s :
  contains (String c EmptyString) (replace c "" s) = false.
Proof.
  induction s as [| a s IH]; [reflexivity |]. simpl replace.
  destruct (Ascii.eqb a c) eqn:E; [exact IH |].
  rewrite contains_char_cons, E, IH. reflexivity.
Qed.

Lemma replace_keeps_out c c' s :
  contains (String c EmptyString) s = false ->
  contains (String c EmptyString) (replace c' "" s) = false.
Proof.
  induction s as [| a s IH]; [reflexivity |].
  rewrite contains_char_cons. intros H. apply orb_false_iff in H.
  destruct H as [Ha Hs]. simpl replace.
  destruct (Ascii.eqb a c'); [auto |].
  rewrite contains_char_cons, Ha. auto.
Qed.

Lemma spend_text_stripped v :
  contains "," (spend_text v) = false /\ contains "$" (spend_text v) = false.
Proof.
  unfold spend_text. split.
  - apply replace_keeps_out, replace_removes.
  - apply replace_removes.
Qed.

Lemma coerce_spent_parsed v f :
  renders (por v (PInt 0)) = true ->
  of_string (spend_text v) = Some f -> coerce_spent v = NFloat f.
Proof.
  unfold coerce_spent, spend_text. intros R. rewrite (str_of_renders _ R).
  cbn [bind]. now intros ->.
Qed.

Lemma coerce_spent_unparsed v :
  renders (por v (PInt 0)) = true ->
  of_string (spend_text v) = None -> coerce_spent v = NInt 0.
Proof.
  unfold coerce_spent, spend_text. intros R. rewrite (str_of_renders _ R).
  cbn [bind]. now intros ->.
Qed.

(** A spend that has no text is coerced to zero: the [try] covers
    [str(total_spent)]. *)
Lemma coerce_spent_without_text v :
  renders (por v (PInt 0)) = false -> coerce_spent v = NInt 0.
Proof. unfold coerce_spent, str_of. now intros ->. Qed.

Lemma coerce_spent_false v :
  truthy v = false -> coerce_spent v = NFloat (FFin false 0 0).
Proof.
  intros H. unfold coerce_spent, por. rewrite H. reflexivity.
Qed.

(** A spend that counts as false, that has no text, or that [float]
    cannot read, is coerced to zero. *)
Lemma coerce_spent_zero v :
  truthy v = false \/ renders (por v (PInt 0)) = false \/
  of_string (spend_text v) = None ->
  num_val (coerce_spent v) = num_val (NInt 0).
Proof.
  intros [H | [H | H]].
  - now rewrite (coerce_spent_false _ H).
  - now rewrite (coerce_spent_without_text _ H).
  - destruct (renders (por v (PInt 0))) eqn:R.
    + now rewrite (coerce_spent_unparsed _ R H).
    + now rewrite (coerce_spent_without_text _ R).
Qed.

Lemma num_lt_val a a' b :
  num_val a = num_val a' -> num_lt a b = num_lt a' b.
Proof. unfold num_lt. now intros ->. Qed.

(** C4, as amended. For a threshold above zero and a record whose
    total spent can be read: the value (0 when it counts as false) is
    turned into text, every [,] and [$] is removed, and [float] is
    applied to the text. When [float] gives a finite number, that
    number is the coerced spend, negative when the text says so, and the
    record is skipped exactly when it is below the threshold. When the
    spend counts as false, has no text, or [float] cannot read the text,
    the coerced spend is 0 and the record is skipped, never admitted.
    The texts that [float] reads as an infinity or as not-a-number are
    left aside. *)
Theorem min_spend_rule ms job v :
  num_lt (NInt 0) ms = true ->
  resolve_total_spent job = Ok v ->
  (contains "," (spend_text v) = false /\
   contains "$" (spend_text v) = false) /\
  (forall neg m e,
     renders (por v (PInt 0)) = true ->
     of_string (spend_text v) = Some (FFin neg m e) ->
     coerce_spent v = NFloat (FFin neg m e) /\
     low_spend ms job = Ok (num_lt (NFloat (FFin neg m e)) ms) /\
     (forall vp el, admitted vp ms el job ->
                    num_lt (NFloat (FFin neg m e)) ms = false)) /\
  (truthy v = false \/ renders (por v (PInt 0)) = false \/
   of_string (spend_text v) = None ->
   num_val (coerce_spent v) = num_val (NInt 0) /\
   low_spend ms job = Ok true /\
   forall vp el, ~ admitted vp ms el job).
Proof.
  intros Hms Hv.
  assert (L : low_spend ms job = Ok (num_lt (coerce_spent v) ms)).
  { unfold low_spend. rewrite Hv. reflexivity. }
  split; [apply spend_text_stripped |]. split.
  - intros neg m e R P. rewrite L, (coerce_spent_parsed _ _ R P).
    split; [reflexivity |]. split; [reflexivity |].
    intros vp el A. apply admitted_iff in A.
    destruct A as (_ & A & _). rewrite Hms, L in A.
    rewrite (coerce_spent_parsed _ _ R P) in A. congruence.
  - intros Hz. pose proof (coerce_spent_zero v Hz) as Z0.
    assert (L' : low_spend ms job = Ok true).
    { rewrite L, (num_lt_val _ _ ms Z0), Hms. reflexivity. }
    repeat split; trivial.
    intros vp el A. apply admitted_iff in A.
    destruct A as (_ & A & _). rewrite Hms, L' in A. discriminate.
Qed.

Lemma min_spend_rule_witness :
  coerce_spent (PStr "2,500") = NFloat (FFin false 5497558138880000 (-41)) /\
  low_spend (NInt 1000) spend_2500
  = Ok (num_lt (NFloat (FFin false 5497558138880000 (-41))) (NInt 1000)) /\
  low_spend (NInt 1000) spend_2500 = Ok false.
Proof.
  pose proof (min_spend_rule (NInt 1000) spend_2500 (PStr "2,500")
                eq_refl eq_refl) as (_ & H & _).
  destruct (H false 5497558138880000 (-41) eq_refl eq_refl) as (H1 & H2 & _).
  split; [exact H1 |]. split; [exact H2 | reflexivity].
Defined.

(** C4, as stated, fails: a spend of -5 is coerced to -5.0, which is
    below zero. *)
Lemma coerced_spend_not_always_non_negative :
  resolve_total_spent negative_spend = Ok (PInt (-5)) /\
  coerce_spent (PInt (-5)) = NFloat (FFin true 5629499534213120 (-50)) /\
  num_lt (coerce_spent (PInt (-5))) (NInt 0) = true.
Proof. repeat split; reflexivity. Qed.

(** What the amended rule leaves aside: [float] reads the text [nan],
    the coerced spend is below no threshold, and the record is
    admitted. *)
Lemma nan_spend_is_admitted :
  coerce_spent (PStr "nan") = NFloat FNan /\
  filter_jobs clock [nan_spend] false (NInt 1000) [] 1 = Ok [nan_spend].
Proof. split; reflexivity. Qed.

(** A spend of more than 4300 digits has no text: it is coerced to 0
    and the record is skipped. *)
Lemma long_spend_is_skipped :
  coerce_spent (PInt long_int) = NInt 0 /\
  filter_jobs clock [[("client", PDict [("totalSpent", PInt long_int)])]]
    false (NInt 1000) [] 1 = Ok [].
Proof. split; vm_compute; reflexivity. Qed.

(** ** The verified-payment block *)

Lemma unverified_mapping job :
  is_mapping (dict_get job "client" empty_dict) = true ->
  unverified job = Ok (negb (verified_flag job)).
Proof.
  intros H. destruct (is_mapping_inv _ H) as [d Hd].
  unfold unverified, verified_flag, or_else. rewrite Hd. simpl.
  destruct (truthy (get job "isPaymentVerified")) eqn:T; simpl.
  - now rewrite T.
  - destruct (is_True (dict_get d "paymentMethodVerified" PNone));
      reflexivity.
Qed.

Lemma unverified_top_level job :
  truthy (get job "isPaymentVerified") = true -> unverified job = Ok false.
Proof.
  intros T. unfold unverified, or_else. rewrite T. simpl. now rewrite T.
Qed.

(** C5, as amended. With verified payment required and [client]
    missing or a mapping, the record is skipped unless the flag resolves
    true: [isPaymentVerified] counts as true, or else the client's
    [paymentMethodVerified] is [True], or else the client's
    [paymentVerificationStatus] is VERIFIED; a record for which one of
    the three holds passes this block, and a record whose own flag
    counts as true passes it whatever [client] is. *)
Theorem verified_payment_rule job :
  let client := dict_get job "client" empty_dict in
  (is_mapping client = true ->
   unverified job = Ok (negb (verified_flag job)) /\
   (verified_flag job = false ->
    forall ms el, rejected true ms el job = Ok true)) /\
  (unverified job = Ok false <-> verified_flag job = true) /\
  (verified_flag job = true ->
   forall ms el, rejected true ms el job = rejected false ms el job).
Proof.
  intros client.
  assert (P : verified_flag job = true -> unverified job = Ok false).
  { intros V. destruct (truthy (get job "isPaymentVerified")) eqn:T.
    - now apply unverified_top_level.
    - destruct (is_mapping client) eqn:M.
      + rewrite (unverified_mapping job M), V. reflexivity.
      + unfold verified_flag in V. fold client in V. rewrite T in V.
        destruct client; simpl in *; discriminate. }
  split; [| split].
  - intros M. pose proof (unverified_mapping job M) as U.
    split; [exact U |]. intros V ms el.
    unfold rejected. rewrite U, V. reflexivity.
  - split; [| exact P]. intros U.
    destruct (truthy (get job "isPaymentVerified")) eqn:T.
    + unfold verified_flag. now rewrite T.
    + destruct (is_mapping client) eqn:M.
      * rewrite (unverified_mapping job M) in U.
        injection U as U. now apply negb_false_iff.
      * unfold unverified, or_else in U. fold client in U. rewrite T in U.
        destruct client; simpl in *; discriminate.
  - intros V ms el. unfold rejected. rewrite (P V). reflexivity.
Qed.

Lemma verified_payment_rule_witness :
  unverified verified_client = Ok false /\
  forall ms el, rejected true ms el verified_client
                = rejected false ms el verified_client.
Proof.
  pose proof (verified_payment_rule verified_client) as (H1 & _ & H3).
  split.
  - destruct (H1 eq_refl) as [U _]. exact U.
  - apply H3. reflexivity.
Defined.

(** C5, as stated, fails: with [client] bound to a number the block
    raises instead of skipping the record, and a record whose own flag
    is the text [no] passes the block. *)
Lemma verified_block_raises_or_passes :
  unverified [("client", PInt 5)] = Raise AttributeError /\
  filter_jobs clock [[("client", PInt 5)]] true (NInt 0) [] 1
  = Raise AttributeError /\
  filter_jobs clock [[("isPaymentVerified", PStr "no")]] true (NInt 0) [] 1
  = Ok [[("isPaymentVerified", PStr "no")]].
Proof. repeat split; reflexivity. Qed.

(** ** The competition block *)























Lemma high_competition_unfold job :
  high_competition job =
  let p := resolve_proposals job in
  if truthy p then
    if renders p
    then Ok (mentions_phrase (py_str p) ||
             match as_number p with
             | Some n => num_le (NInt 15) n
             | None => false
             end)
    else Raise ValueError
  else Ok false.
Proof.
  unfold high_competition, mentions_phrase, str_of. cbv zeta.
  destruct (truthy (resolve_proposals job)); [| reflexivity].
  destruct (renders (resolve_proposals job)); [| reflexivity].
  cbn [bind]. destruct (existsb _ reject_phrases); reflexivity.
Qed.







(** What the amended rule leaves aside: a count of more than 4300
    digits has no text, [str(proposals)] raises, and with it
    [filter_jobs]. *)
Lemma long_count_raises :
  high_competition [("proposals", PInt long_int)] = Raise ValueError /\
  filter_jobs clock [[("proposals", PInt long_int)]] false (NInt 0) [] 1
  = Raise ValueError.
Proof. split; vm_compute; reflexivity. Qed.

(** ** The experience-level block *)

Lemma existsb_false_iff {A : Type} (f : A -> bool) l :
  existsb f l = false <-> forall x, In x l -> f x = false.
Proof.
  induction l as [| a l IH]; simpl.
  - split; [intros _ x [] | reflexivity].
  - rewrite orb_false_iff, IH. split.
    + intros [Ha Hl] x [<- | Hx]; auto.
    + intros H. split; auto.
Qed.

(** C7, as amended. The level the block reads is [experienceLevel]
    when it counts as true, else the vendor's. With a non-empty allow-set
    the record is skipped exactly when that level is a non-empty string
    whose lower-case form is the trimmed lower-case form of no entry of
    the allow-set. With an empty allow-set, or a level that is missing or
    counts as false, the block never skips. *)
Theorem experience_rule el job :
  (truthy (get job "experienceLevel") = true ->
   resolve_level job = Ok (get job "experienceLevel")) /\
  (truthy (get job "experienceLevel") = false ->
   forall d, dict_get job "vendor" empty_dict = PDict d ->
   resolve_level job = Ok (dict_get d "experienceLevel" PNone)) /\
  (el <> [] ->
   (level_mismatch el job = Ok true <->
    exists s, resolve_level job = Ok (PStr s) /\ s <> EmptyString /\
              forall l, In l el -> lower (strip l) <> lower s)) /\
  (el = [] -> level_mismatch el job <> Ok true) /\
  (forall v, resolve_level job = Ok v -> truthy v = false ->
   level_mismatch el job = Ok false) /\
  (absent job "experienceLevel" -> absent job "vendor" ->
   level_mismatch el job = Ok false).
Proof.
  split; [| split; [| split; [| split; [| split]]]].
  - intros T. unfold resolve_level, or_else. now rewrite T.
  - intros T d Hd. unfold resolve_level, or_else. now rewrite T, Hd.
  - intros Hne. unfold level_mismatch, bind.
    assert (E : match el with [] => false | _ => true end = true)
      by (destruct el; congruence).
    destruct (resolve_level job) as [v |].
    2:{ split; [discriminate | intros (s & H & _); discriminate]. }
    rewrite E, andb_true_l. clear E.
    destruct (truthy v) eqn:T.
    2:{ split; [discriminate |]. intros (s & [= ->] & Hs & _).
        apply truthy_str in Hs. congruence. }
    destruct v; simpl lower_of;
      try (split; [discriminate | intros (s' & [=] & _)]).
    split.
    + intros [= H]. apply negb_true_iff in H.
      exists s. split; [reflexivity |]. split; [now apply truthy_str |].
      intros l Hl E.
      rewrite existsb_false_iff in H.
      specialize (H (lower (strip l)) (in_map _ _ _ Hl)).
      apply String.eqb_neq in H. congruence.
    + intros (s' & [= <-] & _ & H). f_equal. apply negb_true_iff.
      apply existsb_false_iff. intros y Hy.
      apply in_map_iff in Hy. destruct Hy as (l & <- & Hl).
      apply String.eqb_neq. intros E. now apply (H l Hl).
  - intros ->. unfold level_mismatch, bind.
    destruct (resolve_level job); discriminate.
  - intros v Hv T. unfold level_mismatch, bind. rewrite Hv, T.
    now rewrite andb_false_r.
  - intros A1 A2. unfold level_mismatch, resolve_level.
    rewrite (get_absent _ _ A1), (dict_get_absent _ _ _ A2). simpl.
    now rewrite andb_false_r.
Qed.

Lemma experience_rule_witness :
  level_mismatch ["intermediate"; " Expert"] [("experienceLevel", PStr "Entry")]
  = Ok true /\
  level_mismatch ["intermediate"; " Expert"] [("title", PStr "x")] = Ok false.
Proof.
  split.
  - apply (experience_rule ["intermediate"; " Expert"]
             [("experienceLevel", PStr "Entry")]); [discriminate |].
    exists "Entry". split; [reflexivity |]. split; [discriminate |].
    intros l [<- | [<- | []]]; discriminate.
  - apply (experience_rule ["intermediate"; " Expert"] [("title", PStr "x")]);
      reflexivity.
Defined.

(** C7, as stated, fails: the level [expert] passes an allow-set whose
    only entry is [ expert], which it does not equal whatever the case;
    and a level that is a number raises instead of being skipped. *)
Lemma trimmed_entry_matches :
  level_mismatch [" expert"] [("experienceLevel", PStr "expert")] = Ok false /\
  existsb (fun l => String.eqb (lower l) (lower "expert")) [" expert"] = false /\
  level_mismatch ["expert"] [("experienceLevel", PInt 3)]
  = Raise AttributeError.
Proof. repeat split; reflexivity. Qed.

(** ** Witnesses for the two relational properties *)

Lemma tightening_admits_no_more_witness :
  run clock [spend_2500; spend_500] (mk_settings false (NInt 1000) []) 1
  = Ok [spend_2500] /\
  run clock [spend_2500; spend_500] (mk_settings false (NInt 100) []) 1
  = Ok [spend_2500; spend_500] /\
  incl [spend_2500] [spend_2500; spend_500].
Proof.
  split; [reflexivity |]. split; [reflexivity |].
  assert (T : tightens (mk_settings false (NInt 100) [])
                       (mk_settings false (NInt 1000) []))
    by now constructor.
  destruct (tightening_admits_no_more _ _ [spend_2500; spend_500] T)
    as [_ H].
  apply (H clock 1); reflexivity.
Defined.

Lemma days_back_does_not_decide_witness :
  filter_jobs clock [spend_2500; spend_500] false (NInt 1000) [] 1
  = Ok [spend_2500] /\
  filter_jobs clock [spend_2500; spend_500] false (NInt 1000) [] 30
  = Ok [spend_2500] /\
  [spend_2500] = [spend_2500].
Proof.
  split; [reflexivity |]. split; [reflexivity |].
  apply (days_back_does_not_decide clock [spend_2500; spend_500]
           false (NInt 1000) [] 1 30); reflexivity.
Defined.

(* ================================================================== *)
(** * Properties of [scrape_jobs] and [main] *)
(* ================================================================== *)

Import Ingest Trace.

(** ** Starting the run *)

(** X1. The loop that starts the run posts once, twice or three times,
    and never more; it sleeps 2 seconds after the first failed post and 4
    after the second, and neither polls nor fetches. *)
Theorem start_run_bounded srv input :
  let trace := snd (start_run srv input (seq 0 max_retries)) in
  ((posts trace = 1%nat /\ slept trace = 0) \/
   (posts trace = 2%nat /\ slept trace = 2) \/
   (posts trace = 3%nat /\ slept trace = 6)) /\
  polls trace = 0%nat /\ fetches trace = 0%nat.
Proof.
  simpl.
  destruct (post_reply srv input 0) as [| c0 j0]; simpl; [auto |].
  destruct (raises_for_status c0); simpl; [| auto].
  rewrite andb_false_r.
  destruct (post_reply srv input 1) as [| c1 j1]; simpl; [auto 6 |].
  destruct (raises_for_status c1); simpl; [| auto 6].
  rewrite andb_false_r.
  destruct (post_reply srv input 2) as [| c2 j2]; simpl; [auto 6 |].
  destruct (raises_for_status c2); simpl; [| auto 6].
  rewrite andb_true_r.
  destruct (_ || _); simpl; auto 6.
Qed.

(** X2. Three error statuses in a row end the start of the run with the
    third one, whatever the three codes are: a 400, a 403 or a 404 is
    posted again like any other. *)
Theorem start_run_three_errors srv input c0 j0 c1 j1 c2 j2 :
  post_reply srv input 0 = Reply c0 j0 -> raises_for_status c0 = true ->
  post_reply srv input 1 = Reply c1 j1 -> raises_for_status c1 = true ->
  post_reply srv input 2 = Reply c2 j2 -> raises_for_status c2 = true ->
  start_run srv input (seq 0 max_retries)
  = (Failed (HTTPError c2),
     [Post input; Sleep 2; Post input; Sleep 4; Post input]).
Proof.
  intros R0 E0 R1 E1 R2 E2. simpl.
  rewrite R0, E0, andb_false_r, R1, E1, andb_false_r, R2, E2, andb_true_r.
  destruct (_ || _); reflexivity.
Qed.

(** X3. The run starts with the first reply that is not an error
    status, when it comes within three posts and after error statuses
    only; the script has then posted once more than it has failed. *)
Theorem start_run_first_good srv input k c j :
  (k < max_retries)%nat ->
  (forall i, (i < k)%nat ->
     exists ci ji, post_reply srv input i = Reply ci ji /\
                   raises_for_status ci = true) ->
  post_reply srv input k = Reply c j ->
  raises_for_status c = false ->
  exists trace,
    start_run srv input (seq 0 max_retries) = (Done j, trace) /\
    posts trace = S k /\ slept trace = Z.of_nat k * (Z.of_nat k + 1).
Proof.
  intros Hk Hbefore Rk Ek. unfold max_retries in Hk. simpl.
  destruct k as [| [| [| k]]]; try lia.
  - rewrite Rk, Ek. eexists. repeat split.
  - destruct (Hbefore 0%nat) as (c0 & j0 & R0 & E0); [lia |].
    rewrite R0, E0, andb_false_r. simpl. rewrite Rk, Ek.
    eexists. repeat split.
  - destruct (Hbefore 0%nat) as (c0 & j0 & R0 & E0); [lia |].
    destruct (Hbefore 1%nat) as (c1 & j1 & R1 & E1); [lia |].
    rewrite R0, E0, andb_false_r. simpl.
    rewrite R1, E1, andb_false_r. simpl. rewrite Rk, Ek.
    eexists. repeat split.
Qed.

(** ** Fetching the dataset *)

Lemma fetch_bounded srv dataset_id :
  let trace := snd (fetch srv dataset_id (seq 0 max_retries)) in
  ((fetches trace = 1%nat /\ slept trace = 0) \/
   (fetches trace = 2%nat /\ slept trace = 2) \/
   (fetches trace = 3%nat /\ slept trace = 4)) /\
  posts trace = 0%nat /\ polls trace = 0%nat.
Proof.
  simpl.
  destruct (fetched (fetch_reply srv dataset_id 0)); simpl; [auto |].
  destruct (fetched (fetch_reply srv dataset_id 1)); simpl; [auto 6 |].
  destruct (fetched (fetch_reply srv dataset_id 2)); simpl; auto 6.
Qed.

(** X4. A request that meets no reply is treated in two ways: the post
    that starts the run is not tried again, while the fetch of the
    dataset is, up to three times with 2 seconds in between, and only
    the third failure is raised. *)
Theorem no_reply_is_retried_by_fetch_only srv input dataset_id :
  (post_reply srv input 0 = NoReply ->
   start_run srv input (seq 0 max_retries)
   = (Failed RequestError, [Post input])) /\
  (fetch_reply srv dataset_id 0 = NoReply ->
   fetch_reply srv dataset_id 1 = NoReply ->
   forall r, fetched (fetch_reply srv dataset_id 2) = r ->
   fetch srv dataset_id (seq 0 max_retries)
   = (r, [Fetch dataset_id; Sleep 2; Fetch dataset_id; Sleep 2;
          Fetch dataset_id])).
Proof.
  split.
  - intros R0. simpl. now rewrite R0.
  - intros R0 R1 r R2. simpl. rewrite R0, R1. simpl. rewrite R2.
    destruct r; reflexivity.
Qed.

(** ** Polling *)

Lemma poll_step fuel srv run_id n :
  poll (S fuel) srv run_id n =
  match reported_status (poll_reply srv run_id n) with
  | Done status =>
      if existsb (eq_str status) terminal_statuses
      then Some (status, [Poll run_id])
      else option_map (fun '(status, trace) =>
                         (status, Poll run_id :: Sleep 5 :: trace))
             (poll fuel srv run_id (S n))
  | Failed _ =>
      option_map (fun '(status, trace) =>
                    (status, Poll run_id :: Sleep 5 :: trace))
        (poll fuel srv run_id (S n))
  end.
Proof. reflexivity. Qed.

Lemma reported_not_ending reply :
  ends_polling reply = false ->
  match reported_status reply with
  | Done status => existsb (eq_str status) terminal_statuses = false
  | Failed _ => True
  end.
Proof. unfold ends_polling. destruct (reported_status reply); auto. Qed.

(** When the [n] polls from the k-th on report no terminal status (they
    fail, or report something else) and the next one reports [status],
    polling ends with [status] after n+1 polls and n sleeps. *)
Lemma poll_reaches srv run_id n : forall k fuel status,
  (forall i, (k <= i < k + n)%nat ->
     ends_polling (poll_reply srv run_id i) = false) ->
  reported_status (poll_reply srv run_id (k + n)) = Done status ->
  existsb (eq_str status) terminal_statuses = true ->
  (n < fuel)%nat ->
  poll fuel srv run_id k
  = Some (status, (waiting run_id n ++ [Poll run_id])%list).
Proof.
  induction n as [| n IH]; intros k fuel status Hbefore Hn Hterm Hfuel.
  - destruct fuel as [| fuel]; [lia |]. rewrite poll_step.
    rewrite Nat.add_0_r in Hn. now rewrite Hn, Hterm.
  - destruct fuel as [| fuel]; [lia |]. rewrite poll_step.
    assert (E : poll fuel srv run_id (S k)
                = Some (status, (waiting run_id n ++ [Poll run_id])%list)).
    { apply IH; trivial; [| | lia].
      - intros i Hi. apply Hbefore. lia.
      - now replace (S k + n)%nat with (k + S n)%nat by lia. }
    rewrite E.
    pose proof (reported_not_ending _ (Hbefore k ltac:(lia))) as Hk.
    destruct (reported_status (poll_reply srv run_id k)); [| reflexivity].
    now rewrite Hk.
Qed.

(** Polling has no bound of its own: when no poll ever reports a
    terminal status, no number of polls ends it. *)
Lemma poll_unending srv run_id :
  (forall i, ends_polling (poll_reply srv run_id i) = false) ->
  forall fuel k, poll fuel srv run_id k = None.
Proof.
  intros H. induction fuel as [| fuel IH]; intros k; [reflexivity |].
  rewrite poll_step, IH.
  pose proof (reported_not_ending _ (H k)) as Hk.
  destruct (reported_status (poll_reply srv run_id k)); [| reflexivity].
  now rewrite Hk.
Qed.

(** When polling ends, it ends with a terminal status, after polls and
    sleeps of 5 seconds only. *)
Lemma poll_ended srv run_id : forall fuel k status trace,
  poll fuel srv run_id k = Some (status, trace) ->
  existsb (eq_str status) terminal_statuses = true /\
  posts trace = 0%nat /\ fetches trace = 0%nat /\
  (1 <= polls trace)%nat /\
  slept trace = 5 * (Z.of_nat (polls trace) - 1).
Proof.
  induction fuel as [| fuel IH]; intros k status trace H; [discriminate |].
  rewrite poll_step in H.
  assert (A : option_map
                (fun '(status, trace) =>
                   (status, Poll run_id :: Sleep 5 :: trace))
                (poll fuel srv run_id (S k)) = Some (status, trace) ->
              existsb (eq_str status) terminal_statuses = true /\
              posts trace = 0%nat /\ fetches trace = 0%nat /\
              (1 <= polls trace)%nat /\
              slept trace = 5 * (Z.of_nat (polls trace) - 1)).
  { destruct (poll fuel srv run_id (S k)) as [[st tr] |] eqn:E;
      [| discriminate].
    cbn [option_map]. intros [= <- <-].
    destruct (IH _ _ _ E) as (T & P & F & L & Hs).
    change (polls (Poll run_id :: Sleep 5 :: tr)) with (S (polls tr)).
    change (slept (Poll run_id :: Sleep 5 :: tr)) with (5 + slept tr).
    split; [exact T |]. split; [exact P |]. split; [exact F |].
    split; lia. }
  destruct (reported_status (poll_reply srv run_id k)) as [st |]; [| auto].
  destruct (existsb (eq_str st) terminal_statuses) eqn:T; [| auto].
  injection H as <- <-. repeat split; trivial.
Qed.

(** When polling ends, some poll has reported a terminal status, the
    polls before it have not, and the trace is those polls with their
    sleeps. *)
Lemma poll_returns srv run_id : forall fuel k status trace,
  poll fuel srv run_id k = Some (status, trace) ->
  exists n,
    (n < fuel)%nat /\
    (forall i, (k <= i < k + n)%nat ->
       ends_polling (poll_reply srv run_id i) = false) /\
    reported_status (poll_reply srv run_id (k + n)) = Done status /\
    existsb (eq_str status) terminal_statuses = true /\
    trace = (waiting run_id n ++ [Poll run_id])%list.
Proof.
  induction fuel as [| fuel IH]; intros k status trace H; [discriminate |].
  rewrite poll_step in H.
  assert (A : ends_polling (poll_reply srv run_id k) = false ->
              option_map
                (fun '(status, trace) =>
                   (status, Poll run_id :: Sleep 5 :: trace))
                (poll fuel srv run_id (S k)) = Some (status, trace) ->
              exists n,
                (n < S fuel)%nat /\
                (forall i, (k <= i < k + n)%nat ->
                   ends_polling (poll_reply srv run_id i) = false) /\
                reported_status (poll_reply srv run_id (k + n)) = Done status /\
                existsb (eq_str status) terminal_statuses = true /\
                trace = (waiting run_id n ++ [Poll run_id])%list).
  { intros Hk.
    destruct (poll fuel srv run_id (S k)) as [[st tr] |] eqn:E;
      [| discriminate].
    cbn [option_map]. intros [= <- <-].
    destruct (IH _ _ _ E) as (n & Hn & Hbefore & Hat & T & ->).
    exists (S n). split; [lia |]. split.
    - intros i Hi. destruct (Nat.eq_dec i k) as [-> | Hne]; [exact Hk |].
      apply Hbefore. lia.
    - replace (k + S n)%nat with (S k + n)%nat by lia.
      split; [exact Hat |]. split; [exact T | reflexivity]. }
  unfold ends_polling in A.
  destruct (reported_status (poll_reply srv run_id k)) as [st | e] eqn:R;
    [| now apply A].
  destruct (existsb (eq_str st) terminal_statuses) eqn:T; [| now apply A].
  injection H as <- <-. exists 0%nat. rewrite Nat.add_0_r.
  split; [lia |]. split; [intros i Hi; lia |].
  split; [exact R |]. split; [exact T | reflexivity].
Qed.

(** X5. Polling goes on until a poll reports one of the four terminal
    statuses, and stops there: it ends with [status] exactly when some
    poll reports [status], a terminal one, and no earlier poll reports a
    terminal status (each fails, or reports something else); it has then
    polled once more than it has slept, 5 seconds each time. *)
Theorem poll_until_terminal srv run_id fuel status trace :
  poll fuel srv run_id 0 = Some (status, trace) <->
  exists n,
    (n < fuel)%nat /\
    (forall i, (i < n)%nat ->
       ends_polling (poll_reply srv run_id i) = false) /\
    reported_status (poll_reply srv run_id n) = Done status /\
    existsb (eq_str status) terminal_statuses = true /\
    trace = (waiting run_id n ++ [Poll run_id])%list.
Proof.
  split.
  - intros H. apply poll_returns in H.
    destruct H as (n & Hn & Hbefore & Hat & T & ->).
    exists n. split; [exact Hn |]. split.
    + intros i Hi. apply Hbefore. lia.
    + split; [exact Hat |]. split; [exact T | reflexivity].
  - intros (n & Hn & Hbefore & Hat & T & ->).
    apply poll_reaches; trivial.
    intros i Hi. apply Hbefore. lia.
Qed.

(** ** [scrape_jobs] as a whole *)

(** The loop that starts the run posts between once and three times,
    and neither polls nor fetches. *)
Lemma start_run_posts srv input started t0 :
  start_run srv input (seq 0 max_retries) = (started, t0) ->
  (1 <= posts t0 <= 3)%nat /\ polls t0 = 0%nat /\ fetches t0 = 0%nat.
Proof.
  intros H. apply (f_equal snd) in H. cbn [snd] in H. subst t0. simpl.
  destruct (post_reply srv input 0) as [| c0 j0]; simpl;
    [repeat split; cbv; lia |].
  destruct (raises_for_status c0); simpl; [| repeat split; cbv; lia].
  rewrite andb_false_r.
  destruct (post_reply srv input 1) as [| c1 j1]; simpl;
    [repeat split; cbv; lia |].
  destruct (raises_for_status c1); simpl; [| repeat split; cbv; lia].
  rewrite andb_false_r.
  destruct (post_reply srv input 2) as [| c2 j2]; simpl;
    [repeat split; cbv; lia |].
  destruct (raises_for_status c2); simpl; [| repeat split; cbv; lia].
  rewrite andb_true_r.
  destruct (_ || _); simpl; repeat split; cbv; lia.
Qed.

Lemma posts_app a b : posts (a ++ b) = (posts a + posts b)%nat.
Proof. unfold posts. now rewrite filter_app, length_app. Qed.

Lemma polls_app a b : polls (a ++ b) = (polls a + polls b)%nat.
Proof. unfold polls. now rewrite filter_app, length_app. Qed.

Lemma fetches_app a b : fetches (a ++ b) = (fetches a + fetches b)%nat.
Proof. unfold fetches. now rewrite filter_app, length_app. Qed.

(** The start of the run fails with what [requests] raises, and with
    nothing else. *)
Lemma start_run_failure srv input attempts : forall e trace,
  start_run srv input attempts = (Failed e, trace) ->
  e = UnboundLocalError \/ e = RequestError \/
  exists status_code, e = HTTPError status_code.
Proof.
  induction attempts as [| attempt attempts IH]; intros e trace; simpl.
  - intros [= <- _]. now left.
  - destruct (post_reply srv input attempt) as [| c j].
    + intros [= <- _]. right. now left.
    + destruct (raises_for_status c); [| discriminate].
      destruct (_ && _); [intros [= <- _]; right; right; eauto |].
      destruct (Nat.eqb attempt _); [intros [= <- _]; right; right; eauto |].
      destruct (start_run srv input attempts) as [r t] eqn:E.
      intros [= -> _]. eapply IH. reflexivity.
Qed.

(** What [scrape_jobs] does once the token and the dates are there. *)
Lemma scrape_jobs_inv token now srv fuel limit days_back search_queries r trace :
  scrape_jobs token now srv fuel limit days_back search_queries
  = Some (r, trace) ->
  (trace = [] /\ exists e, r = Failed (Builtin e)) \/
  exists input started t0,
    start_run srv input (seq 0 max_retries) = (started, t0) /\
    (trace = t0 /\ (forall body, r <> Done body) /\
     (forall status, r <> Failed (RunFailure status)) \/
     exists run_id status t1,
       poll fuel srv run_id 0 = Some (status, t1) /\
       (r = Failed (RunFailure status) /\
        eq_str status "SUCCEEDED" = false /\ trace = (t0 ++ t1)%list \/
        exists dataset_id t2,
          eq_str status "SUCCEEDED" = true /\
          fetch srv dataset_id (seq 0 max_retries) = (r, t2) /\
          trace = (t0 ++ t1 ++ t2)%list)).
Proof.
  unfold scrape_jobs.
  destruct token as [[| c tok] |];
    [intros [= <- <-]; left; eauto | | intros [= <- <-]; left; eauto].
  destruct (bind (timedelta days_back) _) as [from_date |];
    [| intros [= <- <-]; left; eauto].
  set (input := mk_run_input _ _ _ _).
  destruct (start_run srv input (seq 0 max_retries)) as [started t0] eqn:St.
  intros H. right. exists input, started, t0. split; [exact St |].
  destruct started as [json | e].
  2:{ injection H as <- <-. left. repeat split; try discriminate.
      intros status E. injection E as ->.
      destruct (start_run_failure _ _ _ _ _ St) as [? | [? | [? ?]]];
        discriminate. }
  destruct json as [body |].
  2:{ injection H as <- <-. left. repeat split; discriminate. }
  destruct (bind (get_attr body "data" empty_dict) _) as [[run_id dataset_id] |].
  2:{ injection H as <- <-. left. repeat split; discriminate. }
  destruct (poll fuel srv run_id 0) as [[status t1] |] eqn:Pl;
    [| discriminate].
  right. exists run_id, status, t1. split; [exact Pl |].
  destruct (eq_str status "SUCCEEDED") eqn:E; cbn [negb] in H.
  - right. exists dataset_id.
    destruct (fetch srv dataset_id (seq 0 max_retries)) as [r' t2].
    injection H as <- <-. exists t2. repeat split.
  - injection H as <- <-. left. repeat split; trivial.
Qed.

Lemma fetched_failure reply e :
  fetched reply = Failed e ->
  e = RequestError \/ e = JSONDecodeError \/
  exists status_code, e = HTTPError status_code.
Proof.
  destruct reply as [| c [body |]]; simpl.
  - intros [= <-]. now left.
  - destruct (raises_for_status c); [| discriminate].
    intros [= <-]. right. right. eauto.
  - destruct (raises_for_status c); intros [= <-]; right;
      [right; eauto | now left].
Qed.

(** The fetch loop raises what a fetch raises, and nothing else. *)
Lemma fetch_failure srv dataset_id attempts : forall e trace,
  fetch srv dataset_id attempts = (Failed e, trace) ->
  e = RequestError \/ e = JSONDecodeError \/
  exists status_code, e = HTTPError status_code.
Proof.
  induction attempts as [| attempt attempts IH]; intros e trace; simpl;
    [discriminate |].
  destruct (fetched (fetch_reply srv dataset_id attempt)) as [b | e'] eqn:F;
    [discriminate |].
  destruct (Nat.eqb attempt _).
  - intros [= <- _]. eapply fetched_failure, F.
  - destruct (fetch srv dataset_id attempts) as [r t] eqn:E.
    intros [= -> _]. eapply IH. reflexivity.
Qed.

(** A body the fetch loop returns is what the first fetch that
    succeeded brought, at one of the three tries. *)
Lemma fetch_done srv dataset_id body trace :
  fetch srv dataset_id (seq 0 max_retries) = (Done body, trace) ->
  exists attempt,
    (attempt < max_retries)%nat /\
    fetched (fetch_reply srv dataset_id attempt) = Done body /\
    forall i, (i < attempt)%nat ->
      forall b, fetched (fetch_reply srv dataset_id i) <> Done b.
Proof.
  unfold max_retries. simpl.
  destruct (fetched (fetch_reply srv dataset_id 0)) as [b0 | e0] eqn:F0.
  { intros [= <- _]. exists 0%nat.
    split; [lia |]. split; [assumption |]. intros i Hi. lia. }
  simpl.
  destruct (fetched (fetch_reply srv dataset_id 1)) as [b1 | e1] eqn:F1.
  { intros [= <- _]. exists 1%nat.
    split; [lia |]. split; [assumption |].
    intros i Hi b. assert (i = 0)%nat as -> by lia. congruence. }
  simpl.
  destruct (fetched (fetch_reply srv dataset_id 2)) as [b2 | e2] eqn:F2;
    [| discriminate].
  intros [= <- _]. exists 2%nat.
  split; [lia |]. split; [assumption |].
  intros i Hi b.
  assert (i = 0 \/ i = 1)%nat as [-> | ->] by lia; congruence.
Qed.

(** X6. However the provider behaves, [scrape_jobs] posts at most three
    times and fetches at most three times. It fetches only after a poll
    has reported SUCCEEDED: when the run ends in another terminal status
    it raises with that status and fetches nothing; and a body it
    returns is what the first fetch that succeeded brought. *)
Theorem scrape_jobs_requests token now srv fuel limit days_back
    search_queries r trace :
  scrape_jobs token now srv fuel limit days_back search_queries
  = Some (r, trace) ->
  (posts trace <= 3)%nat /\ (fetches trace <= 3)%nat /\
  (forall status, r = Failed (RunFailure status) ->
     fetches trace = 0%nat /\ (1 <= polls trace)%nat /\
     existsb (eq_str status) terminal_statuses = true /\
     eq_str status "SUCCEEDED" = false) /\
  ((1 <= fetches trace)%nat ->
     exists run_id status t,
       poll fuel srv run_id 0 = Some (status, t) /\
       eq_str status "SUCCEEDED" = true) /\
  (forall body, r = Done body ->
     (1 <= posts trace)%nat /\ (1 <= polls trace)%nat /\
     exists dataset_id attempt,
       (attempt < max_retries)%nat /\
       fetched (fetch_reply srv dataset_id attempt) = Done body /\
       forall i, (i < attempt)%nat ->
         forall b, fetched (fetch_reply srv dataset_id i) <> Done b).
Proof.
  intros H. apply scrape_jobs_inv in H.
  destruct H as [[-> (e & ->)] | (input & started & t0 & St & H)].
  { split; [cbn; lia |]. split; [cbn; lia |].
    split; [discriminate |]. split; [cbn; lia | discriminate]. }
  destruct (start_run_posts _ _ _ _ St) as (P0 & Bq & Bf).
  destruct H as [(-> & Hd & Hf) | (run_id & status & t1 & Pl & H)].
  { split; [lia |]. split; [lia |].
    split; [intros st E; now destruct (Hf st) |].
    split; [lia |]. intros body E. now destruct (Hd body). }
  destruct (poll_ended _ _ _ _ _ _ Pl) as (T & P1 & F1 & L1 & _).
  destruct H as [(-> & E & ->) | (dataset_id & t2 & E & Ft & ->)].
  - rewrite posts_app, fetches_app, polls_app.
    split; [lia |]. split; [lia |]. split.
    + intros st [= <-]. repeat split; trivial; lia.
    + split; [lia | discriminate].
  - pose proof (fetch_bounded srv dataset_id) as B. cbv zeta in B.
    rewrite Ft in B. cbn [snd] in B. destruct B as (Cf & Cp & Cq).
    assert (F2 : (1 <= fetches t2 <= 3)%nat)
      by (destruct Cf as [? | [? | ?]]; lia).
    rewrite !posts_app, !fetches_app, !polls_app.
    split; [lia |]. split; [lia |]. split.
    + intros st ->.
      destruct (fetch_failure _ _ _ _ _ Ft) as [? | [? | [? ?]]];
        discriminate.
    + split; [eauto |].
      intros body ->. split; [lia |]. split; [lia |].
      exists dataset_id. eapply fetch_done, Ft.
Qed.

Lemma cutoff_value now days :
  cutoff_exists now days ->
  (delta <- timedelta days ;; datetime_sub now delta)
  = Ok (mk_datetime (ordinal now - days) (microsecond now)).
Proof.
  intros [Hd [Hlo Hhi]]. unfold timedelta, datetime_sub, bind.
  apply Z.leb_le in Hd, Hlo, Hhi. rewrite Hd. simpl. now rewrite Hlo, Hhi.
Qed.

(** X7. The way through: with a token, a cutoff date that exists, a
    first post that is accepted and names the run and its dataset, polls
    that report SUCCEEDED at the n-th after n that do not end, and a
    first fetch that brings a body, [scrape_jobs] returns that body after
    one post, n+1 polls with 5 seconds between them, and one fetch; the
    run it posts asks for the days from [days_back] before today to
    today. *)
Theorem scrape_jobs_succeeds c tok now srv limit days_back search_queries
    code body run_data run_id dataset_id n code' data :
  cutoff_exists now days_back ->
  let input := mk_run_input limit (ordinal now - days_back) (ordinal now)
                 (queries_of search_queries) in
  post_reply srv input 0 = Reply code (Some body) ->
  raises_for_status code = false ->
  get_attr body "data" empty_dict = Ok run_data ->
  get_attr run_data "id" PNone = Ok run_id ->
  get_attr run_data "defaultDatasetId" PNone = Ok dataset_id ->
  (forall i, (i < n)%nat -> ends_polling (poll_reply srv run_id i) = false) ->
  reported_status (poll_reply srv run_id n) = Done (PStr "SUCCEEDED") ->
  fetch_reply srv dataset_id 0 = Reply code' (Some data) ->
  raises_for_status code' = false ->
  forall fuel, (n < fuel)%nat ->
  scrape_jobs (Some (String c tok)) now srv fuel limit days_back
    search_queries
  = Some (Done data,
          (Post input :: waiting run_id n
           ++ [Poll run_id; Fetch dataset_id])%list).
Proof.
  intros Hc input Hp Ep Hdata Hid Hds Hbefore Hn Hf Ef fuel Hfuel.
  unfold scrape_jobs. rewrite (cutoff_value _ _ Hc). cbn [ordinal].
  fold input. simpl start_run. rewrite Hp, Ep.
  unfold bind. rewrite Hdata, Hid, Hds.
  rewrite (poll_reaches srv run_id n 0 fuel (PStr "SUCCEEDED"));
    trivial.
  2:{ intros i Hi. apply Hbefore. lia. }
  simpl. rewrite Hf. simpl. rewrite Ef.
  now rewrite <- app_assoc.
Qed.

Lemma scrape_jobs_succeeds_witness :
  scrape_jobs (Some "secret") clock good_server 10 (PInt 50) 1 None
  = Some (Done (PList (map PDict sample_jobs)),
          [Post sample_input; Poll (PStr "run1"); Sleep 5;
           Poll (PStr "run1"); Sleep 5; Poll (PStr "run1");
           Fetch (PStr "ds1")]).
Proof.
  apply (scrape_jobs_succeeds "s" "ecret" clock good_server (PInt 50) 1 None
           201
           (PDict [("data", PDict [("id", PStr "run1");
                                   ("defaultDatasetId", PStr "ds1")])])
           (PDict [("id", PStr "run1"); ("defaultDatasetId", PStr "ds1")])
           (PStr "run1") (PStr "ds1") 2 200
           (PList (map PDict sample_jobs))); try reflexivity.
  - unfold cutoff_exists, max_delta_days, max_ordinal, clock. simpl. lia.
  - intros [| [| i]] Hi; try reflexivity. lia.
  - lia.
Defined.

(** X8. A run that never reports a terminal status keeps [scrape_jobs]
    polling: whatever the number of polls allowed, it has not returned. *)
Theorem scrape_jobs_polls_forever c tok now srv limit days_back search_queries
    code body run_data run_id dataset_id :
  cutoff_exists now days_back ->
  let input := mk_run_input limit (ordinal now - days_back) (ordinal now)
                 (queries_of search_queries) in
  post_reply srv input 0 = Reply code (Some body) ->
  raises_for_status code = false ->
  get_attr body "data" empty_dict = Ok run_data ->
  get_attr run_data "id" PNone = Ok run_id ->
  get_attr run_data "defaultDatasetId" PNone = Ok dataset_id ->
  (forall i, ends_polling (poll_reply srv run_id i) = false) ->
  forall fuel,
  scrape_jobs (Some (String c tok)) now srv fuel limit days_back
    search_queries = None.
Proof.
  intros Hc input Hp Ep Hdata Hid Hds Hnever fuel.
  unfold scrape_jobs. rewrite (cutoff_value _ _ Hc). cbn [ordinal].
  fold input. simpl start_run. rewrite Hp, Ep.
  unfold bind. rewrite Hdata, Hid, Hds.
  now rewrite (poll_unending srv run_id Hnever).
Qed.

Lemma scrape_jobs_polls_forever_witness :
  scrape_jobs (Some "secret") clock stuck_server 1000 (PInt 50) 1 None = None.
Proof.
  apply (scrape_jobs_polls_forever "s" "ecret" clock stuck_server (PInt 50) 1
           None 201
           (PDict [("data", PDict [("id", PStr "run1");
                                   ("defaultDatasetId", PStr "ds1")])])
           (PDict [("id", PStr "run1"); ("defaultDatasetId", PStr "ds1")])
           (PStr "run1") (PStr "ds1")); try reflexivity.
  unfold cutoff_exists, max_delta_days, max_ordinal, clock. simpl. lia.
Defined.

Lemma start_run_three_errors_witness :
  start_run refusing_server sample_input (seq 0 max_retries)
  = (Failed (HTTPError 404),
     [Post sample_input; Sleep 2; Post sample_input; Sleep 4;
      Post sample_input]).
Proof.
  apply (start_run_three_errors refusing_server sample_input
           404 None 404 None 404 None); reflexivity.
Defined.

Lemma start_run_first_good_witness :
  exists trace,
    start_run good_server sample_input (seq 0 max_retries)
    = (Done (Some (PDict [("data", PDict [("id", PStr "run1");
                                          ("defaultDatasetId", PStr "ds1")])])),
       trace) /\
    posts trace = 1%nat /\ slept trace = 0.
Proof.
  apply (start_run_first_good good_server sample_input 0 201).
  - unfold max_retries. lia.
  - intros i Hi. lia.
  - reflexivity.
  - reflexivity.
Defined.

Lemma poll_until_terminal_witness :
  poll 10 good_server (PStr "run1") 0
  = Some (PStr "SUCCEEDED",
          [Poll (PStr "run1"); Sleep 5; Poll (PStr "run1"); Sleep 5;
           Poll (PStr "run1")]).
Proof.
  apply (proj2 (poll_until_terminal good_server (PStr "run1") 10
                  (PStr "SUCCEEDED")
                  [Poll (PStr "run1"); Sleep 5; Poll (PStr "run1"); Sleep 5;
                   Poll (PStr "run1")])).
  exists 2%nat. split; [lia |]. split.
  - intros [| [| i]] Hi; try reflexivity. lia.
  - repeat split.
Defined.

Lemma no_reply_is_retried_by_fetch_only_witness :
  start_run silent_server sample_input (seq 0 max_retries)
  = (Failed RequestError, [Post sample_input]) /\
  fetch silent_server (PStr "ds1") (seq 0 max_retries)
  = (Failed RequestError,
     [Fetch (PStr "ds1"); Sleep 2; Fetch (PStr "ds1"); Sleep 2;
      Fetch (PStr "ds1")]).
Proof.
  destruct (no_reply_is_retried_by_fetch_only silent_server sample_input
              (PStr "ds1")) as [P F].
  split.
  - apply P. reflexivity.
  - apply F; reflexivity.
Defined.

Lemma scrape_jobs_requests_witness :
  (posts [Post sample_input; Poll (PStr "run1")] <= 3)%nat /\
  fetches [Post sample_input; Poll (PStr "run1")] = 0%nat /\
  eq_str (PStr "FAILED") "SUCCEEDED" = false.
Proof.
  assert (H : scrape_jobs (Some "secret") clock failing_server 10 (PInt 50) 1
                None
              = Some (Failed (RunFailure (PStr "FAILED")),
                      [Post sample_input; Poll (PStr "run1")]))
    by reflexivity.
  destruct (scrape_jobs_requests _ _ _ _ _ _ _ _ _ H) as (P & _ & R & _).
  destruct (R (PStr "FAILED") eq_refl) as (F & _ & _ & S).
  split; [exact P |]. split; [exact F | exact S].
Defined.

(** ** [main] *)

Lemma filter_raw_loop_mappings vp ms el recs : forall filtered,
  filter_raw_loop vp ms el (map PDict recs) filtered
  = filter_loop vp ms el recs filtered.
Proof.
  induction recs as [| job recs IH]; intros filtered; simpl; [reflexivity |].
  unfold bind. destruct (rejected vp ms el job); [apply IH | reflexivity].
Qed.

(** The loop returns only on a list of mappings. *)
Lemma filter_raw_loop_ok vp ms el l : forall filtered out,
  filter_raw_loop vp ms el l filtered = Ok out ->
  l = map PDict (mappings l).
Proof.
  induction l as [| v l IH]; intros filtered out; simpl; [reflexivity |].
  destruct v; try discriminate. unfold bind.
  destruct (rejected vp ms el d); [| discriminate].
  intros H. apply IH in H. simpl. now rewrite <- H.
Qed.

(** What [filter_raw] returns: the mappings of the dataset that the
    settings admit, in order; and a list it returns on holds mappings
    only. *)
Lemma filter_raw_done now raw vp ms el days filtered :
  filter_raw now raw vp ms el days = Done filtered ->
  filtered = admitted_records vp ms el (records_of raw) /\
  forall l, raw = PList l -> l = map PDict (records_of raw).
Proof.
  unfold filter_raw.
  destruct (lift _) as [cutoff |]; [| discriminate].
  destruct raw as [| b | z | f | s | l | d]; try discriminate.
  - destruct (String.eqb s EmptyString); [| discriminate].
    intros [= <-]. split; [reflexivity | discriminate].
  - destruct l as [| v l].
    + intros [= <-]. split; [reflexivity |]. now intros l [= <-].
    + destruct v; try discriminate.
      remember (PDict d :: l) as L eqn:HL.
      destruct (filter_raw_loop _ _ _ L _) as [out |] eqn:E; [| discriminate].
      intros [= <-]. pose proof (filter_raw_loop_ok _ _ _ _ _ _ E) as M.
      split; [| intros l' [= <-]; exact M].
      rewrite M, filter_raw_loop_mappings in E.
      apply filter_loop_kept in E. exact E.
  - destruct d; [| discriminate].
    intros [= <-]. split; [reflexivity | discriminate].
Qed.

(** [transform_all] returns the outputs in the order of the jobs. *)
Lemma transform_all_ok filtered : forall outs,
  transform_all filtered = Ok outs ->
  Forall2 (fun job out => transform_job job = Ok out) filtered outs.
Proof.
  induction filtered as [| j filtered IH]; intros outs; simpl.
  - intros [= <-]. constructor.
  - unfold bind. destruct (transform_job j) as [out |] eqn:T; [| discriminate].
    destruct (transform_all filtered) as [outs' |]; [| discriminate].
    intros [= <-]. constructor; auto.
Qed.

Lemma transform_all_total filtered :
  Forall (fun job => well_shaped job = true) filtered ->
  exists outs, transform_all filtered = Ok outs.
Proof.
  induction 1 as [| j filtered Hj _ [outs IH]]; simpl; [eauto |].
  destruct (transform_job_total j Hj) as [out ->]. rewrite IH. simpl. eauto.
Qed.

(** What [save] has met when it is through. *)
Lemma save_done disk path output_data :
  save disk path output_data = Done tt <->
  makedirs_reply disk path = None /\ open_reply disk path = None /\
  write_reply disk path output_data = None /\
  forallb (fun out => forallb renders (fields out)) output_data = true.
Proof.
  unfold save.
  destruct (makedirs_reply disk path); [intuition discriminate |].
  destruct (open_reply disk path); [intuition discriminate |].
  destruct (write_reply disk path output_data); [intuition discriminate |].
  destruct (forallb _ output_data); intuition discriminate.
Qed.

(** What [save] raises: what the file system raises, or the
    [ValueError] of an integer that has no text. *)
Lemma save_failed disk path output_data e :
  save disk path output_data = Failed e ->
  makedirs_reply disk path = Some e \/ open_reply disk path = Some e \/
  write_reply disk path output_data = Some e \/
  (e = Builtin ValueError /\
   forallb (fun out => forallb renders (fields out)) output_data = false).
Proof.
  unfold save.
  destruct (makedirs_reply disk path); [intros [= <-]; auto |].
  destruct (open_reply disk path); [intros [= <-]; auto |].
  destruct (write_reply disk path output_data); [intros [= <-]; auto |].
  destruct (forallb _ output_data); [discriminate |].
  intros [= <-]. auto 6.
Qed.

(** X9. What [main] saves: when it writes the output file, the file
    is the one named on the command line, the scrape has returned, and
    the output holds, in the order of the dataset, one NormalizedJob for
    each record the settings admit, each the transform of its record; a
    dataset that is a list held mappings only. *)
Theorem main_saves_transformed_admitted args token now_scrape now_filter srv
    disk fuel path output_data trace :
  main args token now_scrape now_filter srv disk fuel
  = Some (Saved path output_data, trace) ->
  path = arg_output args /\
  exists raw_jobs,
    scrape_jobs token now_scrape srv fuel (PInt (arg_limit args))
      (arg_days args) (Some (arg_search_queries args))
    = Some (Done raw_jobs, trace) /\
    (forall l, raw_jobs = PList l -> l = map PDict (records_of raw_jobs)) /\
    Forall2 (fun job out => transform_job job = Ok out)
      (admitted_records (arg_verified_payment args) (arg_min_spent args)
         (exp_levels_of (arg_experience args)) (records_of raw_jobs))
      output_data.
Proof.
  unfold main.
  destruct (scrape_jobs _ _ _ _ _ _ _) as [[[raw | e] t] |];
    try discriminate.
  destruct (negb (has_len raw)); [discriminate |].
  destruct (filter_raw _ _ _ _ _ _) as [filtered | e] eqn:F;
    [| discriminate].
  destruct (transform_all filtered) as [outs |] eqn:T; [| discriminate].
  destruct (save disk (arg_output args) outs); [| discriminate].
  intros [= <- <- <-]. split; [reflexivity |].
  exists raw. split; [reflexivity |].
  destruct (filter_raw_done _ _ _ _ _ _ _ F) as [-> M].
  split; [exact M |]. now apply transform_all_ok.
Qed.

Lemma main_saves_transformed_admitted_witness :
  exists raw_jobs,
    scrape_jobs (Some "secret") clock good_server 10 (PInt 50) 1
      (Some "workflow automation")
    = Some (Done raw_jobs,
            [Post sample_input; Poll (PStr "run1"); Sleep 5;
             Poll (PStr "run1"); Sleep 5; Poll (PStr "run1");
             Fetch (PStr "ds1")]) /\
    (forall l, raw_jobs = PList l -> l = map PDict (records_of raw_jobs)) /\
    Forall2 (fun job out => transform_job job = Ok out)
      (admitted_records false (NInt 1000) ["intermediate"; " expert"]
         (records_of raw_jobs))
      [ {| job_id := PStr "~0198abc";
           title := PStr "Automate invoices";
           description := PNone; skills := PList [];
           budget := PNone; hourly_rate := PNone; job_type := PNone;
           experience_level := PStr "Expert"; client_country := PNone;
           client_total_spent := PStr "2,500"; client_hires := PNone;
           proposal_count := PNone; posted_date := PNone;
           job_url := PStr "https://x/jobs/~0198abc";
           apply_url :=
             PStr "https://www.upwork.com/nx/proposals/job/~0198abc/apply/"
        |} ].
Proof.
  apply (main_saves_transformed_admitted sample_arguments (Some "secret")
           clock clock good_server open_disk 10 "out/jobs.json").
  reflexivity.
Defined.

(** The members that are read in a value that has a text have one. *)
Lemma get_attr_renders v k default x :
  renders v = true -> renders default = true ->
  get_attr v k default = Ok x -> renders x = true.
Proof.
  intros Hv Hd. destruct v; simpl; try discriminate.
  intros [= <-]. now apply renders_dict_get.
Qed.

Lemma client_stat_renders client k x :
  renders client = true -> client_stat client k = Ok x -> renders x = true.
Proof.
  intros R. unfold client_stat.
  destruct (str_in "stats" client) as [[] |]; cbn [bind]; try discriminate.
  - destruct (get_attr client "stats" empty_dict) as [stats |] eqn:S;
      cbn [bind]; [| discriminate].
    intros H. apply (get_attr_renders stats k PNone); [| reflexivity | exact H].
    apply (get_attr_renders client "stats" empty_dict);
      [exact R | reflexivity | exact S].
  - intros H. apply (get_attr_renders client k PNone);
      [exact R | reflexivity | exact H].
Qed.

(** The output written for a record that has a text has one. *)
Lemma transform_job_renders job out :
  renders (PDict job) = true -> transform_job job = Ok out ->
  forallb renders (fields out) = true.
Proof.
  intros R H. apply transform_job_inv in H. cbv zeta in H.
  destruct H as (Hid & Hap & Hurl & Hlv & Hcc & Hts & Hth & Ht & Hd & Hs
                 & Hb & Hh & Hj & Hp & Hpd).
  assert (Rc : renders (dict_get job "client" empty_dict) = true)
    by (now apply renders_dict_get).
  assert (Rv : renders (dict_get job "vendor" empty_dict) = true)
    by (now apply renders_dict_get).
  unfold fields.
  rewrite Ht, Hd, Hs, Hb, Hh, Hj, Hp, Hpd, Hurl.
  apply apply_url_of_inv in Hap. destruct Hap as [Hap _]. rewrite Hap.
  cbn [forallb]. rewrite !andb_true_iff.
  repeat split; try (apply renders_get; exact R).
  - eapply derive_job_id_renders; eassumption.
  - now apply renders_dict_get.
  - unfold resolve_level, or_else in Hlv.
    destruct (truthy (get job "experienceLevel"));
      [injection Hlv as <-; now apply renders_get |].
    apply (get_attr_renders (dict_get job "vendor" empty_dict)
             "experienceLevel" PNone);
      [exact Rv | reflexivity | exact Hlv].
  - unfold resolve_country in Hcc.
    destruct (get_attr _ "location" empty_dict) as [loc |] eqn:L;
      cbn [bind] in Hcc; [| discriminate].
    assert (Rl : renders loc = true)
      by (apply (get_attr_renders (dict_get job "client" empty_dict)
                   "location" empty_dict);
          [exact Rc | reflexivity | exact L]).
    destruct (get_attr loc "country" PNone) as [country |] eqn:C;
      cbn [bind] in Hcc; [| discriminate].
    unfold or_else in Hcc. destruct (truthy country).
    + injection Hcc as <-.
      apply (get_attr_renders loc "country" PNone);
        [exact Rl | reflexivity | exact C].
    + apply (get_attr_renders (dict_get job "client" empty_dict)
               "countryCode" PNone);
        [exact Rc | reflexivity | exact Hcc].
  - exact (client_stat_renders _ _ _ Rc Hts).
  - exact (client_stat_renders _ _ _ Rc Hth).
  - apply renders_por; apply renders_get; exact R.
  - unfold posted_date_of.
    apply renders_por; [| apply renders_por]; apply renders_get; exact R.
  - apply renders_por; apply renders_get; exact R.
  - now destruct (truthy (job_id out)).
Qed.

Lemma well_shaped_renders job :
  well_shaped job = true -> renders (PDict job) = true.
Proof. unfold well_shaped. rewrite !andb_true_iff. tauto. Qed.

Lemma outputs_render filtered : forall outs,
  Forall (fun job => renders (PDict job) = true) filtered ->
  Forall2 (fun job out => transform_job job = Ok out) filtered outs ->
  forallb (fun out => forallb renders (fields out)) outs = true.
Proof.
  intros outs R H. induction H as [| job out filtered outs T _ IH];
    [reflexivity |].
  inversion R as [| ? ? Rj Rf]; subst. cbn [forallb].
  rewrite (transform_job_renders _ _ Rj T), (IH Rf). reflexivity.
Qed.

(** X10. On a dataset that is a list of well-shaped records, with a
    cutoff date that exists and a file system that raises nothing,
    [main] ends by saving: nothing is raised between the scrape and the
    file, and an empty dataset gives an empty output. *)
Theorem main_saves_on_well_shaped args token now_scrape now_filter srv disk
    fuel recs trace :
  scrape_jobs token now_scrape srv fuel (PInt (arg_limit args))
    (arg_days args) (Some (arg_search_queries args))
  = Some (Done (PList (map PDict recs)), trace) ->
  Forall (fun job => well_shaped job = true) recs ->
  cutoff_exists now_filter (arg_days args) ->
  makedirs_reply disk (arg_output args) = None ->
  open_reply disk (arg_output args) = None ->
  (forall output_data,
     write_reply disk (arg_output args) output_data = None) ->
  exists output_data,
    main args token now_scrape now_filter srv disk fuel
    = Some (Saved (arg_output args) output_data, trace) /\
    (recs = [] -> output_data = []) /\
    (List.length output_data <= List.length recs)%nat.
Proof.
  intros Hs Hw Hc Hm Ho Hwr. unfold main. rewrite Hs. cbn [has_len negb].
  set (vp := arg_verified_payment args). set (ms := arg_min_spent args).
  set (el := exp_levels_of (arg_experience args)).
  assert (F : filter_raw now_filter (PList (map PDict recs)) vp ms el
                (arg_days args)
              = Done (admitted_records vp ms el recs)).
  { unfold filter_raw. rewrite (cutoff_value _ _ Hc). cbn [lift].
    destruct recs as [| job recs]; [reflexivity |].
    change (map PDict (job :: recs)) with (PDict job :: map PDict recs).
    cbv iota.
    change (PDict job :: map PDict recs) with (map PDict (job :: recs)).
    rewrite filter_raw_loop_mappings.
    destruct (filter_loop_total vp ms el (job :: recs)) with (filtered := @nil record)
      as [out E].
    { eapply Forall_impl; [| exact Hw]. intros j. apply rejected_total. }
    rewrite E. apply filter_loop_kept in E. now subst out. }
  rewrite F.
  assert (W : Forall (fun job => well_shaped job = true)
                (admitted_records vp ms el recs)).
  { apply Forall_forall. intros j Hj. unfold admitted_records in Hj.
    apply filter_In in Hj. rewrite Forall_forall in Hw. now apply Hw. }
  destruct (transform_all_total _ W) as [outs T]. rewrite T.
  pose proof (transform_all_ok _ _ T) as T2.
  assert (Sv : save disk (arg_output args) outs = Done tt).
  { apply save_done. repeat split; trivial.
    eapply outputs_render; [| exact T2].
    eapply Forall_impl; [| exact W]. intros j. apply well_shaped_renders. }
  rewrite Sv.
  exists outs. split; [reflexivity |].
  pose proof (Forall2_length T2) as L.
  split.
  - intros ->. destruct outs; [reflexivity | discriminate].
  - rewrite <- L. unfold admitted_records. apply filter_length_le.
Qed.

Lemma main_saves_on_well_shaped_witness :
  exists output_data,
    main sample_arguments (Some "secret") clock clock good_server open_disk 10
    = Some (Saved "out/jobs.json" output_data,
            [Post sample_input; Poll (PStr "run1"); Sleep 5;
             Poll (PStr "run1"); Sleep 5; Poll (PStr "run1");
             Fetch (PStr "ds1")]) /\
    (sample_jobs = [] -> output_data = []) /\
    (List.length output_data <= List.length sample_jobs)%nat.
Proof.
  apply (main_saves_on_well_shaped sample_arguments (Some "secret")
           clock clock good_server open_disk 10 sample_jobs).
  - reflexivity.
  - repeat constructor.
  - unfold cutoff_exists, max_delta_days, max_ordinal, clock. simpl. lia.
  - reflexivity.
  - reflexivity.
  - reflexivity.
Defined.

(** ** What the two functions can raise *)

Lemma get_attr_raises v k default e :
  get_attr v k default = Raise e -> e = AttributeError.
Proof. destruct v; simpl; congruence. Qed.

Lemma bind_raises {A B : Type} (m : result A) (k : A -> result B) e :
  bind m k = Raise e ->
  m = Raise e \/ exists a, m = Ok a /\ k a = Raise e.
Proof. destruct m; simpl; eauto. intros [= ->]. now left. Qed.

Lemma resolve_level_raises job e :
  resolve_level job = Raise e -> e = AttributeError.
Proof.
  unfold resolve_level, or_else.
  destruct (truthy _); [discriminate | apply get_attr_raises].
Qed.

(** A value that counts as false has a text. *)
Lemma falsy_renders v : truthy v = false -> renders v = true.
Proof.
  destruct v as [| b | z | f | t | l | d]; simpl; trivial.
  - intros H. apply negb_false_iff, Z.eqb_eq in H. now subst z.
  - destruct l; [reflexivity | discriminate].
  - destruct d; [reflexivity | discriminate].
Qed.

Lemma renders_in l v :
  renders (PList l) = true -> In v l -> renders v = true.
Proof.
  simpl. intros H Hin. rewrite forallb_forall in H. now apply H.
Qed.

(** A record whose proposal count has no text has none itself. *)
Lemma proposals_without_text job :
  renders (resolve_proposals job) = false -> renders (PDict job) = false.
Proof.
  intros H. destruct (renders (PDict job)) eqn:R; [| reflexivity].
  rewrite <- H. symmetry. unfold resolve_proposals.
  apply renders_por; apply renders_get; exact R.
Qed.

(** So has a record whose identifier has no text. *)
Lemma id_without_text job :
  renders (por (get job "id") (get job "ciphertext")) = false ->
  renders (PDict job) = false.
Proof.
  intros H. destruct (renders (PDict job)) eqn:R; [| reflexivity].
  rewrite <- H. symmetry. apply renders_por; apply renders_get; exact R.
Qed.

(** The body of the loop raises [AttributeError], or the [ValueError]
    of a proposal count that has no text, and nothing else. *)
Lemma rejected_raises vp ms el job e :
  rejected vp ms el job = Raise e ->
  e = AttributeError \/
  (e = ValueError /\ truthy (resolve_proposals job) = true /\
   renders (resolve_proposals job) = false).
Proof.
  unfold rejected.
  intros H. apply bind_raises in H.
  destruct H as [H | ([] & _ & H)]; [| discriminate |].
  { left. destruct vp; [| discriminate]. unfold unverified in H.
    apply bind_raises in H. destruct H as [H | (? & _ & H)];
      [| discriminate].
    unfold or_else in H. destruct (truthy _); [discriminate |].
    apply bind_raises in H.
    destruct H as [H | (pmv & _ & H)]; [now apply get_attr_raises in H |].
    destruct (truthy _); [discriminate |].
    apply bind_raises in H.
    destruct H as [H | (? & _ & H)];
      [now apply get_attr_raises in H | discriminate]. }
  apply bind_raises in H.
  destruct H as [H | ([] & _ & H)]; [| discriminate |].
  { left. destruct (num_lt _ ms); [| discriminate].
    unfold low_spend in H. apply bind_raises in H.
    destruct H as [H | (? & _ & H)]; [| discriminate].
    unfold resolve_total_spent in H.
    destruct (dict_get job "client" empty_dict); try (simpl in H; congruence).
    simpl in H. destruct (is_None _); [| discriminate].
    simpl in H. destruct (lookup "stats" d); [| discriminate].
    simpl in H. now apply get_attr_raises in H. }
  apply bind_raises in H.
  destruct H as [H | ([] & _ & H)]; [| discriminate |].
  { left. unfold level_mismatch in H. apply bind_raises in H.
    destruct H as [H | (lv & _ & H)]; [now apply resolve_level_raises in H |].
    destruct (_ && _); [| discriminate].
    apply bind_raises in H. destruct H as [H | (? & _ & H)]; [| discriminate].
    destruct lv; simpl in H; congruence. }
  right. rewrite high_competition_unfold in H. cbv zeta in H.
  destruct (truthy (resolve_proposals job)); [| discriminate].
  destruct (renders (resolve_proposals job)); [discriminate |].
  injection H as <-. auto.
Qed.




(** What [transform_job] raises, and where. *)
Lemma transform_job_raise_cases job e :
  transform_job job = Raise e ->
  e = AttributeError \/
  (e = TypeError /\
   truthy (por (get job "id") (get job "ciphertext")) = false /\
   truthy (por (get job "url") (get job "externalLink")) = true /\
   exists n, as_number (por (get job "url") (get job "externalLink"))
             = Some n) \/
  (e = ValueError /\
   truthy (por (get job "id") (get job "ciphertext")) = true /\
   renders (por (get job "id") (get job "ciphertext")) = false).
Proof.
  unfold transform_job. intros H. apply bind_raises in H.
  destruct H as [H | (jid & Hj & H)].
  { unfold derive_job_id in H.
    destruct (truthy (por (get job "id") (get job "ciphertext"))) eqn:T1;
      [discriminate |].
    destruct (truthy (por (get job "url") (get job "externalLink"))) eqn:T2;
      [| discriminate].
    simpl in H.
    destruct (por (get job "url") (get job "externalLink")) as
      [| b | z | f | u | l | d]; simpl in H.
    - discriminate T2.
    - injection H as <-. right. left. repeat split. eexists. reflexivity.
    - injection H as <-. right. left. repeat split. eexists. reflexivity.
    - injection H as <-. right. left. repeat split. eexists. reflexivity.
    - destruct (contains "~" u); discriminate.
    - destruct (existsb _ l); discriminate.
    - destruct (lookup "~" d); discriminate. }
  apply bind_raises in H. destruct H as [H | (url & _ & H)].
  { right. right. unfold apply_url_of in H.
    destruct (truthy jid) eqn:T; [| discriminate].
    apply bind_raises in H. destruct H as [H | (? & _ & H)]; [| discriminate].
    apply str_of_raises in H. destruct H as [R ->].
    unfold derive_job_id in Hj.
    destruct (truthy (por (get job "id") (get job "ciphertext"))) eqn:T1.
    - simpl in Hj. injection Hj as <-. auto.
    - exfalso.
      destruct (negb false && _); [| injection Hj as <-; congruence].
      destruct (str_in "~" _) as [[] |]; simpl in Hj; try discriminate;
        [| injection Hj as <-; congruence].
      injection Hj as <-.
      destruct (split_last "~" _) as [last |]; simpl in R, T;
        [discriminate | congruence]. }
  left.
  apply bind_raises in H.
  destruct H as [H | (lv & _ & H)]; [now apply resolve_level_raises in H |].
  apply bind_raises in H. destruct H as [H | (cc & Hcc & H)].
  { unfold resolve_country in H. apply bind_raises in H.
    destruct H as [H | (loc & _ & H)]; [now apply get_attr_raises in H |].
    apply bind_raises in H.
    destruct H as [H | (country & _ & H)]; [now apply get_attr_raises in H |].
    unfold or_else in H. destruct (truthy country); [discriminate |].
    now apply get_attr_raises in H. }
  assert (S : forall k e0, client_stat (dict_get job "client" empty_dict) k
                           = Raise e0 ->
                           resolve_country (dict_get job "client" empty_dict)
                           = Ok cc -> e0 = AttributeError).
  { intros k e0. unfold client_stat, resolve_country.
    destruct (dict_get job "client" empty_dict); simpl; try discriminate.
    destruct (lookup "stats" d); simpl.
    - intros H1 _. now apply get_attr_raises in H1.
    - discriminate. }
  apply bind_raises in H.
  destruct H as [H | (ts & _ & H)]; [eapply S; eauto |].
  apply bind_raises in H.
  destruct H as [H | (th & _ & H)]; [eapply S; eauto |].
  discriminate.
Qed.



(** ** How [main] ends *)

Lemma cutoff_ok now days cutoff :
  (delta <- timedelta days ;; datetime_sub now delta) = Ok cutoff ->
  cutoff_exists now days.
Proof.
  unfold timedelta, datetime_sub, bind, cutoff_exists.
  destruct (Z.abs days <=? max_delta_days) eqn:D; [| discriminate].
  destruct (_ && _) eqn:E; [| discriminate].
  intros _. apply andb_true_iff in E. destruct E as [E1 E2].
  apply Z.leb_le in D, E1, E2. auto.
Qed.

Lemma cutoff_raises now days e :
  (delta <- timedelta days ;; datetime_sub now delta) = Raise e ->
  e = OverflowError /\ ~ cutoff_exists now days.
Proof.
  intros H.
  assert (N : ~ cutoff_exists now days).
  { intros C. rewrite (cutoff_value _ _ C) in H. discriminate. }
  split; [| exact N].
  unfold timedelta, datetime_sub, bind in H.
  destruct (Z.abs days <=? max_delta_days); [| congruence].
  destruct (_ && _); congruence.
Qed.

(** A scrape that returns has computed its first day. *)
Lemma scrape_jobs_done_cutoff token now srv fuel limit days_back
    search_queries raw trace :
  scrape_jobs token now srv fuel limit days_back search_queries
  = Some (Done raw, trace) ->
  cutoff_exists now days_back.
Proof.
  unfold scrape_jobs.
  destruct token as [[| c tok] |]; try discriminate.
  destruct (bind (timedelta days_back) _) as [from_date |] eqn:C;
    [| discriminate].
  intros _. eapply cutoff_ok, C.
Qed.

Lemma renders_cons v l :
  renders (PList (v :: l)) = renders v && renders (PList l).
Proof. reflexivity. Qed.

Lemma filter_raw_loop_raises vp ms el jobs : forall filtered e,
  filter_raw_loop vp ms el jobs filtered = Raise e ->
  e = AttributeError \/
  (e = ValueError /\ renders (PList jobs) = false).
Proof.
  induction jobs as [| v jobs IH]; intros filtered e;
    cbn [filter_raw_loop]; [discriminate |].
  destruct v as [| b | z | f | t | l | d];
    try (intros [= <-]; now left).
  intros H. apply bind_raises in H. destruct H as [H | (r & _ & H)].
  - apply rejected_raises in H. destruct H as [-> | (-> & _ & R)]; [now left |].
    right. split; [reflexivity |].
    apply proposals_without_text in R. rewrite renders_cons. now rewrite R.
  - apply IH in H. destruct H as [-> | (-> & R)]; [now left |].
    right. split; [reflexivity |]. rewrite renders_cons, R.
    apply andb_false_r.
Qed.

Lemma filter_raw_failed now raw vp ms el days e :
  filter_raw now raw vp ms el days = Failed e ->
  e = Builtin TypeError \/ e = Builtin AttributeError \/ e = KeyError \/
  (e = Builtin ValueError /\ renders raw = false) \/
  (e = Builtin OverflowError /\ ~ cutoff_exists now days).
Proof.
  unfold filter_raw.
  destruct (bind (timedelta days) _) as [cutoff |] eqn:C; cbn [lift].
  2:{ intros [= <-]. apply cutoff_raises in C. destruct C as [-> N].
      auto 8. }
  destruct raw as [| b | z | f | t | l | d]; try (intros [= <-]; auto).
  - destruct (String.eqb t EmptyString); [discriminate |].
    intros [= <-]. auto.
  - destruct l as [| v l]; [discriminate |].
    destruct v; try (intros [= <-]; auto).
    destruct (filter_raw_loop _ _ _ _ _) as [out | e'] eqn:L;
      [discriminate |].
    cbn [lift]. intros [= <-]. apply filter_raw_loop_raises in L.
    destruct L as [-> | (-> & R)]; auto 6.
  - destruct d; [discriminate |]. intros [= <-]. auto.
Qed.

Lemma mappings_in job l : In job (mappings l) -> In (PDict job) l.
Proof.
  induction l as [| v l IH]; simpl; [trivial |].
  destruct v; simpl; auto.
  intros [-> | H]; auto.
Qed.

(** A record of a dataset that has a text has one. *)
Lemma records_render raw job :
  renders raw = true -> In job (records_of raw) ->
  renders (PDict job) = true.
Proof.
  destruct raw; simpl; try contradiction.
  intros R H. apply mappings_in in H. exact (renders_in _ _ R H).
Qed.

Lemma transform_all_raises filtered : forall e,
  transform_all filtered = Raise e ->
  e = AttributeError \/ e = TypeError \/
  (e = ValueError /\
   exists job, In job filtered /\ renders (PDict job) = false).
Proof.
  induction filtered as [| j filtered IH]; intros e; simpl; [discriminate |].
  intros H. apply bind_raises in H. destruct H as [H | (out & _ & H)].
  { destruct (transform_job_raise_cases _ _ H)
      as [-> | [[-> _] | (-> & _ & R)]]; auto.
    right. right. split; [reflexivity |]. exists j. split; [now left |].
    now apply id_without_text. }
  apply bind_raises in H. destruct H as [H | (outs & _ & H)];
    [| discriminate].
  apply IH in H. destruct H as [-> | [-> | (-> & job & Hin & R)]]; auto.
  right. right. split; [reflexivity |]. exists job. split; [now right | exact R].
Qed.

(** Outputs that have no text come from a record that has none. *)
Lemma outputs_without_text filtered outs :
  Forall2 (fun job out => transform_job job = Ok out) filtered outs ->
  forallb (fun out => forallb renders (fields out)) outs = false ->
  exists job, In job filtered /\ renders (PDict job) = false.
Proof.
  induction 1 as [| job out filtered outs T _ IH]; [discriminate |].
  cbn [forallb]. intros H.
  destruct (renders (PDict job)) eqn:R.
  - rewrite (transform_job_renders _ _ R T) in H. simpl in H.
    destruct (IH H) as (j & Hin & Rj). exists j. split; [now right | exact Rj].
  - exists job. split; [now left | exact R].
Qed.

(** X13. What gets past [main]: nothing that [scrape_jobs] raises does
    (the script exits with 1); after a scrape that returned, an exception
    nothing catches is a [TypeError], an [AttributeError], a [KeyError],
    the [ValueError] of a dataset that holds an integer of more than
    4300 digits, the [OverflowError] of the cutoff time of [filter_jobs]
    (only when the day has changed between the two readings of the
    clock), or what the file system raises when the output is saved, at
    [os.makedirs], at [open] or at a write. *)
Theorem main_uncaught_errors args token now_scrape now_filter srv disk fuel
    e trace :
  main args token now_scrape now_filter srv disk fuel
  = Some (Uncaught e, trace) ->
  exists raw_jobs,
    scrape_jobs token now_scrape srv fuel (PInt (arg_limit args))
      (arg_days args) (Some (arg_search_queries args))
    = Some (Done raw_jobs, trace) /\
    (e = Builtin TypeError \/ e = Builtin AttributeError \/ e = KeyError \/
     (e = Builtin ValueError /\ renders raw_jobs = false) \/
     (e = Builtin OverflowError /\
      ~ cutoff_exists now_filter (arg_days args) /\
      ordinal now_filter <> ordinal now_scrape) \/
     makedirs_reply disk (arg_output args) = Some e \/
     open_reply disk (arg_output args) = Some e \/
     exists output_data,
       write_reply disk (arg_output args) output_data = Some e).
Proof.
  unfold main.
  destruct (scrape_jobs _ _ _ _ _ _ _) as [[[raw | e0] t] |] eqn:Sc;
    try discriminate.
  pose proof (scrape_jobs_done_cutoff _ _ _ _ _ _ _ _ _ Sc) as C.
  destruct (negb (has_len raw)).
  { intros [= <- <-]. exists raw. split; [reflexivity | auto]. }
  destruct (filter_raw _ _ _ _ _ _) as [filtered | e1] eqn:F.
  - assert (Rf : forall job, In job filtered ->
                   renders (PDict job) = false -> renders raw = false).
    { intros job Hin R. destruct (renders raw) eqn:Rr; [| reflexivity].
      rewrite <- R. symmetry. apply (records_render raw); [exact Rr |].
      destruct (filter_raw_done _ _ _ _ _ _ _ F) as [-> _].
      unfold admitted_records in Hin. now apply filter_In in Hin. }
    destruct (transform_all filtered) as [outs | e2] eqn:T.
    + destruct (save disk (arg_output args) outs) as [[] | e3] eqn:Sv;
        [discriminate |].
      intros [= <- <-]. exists raw. split; [reflexivity |].
      apply save_failed in Sv.
      destruct Sv as [M | [O | [W | [-> V]]]]; [auto 8 | auto 8 | eauto 10 |].
      right. right. right. left. split; [reflexivity |].
      destruct (outputs_without_text _ _ (transform_all_ok _ _ T) V)
        as (job & Hin & R).
      now apply (Rf job).
    + intros [= <- <-]. exists raw. split; [reflexivity |].
      destruct (transform_all_raises _ _ T)
        as [-> | [-> | (-> & job & Hin & R)]]; auto.
      right. right. right. left. split; [reflexivity |].
      now apply (Rf job).
  - intros [= <- <-]. exists raw. split; [reflexivity |].
    destruct (filter_raw_failed _ _ _ _ _ _ _ F)
      as [-> | [-> | [-> | [[-> R] | [-> N]]]]]; auto 6.
    right. right. right. right. left.
    split; [reflexivity |]. split; [exact N |].
    intros E. apply N. unfold cutoff_exists in *. now rewrite E.
Qed.

Lemma main_uncaught_errors_witness :
  exists raw_jobs,
    scrape_jobs (Some "secret") clock good_server 10 (PInt 50) 1
      (Some "workflow automation")
    = Some (Done raw_jobs,
            [Post sample_input; Poll (PStr "run1"); Sleep 5;
             Poll (PStr "run1"); Sleep 5; Poll (PStr "run1");
             Fetch (PStr "ds1")]) /\
    (OSError = Builtin TypeError \/ OSError = Builtin AttributeError \/
     OSError = KeyError \/
     (OSError = Builtin ValueError /\ renders raw_jobs = false) \/
     (OSError = Builtin OverflowError /\
      ~ cutoff_exists clock 1 /\ ordinal clock <> ordinal clock) \/
     makedirs_reply full_disk "out/jobs.json" = Some OSError \/
     open_reply full_disk "out/jobs.json" = Some OSError \/
     exists output_data,
       write_reply full_disk "out/jobs.json" output_data = Some OSError).
Proof.
  apply (main_uncaught_errors sample_arguments (Some "secret") clock clock
           good_server full_disk 10 OSError).
  reflexivity.
Defined.

(** ** Each record is judged on its own *)






(** ** The search terms *)

Lemma contains_char_nil c : contains (String c EmptyString) EmptyString = false.
Proof. reflexivity. Qed.

Lemma split_pieces_free c s :
  Forall (fun p => contains (String c EmptyString) p = false) (split c s).
Proof.
  induction s as [| a s IH]; simpl.
  - constructor; [reflexivity | constructor].
  - destruct (Ascii.eqb a c) eqn:E.
    + constructor; [reflexivity | exact IH].
    + destruct (split c s) as [| h t].
      * constructor; [| constructor].
        rewrite contains_char_cons, E. reflexivity.
      * inversion IH as [| ? ? Hh Ht]; subst.
        constructor; [| exact Ht].
        rewrite contains_char_cons, E. exact Hh.
Qed.

Lemma lstrip_free c s :
  contains (String c EmptyString) s = false ->
  contains (String c EmptyString) (lstrip s) = false.
Proof.
  induction s as [| a s IH]; [trivial |].
  intros H. simpl lstrip. destruct (is_space a); [| exact H].
  rewrite contains_char_cons in H. apply orb_false_iff in H. now apply IH.
Qed.

Lemma rstrip_free c s :
  contains (String c EmptyString) s = false ->
  contains (String c EmptyString) (rstrip s) = false.
Proof.
  induction s as [| a s IH]; [trivial |].
  rewrite contains_char_cons. intros H. apply orb_false_iff in H.
  destruct H as [Ha Hs]. specialize (IH Hs). simpl rstrip.
  destruct (rstrip s) as [| b r].
  - destruct (is_space a); [reflexivity |].
    rewrite contains_char_cons, Ha. reflexivity.
  - rewrite contains_char_cons, Ha. exact IH.
Qed.

Lemma rstrip_head a s :
  is_space a = false -> rstrip (String a s) = String a (rstrip s).
Proof.
  intros H. simpl. destruct (rstrip s); [now rewrite H | reflexivity].
Qed.

Lemma rstrip_idempotent s : rstrip (rstrip s) = rstrip s.
Proof.
  induction s as [| a s IH]; [reflexivity |].
  simpl. destruct (rstrip s) as [| b r] eqn:E.
  - destruct (is_space a) eqn:Sp; [reflexivity |]. simpl. now rewrite Sp.
  - change (rstrip (String a (String b r))) with
      (match rstrip (String b r) with
       | EmptyString =>
           if is_space a then EmptyString else String a EmptyString
       | r' => String a r'
       end).
    rewrite IH. reflexivity.
Qed.

Lemma lstrip_head s :
  lstrip s = EmptyString \/
  exists a t, lstrip s = String a t /\ is_space a = false.
Proof.
  induction s as [| a s IH]; [now left |].
  simpl. destruct (is_space a) eqn:Sp; [exact IH |]. right. eauto.
Qed.

Lemma strip_idempotent s : strip (strip s) = strip s.
Proof.
  unfold strip. destruct (lstrip_head s) as [-> | (a & t & -> & Sp)];
    [reflexivity |].
  rewrite (rstrip_head _ _ Sp). simpl lstrip. rewrite Sp.
  rewrite <- (rstrip_head _ _ Sp). apply rstrip_idempotent.
Qed.

(** X15. The search terms [scrape_jobs] sends: never an empty list, and
    each term trimmed and free of commas; without [search_queries], or
    with an empty one, the single term [workflow automation]. *)
Theorem queries_of_clean search_queries :
  queries_of search_queries <> [] /\
  Forall (fun q => strip q = q /\ contains "," q = false)
    (queries_of search_queries) /\
  (search_queries = None \/ search_queries = Some EmptyString ->
   queries_of search_queries = ["workflow automation"]).
Proof.
  assert (D : Forall (fun q => strip q = q /\ contains "," q = false)
                ["workflow automation"]).
  { constructor; [split; reflexivity | constructor]. }
  split; [| split].
  - destruct search_queries as [s |]; simpl; [| discriminate].
    destruct (String.eqb s EmptyString); [discriminate |].
    pose proof (split_not_nil "," s) as N.
    destruct (split "," s); [congruence | discriminate].
  - destruct search_queries as [s |]; simpl; [| exact D].
    destruct (String.eqb s EmptyString); [exact D |].
    apply Forall_map. eapply Forall_impl; [| apply split_pieces_free].
    intros p Hp. split; [apply strip_idempotent |].
    unfold strip. now apply rstrip_free, lstrip_free.
  - intros [-> | ->]; reflexivity.
Qed.

(* ================================================================== *)
(** * Properties of the proposal generator *)
(* ================================================================== *)

Import Proposals Tally.

(** ** [create_google_doc] *)

Lemma asks_app a b : asks (a ++ b) = (asks a + asks b)%nat.
Proof. unfold asks. now rewrite filter_app, length_app. Qed.

Lemma creates_app a b : creates (a ++ b) = (creates a + creates b)%nat.
Proof. unfold creates. now rewrite filter_app, length_app. Qed.

Lemma appends_app a b : appends (a ++ b) = (appends a + appends b)%nat.
Proof. unfold appends. now rewrite filter_app, length_app. Qed.

Ltac tally :=
  repeat split; unfold creates, updates, asks, appends; simpl; lia.

(** One step of the loop. *)
Lemma create_loop_step service_docs title content attempt attempts backoff :
  create_loop service_docs title content (attempt :: attempts) backoff =
  match create_reply service_docs title attempt with
  | Raises HttpError =>
      let '(r, trace) :=
        create_loop service_docs title content attempts (backoff * 2) in
      (r, CreateDoc title :: Pause backoff :: trace)
  | Raises e => (Failed e, [CreateDoc title])
  | Returns doc =>
      match get_attr doc "documentId" PNone with
      | Raise e => (Failed (Builtin e), [CreateDoc title])
      | Ok doc_id =>
          match update_reply service_docs doc_id content attempt with
          | Raises HttpError =>
              let '(r, trace) :=
                create_loop service_docs title content attempts
                  (backoff * 2) in
              (r, CreateDoc title :: UpdateDoc doc_id content
                    :: Pause backoff :: trace)
          | Raises e =>
              (Failed e, [CreateDoc title; UpdateDoc doc_id content])
          | Returns _ =>
              (Done (PStr (doc_url_of doc_id)),
               [CreateDoc title; UpdateDoc doc_id content; Pause 1000])
          end
      end
  end.
Proof. reflexivity. Qed.

(** What the loop does, whatever the service answers: at most one
    create for each try and never an update without its create, no
    prompt and no row; it raises no [HttpError]; and what it returns is
    [None] or the URL of a document. *)
Lemma create_loop_bounds service_docs title content attempts :
  forall backoff r trace,
    create_loop service_docs title content attempts backoff = (r, trace) ->
    (creates trace <= List.length attempts)%nat /\
    (attempts <> [] -> (1 <= creates trace)%nat) /\
    (updates trace <= creates trace)%nat /\
    asks trace = 0%nat /\ appends trace = 0%nat /\
    r <> Failed HttpError /\
    (forall url, r = Done url ->
       url = PNone \/ exists doc_id, url = PStr (doc_url_of doc_id)).
Proof.
  induction attempts as [| attempt attempts IH]; intros backoff r trace.
  { simpl. intros [= <- <-].
    split; [reflexivity |]. split; [congruence |]. split; [reflexivity |].
    split; [reflexivity |]. split; [reflexivity |]. split; [discriminate |].
    intros url [= <-]. now left. }
  rewrite create_loop_step.
  assert (Again : forall done : list effect,
            (creates done = 1 /\ updates done <= 1 /\ asks done = 0
             /\ appends done = 0)%nat ->
            (let '(r, trace) :=
               create_loop service_docs title content attempts (backoff * 2)
             in (r, (done ++ trace)%list)) = (r, trace) ->
            (creates trace <= List.length (attempt :: attempts))%nat /\
            (attempt :: attempts <> [] -> (1 <= creates trace)%nat) /\
            (updates trace <= creates trace)%nat /\
            asks trace = 0%nat /\ appends trace = 0%nat /\
            r <> Failed HttpError /\
            (forall url, r = Done url ->
               url = PNone \/ exists doc_id, url = PStr (doc_url_of doc_id))).
  { intros done (C & U & A & P).
    destruct (create_loop service_docs title content attempts (backoff * 2))
      as [r' tr] eqn:E.
    intros [= <- <-].
    destruct (IH _ _ _ E) as (I1 & _ & I3 & I4 & I5 & I6 & I7).
    unfold updates in *. rewrite creates_app, asks_app, appends_app.
    rewrite filter_app, length_app. simpl List.length.
    repeat split; try lia; assumption. }
  assert (Stop : forall (r0 : outcome pyval) (done : list effect),
            (creates done = 1 /\ updates done <= 1 /\ asks done = 0
             /\ appends done = 0)%nat ->
            r0 <> Failed HttpError ->
            (forall url, r0 = Done url ->
               url = PNone \/ exists doc_id, url = PStr (doc_url_of doc_id)) ->
            (r0, done) = (r, trace) ->
            (creates trace <= List.length (attempt :: attempts))%nat /\
            (attempt :: attempts <> [] -> (1 <= creates trace)%nat) /\
            (updates trace <= creates trace)%nat /\
            asks trace = 0%nat /\ appends trace = 0%nat /\
            r <> Failed HttpError /\
            (forall url, r = Done url ->
               url = PNone \/ exists doc_id, url = PStr (doc_url_of doc_id))).
  { intros r0 done (C & U & A & P) N D [= <- <-]. simpl List.length.
    repeat split; try lia; assumption. }
  destruct (create_reply service_docs title attempt) as [doc | e].
  - destruct (get_attr doc "documentId" PNone) as [doc_id | e].
    + destruct (update_reply service_docs doc_id content attempt) as [b | e].
      * apply Stop; [tally | discriminate |].
        intros url [= <-]. right. eauto.
      * destruct e;
          try (apply Stop; [tally | discriminate | discriminate]).
        apply (Again [CreateDoc title; UpdateDoc doc_id content;
                      Pause backoff]). tally.
    + apply Stop; [tally | discriminate | discriminate].
  - destruct e; try (apply Stop; [tally | discriminate | discriminate]).
    apply (Again [CreateDoc title; Pause backoff]). tally.
Qed.

Lemma pow2_succ (n : nat) : 2 ^ Z.of_nat (S n) = 2 * 2 ^ Z.of_nat n.
Proof. rewrite Nat2Z.inj_succ. apply Z.pow_succ_r. lia. Qed.

(** Tries that all hit an [HttpError] use up the loop. *)
Lemma create_loop_refused service_docs title content : forall n a backoff,
  (forall i, (a <= i < a + n)%nat ->
     refused service_docs title content i = true) ->
  exists trace,
    create_loop service_docs title content (seq a n) backoff
    = (Done PNone, trace) /\
    creates trace = n /\
    paused trace = backoff * (2 ^ Z.of_nat n - 1).
Proof.
  induction n as [| n IH]; intros a backoff H.
  { exists []. simpl. repeat split. lia. }
  destruct (IH (S a) (backoff * 2)) as (tr & E & C & P).
  { intros i Hi. apply H. lia. }
  pose proof (H a ltac:(lia)) as R. unfold refused in R.
  change (seq a (S n)) with (a :: seq (S a) n). rewrite create_loop_step.
  destruct (create_reply service_docs title a) as [doc | e].
  - destruct (get_attr doc "documentId" PNone) as [doc_id | e];
      [| discriminate].
    destruct (update_reply service_docs doc_id content a) as [b | e];
      [discriminate |].
    destruct e; try discriminate. rewrite E.
    eexists. split; [reflexivity |]. split.
    + unfold creates in *. simpl. now rewrite C.
    + change (paused (CreateDoc title :: UpdateDoc doc_id content
                        :: Pause backoff :: tr))
        with (backoff + paused tr).
      rewrite P, pow2_succ. ring.
  - destruct e; try discriminate. rewrite E.
    eexists. split; [reflexivity |]. split.
    + unfold creates in *. simpl. now rewrite C.
    + change (paused (CreateDoc title :: Pause backoff :: tr))
        with (backoff + paused tr).
      rewrite P, pow2_succ. ring.
Qed.

(** The loop returns [None] only when every try has hit an
    [HttpError]. *)
Lemma create_loop_none service_docs title content : forall n a backoff trace,
  create_loop service_docs title content (seq a n) backoff
  = (Done PNone, trace) ->
  forall i, (a <= i < a + n)%nat ->
    refused service_docs title content i = true.
Proof.
  induction n as [| n IH]; intros a backoff trace H i Hi; [lia |].
  change (seq a (S n)) with (a :: seq (S a) n) in H.
  rewrite create_loop_step in H.
  assert (Rest : forall done,
            (let '(r, trace) :=
               create_loop service_docs title content (seq (S a) n)
                 (backoff * 2)
             in (r, (done ++ trace)%list)) = (Done PNone, trace) ->
            refused service_docs title content a = true ->
            refused service_docs title content i = true).
  { intros done E Ra.
    destruct (create_loop service_docs title content (seq (S a) n)
                (backoff * 2)) as [r tr] eqn:L.
    injection E as -> _.
    destruct (Nat.eq_dec i a) as [-> | Hne]; [exact Ra |].
    eapply IH; [exact L | lia]. }
  unfold refused in Rest.
  destruct (create_reply service_docs title a) as [doc | e].
  - destruct (get_attr doc "documentId" PNone) as [doc_id | e];
      [| discriminate].
    destruct (update_reply service_docs doc_id content a) as [b | e];
      [discriminate |].
    destruct e; try discriminate.
    apply (Rest [CreateDoc title; UpdateDoc doc_id content; Pause backoff]);
      trivial.
  - destruct e; try discriminate.
    apply (Rest [CreateDoc title; Pause backoff]); trivial.
Qed.

(** The loop returns the URL of the document of the first try that goes
    through, when the tries before it have hit an [HttpError]. *)
Lemma create_loop_filled service_docs title content doc_id :
  forall k n a backoff,
    (k < n)%nat ->
    (forall i, (a <= i < a + k)%nat ->
       refused service_docs title content i = true) ->
    filled service_docs title content (a + k) = Some doc_id ->
    exists trace,
      create_loop service_docs title content (seq a n) backoff
      = (Done (PStr (doc_url_of doc_id)), trace) /\
      creates trace = S k /\
      paused trace = backoff * (2 ^ Z.of_nat k - 1) + 1000.
Proof.
  induction k as [| k IH]; intros n a backoff Hk Hbefore Hat.
  - destruct n as [| n]; [lia |].
    change (seq a (S n)) with (a :: seq (S a) n). rewrite create_loop_step.
    rewrite Nat.add_0_r in Hat. unfold filled in Hat.
    destruct (create_reply service_docs title a) as [doc | e];
      [| discriminate].
    destruct (get_attr doc "documentId" PNone) as [d | e]; [| discriminate].
    destruct (update_reply service_docs d content a) as [b | e];
      [| discriminate].
    injection Hat as ->. eexists. split; [reflexivity |].
    split; [reflexivity |]. simpl. lia.
  - destruct n as [| n]; [lia |].
    assert (Hk' : (k < n)%nat) by lia.
    assert (Hbefore' : forall i, (S a <= i < S a + k)%nat ->
                         refused service_docs title content i = true)
      by (intros i Hi; apply Hbefore; lia).
    assert (Hat' : filled service_docs title content (S a + k) = Some doc_id)
      by (now replace (S a + k)%nat with (a + S k)%nat by lia).
    destruct (IH n (S a) (backoff * 2) Hk' Hbefore' Hat') as (tr & E & C & P).
    pose proof (Hbefore a ltac:(lia)) as R. unfold refused in R.
    change (seq a (S n)) with (a :: seq (S a) n). rewrite create_loop_step.
    destruct (create_reply service_docs title a) as [doc | e].
    + destruct (get_attr doc "documentId" PNone) as [d | e];
        [| discriminate].
      destruct (update_reply service_docs d content a) as [b | e];
        [discriminate |].
      destruct e; try discriminate. rewrite E.
      eexists. split; [reflexivity |]. split.
      * unfold creates in *. simpl. now rewrite C.
      * change (paused (CreateDoc title :: UpdateDoc d content
                          :: Pause backoff :: tr))
          with (backoff + paused tr).
        rewrite P, pow2_succ. ring.
    + destruct e; try discriminate. rewrite E.
      eexists. split; [reflexivity |]. split.
      * unfold creates in *. simpl. now rewrite C.
      * change (paused (CreateDoc title :: Pause backoff :: tr))
          with (backoff + paused tr).
        rewrite P, pow2_succ. ring.
Qed.

(** X16. [create_google_doc] gives up without raising: it returns
    [None] exactly when each of its four tries hits an [HttpError], at
    the create or at the update, and it has then called create four
    times and paused 1.5, 3, 6 and 12 seconds, the last pause coming
    after the last try. *)
Theorem create_google_doc_gives_up service_docs title content :
  ((forall attempt, (attempt < 4)%nat ->
      refused service_docs title content attempt = true) ->
   exists trace,
     create_google_doc service_docs title content = (Done PNone, trace) /\
     creates trace = 4%nat /\ paused trace = 22500) /\
  (forall trace,
     create_google_doc service_docs title content = (Done PNone, trace) ->
     forall attempt, (attempt < 4)%nat ->
       refused service_docs title content attempt = true).
Proof.
  split.
  - intros H.
    destruct (create_loop_refused service_docs title content 4 0 1500)
      as (trace & E & C & P).
    { intros i Hi. apply H. lia. }
    exists trace. split; [exact E |]. split; [exact C |].
    rewrite P. reflexivity.
  - intros trace E attempt Ha.
    eapply create_loop_none; [exact E | lia].
Qed.

Lemma create_google_doc_gives_up_witness :
  exists trace,
    create_google_doc busy_docs "Proposal" "text" = (Done PNone, trace) /\
    creates trace = 4%nat /\ paused trace = 22500.
Proof.
  apply (proj1 (create_google_doc_gives_up busy_docs "Proposal" "text")).
  intros attempt Ha. reflexivity.
Defined.

(** X17. [create_google_doc] returns the URL of the document made by
    the first try that goes through, when the tries before it have hit
    an [HttpError]: after k failed tries it has called create k+1 times
    (a new document for each try) and paused 1.5 seconds doubled at each
    failure, then 1 second. *)
Theorem create_google_doc_returns_first_filled service_docs title content
    k doc_id :
  (k < 4)%nat ->
  (forall i, (i < k)%nat -> refused service_docs title content i = true) ->
  filled service_docs title content k = Some doc_id ->
  exists trace,
    create_google_doc service_docs title content
    = (Done (PStr (doc_url_of doc_id)), trace) /\
    creates trace = S k /\
    paused trace = 1500 * (2 ^ Z.of_nat k - 1) + 1000.
Proof.
  intros Hk Hbefore Hat.
  apply (create_loop_filled service_docs title content doc_id k 4 0 1500);
    trivial.
  intros i Hi. apply Hbefore. lia.
Qed.

Lemma create_google_doc_returns_first_filled_witness :
  exists trace,
    create_google_doc flaky_docs "Proposal" "text"
    = (Done (PStr "https://docs.google.com/document/d/doc1/edit"), trace) /\
    creates trace = 2%nat /\ paused trace = 2500.
Proof.
  apply (create_google_doc_returns_first_filled flaky_docs "Proposal" "text"
           1 (PStr "doc1")).
  - lia.
  - intros [| i] Hi; [reflexivity | lia].
  - reflexivity.
Defined.

(** X18. Whatever the Docs service answers, [create_google_doc] calls
    create between one and four times and never updates without a
    create; an [HttpError] never leaves it; and what it returns is
    [None] or the edit URL of a document. *)
Theorem create_google_doc_bounded service_docs title content r trace :
  create_google_doc service_docs title content = (r, trace) ->
  (1 <= creates trace <= 4)%nat /\
  (updates trace <= creates trace)%nat /\
  r <> Failed HttpError /\
  (forall url, r = Done url ->
     url = PNone \/ exists doc_id, url = PStr (doc_url_of doc_id)).
Proof.
  intros H. apply create_loop_bounds in H.
  destruct H as (C & C1 & U & _ & _ & N & D).
  split; [| auto]. split; [apply C1; discriminate | exact C].
Qed.

Lemma create_google_doc_bounded_witness :
  (1 <= creates [CreateDoc "Proposal"] <= 4)%nat /\
  (updates [CreateDoc "Proposal"] <= creates [CreateDoc "Proposal"])%nat /\
  @Failed pyval RequestError <> Failed HttpError /\
  (forall url, @Failed pyval RequestError = Done url ->
     url = PNone \/ exists doc_id, url = PStr (doc_url_of doc_id)).
Proof.
  apply (create_google_doc_bounded offline_docs "Proposal" "text").
  reflexivity.
Defined.

(** ** [process_job] *)

Lemma call_llm_trace env p :
  snd (call_llm env p) = [] \/ snd (call_llm env p) = [Ask p].
Proof.
  unfold call_llm. destruct (api_key env) as [[| c k] |]; auto.
  destruct (llm env p); auto.
Qed.

Lemma call_llm_counts env p :
  creates (snd (call_llm env p)) = 0%nat /\
  appends (snd (call_llm env p)) = 0%nat.
Proof. destruct (call_llm_trace env p) as [-> | ->]; split; reflexivity. Qed.

(** What [process_job] does once the title has been sliced. *)
Lemma process_job_cases env now_dt job sheet_id :
  sliceable (get job "title") = true ->
  exists created doc_trace,
    create_google_doc (docs env) (doc_title_of job) (combined_text_of env job)
    = (created, doc_trace) /\
    let before :=
      (snd (generate_cover_letter env job (load_bio env))
       ++ snd (generate_proposal_body env job (load_bio env))
       ++ doc_trace)%list in
    ((exists e, budget_str (get job "budget") = Raise e \/
                skills_cell (get job "skills") = Raise e) /\
     process_job env now_dt job sheet_id
     = (Failure (get job "job_id"), before))
    \/
    (exists budget_cell skills,
       budget_str (get job "budget") = Ok budget_cell /\
       skills_cell (get job "skills") = Ok skills /\
       let row :=
         row_of job budget_cell (age_str env now_dt (get job "posted_date"))
           skills (cover_letter_of env job) (doc_url_from created) in
       (live sheet_id = false /\
        process_job env now_dt job sheet_id
        = (Success (get job "job_id") (doc_url_from created) row, before))
       \/
       (live sheet_id = true /\
        ((exists e, append_reply env sheet_id row = Raises e /\
                    e <> HttpError) /\
         process_job env now_dt job sheet_id
         = (Failure (get job "job_id"),
            (before ++ [AppendRow sheet_id row])%list)
         \/
         (append_reply env sheet_id row = Raises HttpError \/
          exists body, append_reply env sheet_id row = Returns body) /\
         process_job env now_dt job sheet_id
         = (Success (get job "job_id") (doc_url_from created) row,
            (before ++ [AppendRow sheet_id row])%list)))).
Proof.
  intros Hs. unfold process_job. rewrite Hs. cbn [negb].
  unfold doc_title_of, combined_text_of, cover_letter_of, proposal_of, live.
  destruct (generate_cover_letter env job (load_bio env)) as [cl a1].
  destruct (generate_proposal_body env job (load_bio env)) as [prop a2].
  cbn [fst snd].
  destruct (create_google_doc _ _ _) as [created doc_trace].
  exists created, doc_trace. split; [reflexivity |]. cbv zeta.
  destruct (budget_str (get job "budget")) as [budget_cell | e] eqn:B.
  2:{ left. split; [eauto | reflexivity]. }
  destruct (skills_cell (get job "skills")) as [skills | e] eqn:K.
  2:{ left. split; [eauto | reflexivity]. }
  right. exists budget_cell, skills.
  split; [reflexivity |]. split; [reflexivity |].
  fold (doc_url_from created).
  destruct (truthy sheet_id && negb (eq_str sheet_id "DRY_RUN")).
  2:{ left. split; reflexivity. }
  right. split; [reflexivity |]. unfold update_sheet.
  destruct (append_reply env sheet_id _) as [body | e] eqn:A.
  { right. rewrite <- !app_assoc. split; [eauto | reflexivity]. }
  destruct e;
    try (left; rewrite <- !app_assoc;
         split; [eexists; split; [reflexivity | discriminate] | reflexivity]).
  right. rewrite <- !app_assoc. split; [auto | reflexivity].
Qed.



Lemma success_sliceable env now_dt job sheet_id id url row trace :
  process_job env now_dt job sheet_id = (Success id url row, trace) ->
  sliceable (get job "title") = true.
Proof.
  destruct (sliceable (get job "title")) eqn:Hs; [reflexivity |].
  unfold process_job. rewrite Hs. discriminate.
Qed.

(** A success, with the document and the cells it comes from. *)
Lemma process_job_success env now_dt job sheet_id id url row trace :
  process_job env now_dt job sheet_id = (Success id url row, trace) ->
  exists created doc_trace budget_cell skills,
    create_google_doc (docs env) (doc_title_of job) (combined_text_of env job)
    = (created, doc_trace) /\
    id = get job "job_id" /\ url = doc_url_from created /\
    row = row_of job budget_cell (age_str env now_dt (get job "posted_date"))
            skills (cover_letter_of env job) url /\
    (trace = (snd (generate_cover_letter env job (load_bio env))
              ++ snd (generate_proposal_body env job (load_bio env))
              ++ doc_trace)%list /\ live sheet_id = false
     \/
     trace = ((snd (generate_cover_letter env job (load_bio env))
               ++ snd (generate_proposal_body env job (load_bio env))
               ++ doc_trace) ++ [AppendRow sheet_id row])%list /\
     live sheet_id = true /\
     (append_reply env sheet_id row = Raises HttpError \/
      exists body, append_reply env sheet_id row = Returns body)).
Proof.
  intros H. pose proof (success_sliceable _ _ _ _ _ _ _ _ H) as Hs.
  destruct (process_job_cases env now_dt job sheet_id Hs)
    as (created & doc_trace & D & C).
  cbv zeta in C. exists created, doc_trace.
  destruct C as [[_ E] | (b & k & _ & _ & C)]; [congruence |].
  exists b, k. split; [exact D |].
  destruct C as [[L E] | [L [[_ E] | [A E]]]]; rewrite E in H;
    try discriminate; injection H as <- <- <- <-.
  - repeat split. left. split; [reflexivity | exact L].
  - repeat split. right. split; [reflexivity |]. split; assumption.
Qed.

(** X20. The row of a success has the seventeen cells of the header
    row that [create_sheet] writes: the cover letter, the text of the
    document address and [Ready] in the cells 13 to 15, three cells that
    are always empty, six more that are always texts, and five that
    hold whatever the job holds. *)
Theorem process_job_row env now_dt job sheet_id id url row trace :
  process_job env now_dt job sheet_id = (Success id url row, trace) ->
  id = get job "job_id" /\
  List.length row = List.length headers /\
  exists budget_cell skills spent hires proposals age,
    row = [por (get job "title") (PStr EmptyString);
           por (get job "job_url") (PStr EmptyString);
           PStr budget_cell;
           por (get job "experience_level") (PStr EmptyString);
           PStr skills; PStr EmptyString;
           por (get job "client_country") (PStr EmptyString);
           PStr spent; PStr hires; PStr EmptyString; PStr proposals;
           PStr age;
           por (get job "apply_url") (PStr EmptyString);
           PStr (cover_letter_of env job); PStr (py_str url);
           PStr "Ready"; PStr EmptyString].
Proof.
  intros H. apply process_job_success in H.
  destruct H as (created & doc_trace & b & k & _ & -> & _ & -> & _).
  split; [reflexivity |]. split; [reflexivity |].
  unfold row_of. repeat eexists.
Qed.

Lemma process_job_row_witness :
  PStr "~01" = get titled_job "job_id" /\
  List.length
    [PStr "Automate invoices"; PStr EmptyString; PStr "$500";
     PStr EmptyString; PStr "n8n, Zapier"; PStr EmptyString;
     PStr EmptyString; PStr EmptyString; PStr EmptyString;
     PStr EmptyString; PStr EmptyString; PStr "23h ago";
     PStr EmptyString; PStr "Hello";
     PStr "https://docs.google.com/document/d/doc1/edit";
     PStr "Ready"; PStr EmptyString]
  = List.length headers.
Proof.
  destruct (process_job_row (studio quiet_docs) clock titled_job
              (PStr "DRY_RUN") (PStr "~01")
              (PStr "https://docs.google.com/document/d/doc1/edit")
              [PStr "Automate invoices"; PStr EmptyString; PStr "$500";
               PStr EmptyString; PStr "n8n, Zapier"; PStr EmptyString;
               PStr EmptyString; PStr EmptyString; PStr EmptyString;
               PStr EmptyString; PStr EmptyString; PStr "23h ago";
               PStr EmptyString; PStr "Hello";
               PStr "https://docs.google.com/document/d/doc1/edit";
               PStr "Ready"; PStr EmptyString]
              (snd (process_job (studio quiet_docs) clock titled_job
                      (PStr "DRY_RUN"))))
    as (I & L & _).
  - vm_compute. reflexivity.
  - split; [exact I | exact L].
Defined.

(** X21. The document address of a success tells how
    [create_google_doc] ended: it is [FALLBACK_TEXT_ONLY] exactly when
    the call raised, and [None] exactly when the four tries all hit an
    [HttpError]; in the second case the row shows the text [None]. *)
Theorem process_job_doc_url env now_dt job sheet_id id url row trace :
  process_job env now_dt job sheet_id = (Success id url row, trace) ->
  (url = PStr "FALLBACK_TEXT_ONLY" <->
   exists e, fst (create_google_doc (docs env) (doc_title_of job)
                    (combined_text_of env job)) = Failed e) /\
  (url = PNone <->
   forall attempt, (attempt < 4)%nat ->
     refused (docs env) (doc_title_of job) (combined_text_of env job) attempt
     = true) /\
  (url = PNone -> nth_error row 14 = Some (PStr "None")).
Proof.
  intros H. apply process_job_success in H.
  destruct H as (created & doc_trace & b & k & D & _ & -> & -> & _).
  rewrite D. cbn [fst]. unfold create_google_doc in D.
  pose proof (create_loop_bounds _ _ _ _ _ _ _ D) as (_ & _ & _ & _ & _ & _ & U).
  split; [| split].
  - split.
    + destruct created as [u | e]; [| eauto]. simpl. intros ->.
      destruct (U _ eq_refl) as [E | (doc_id & E)]; [discriminate |].
      unfold doc_url_of in E. simpl in E. discriminate.
    + intros (e & ->). reflexivity.
  - split.
    + destruct created as [u | e]; [| discriminate]. simpl. intros ->.
      intros attempt Ha. eapply create_loop_none; [exact D | lia].
    + intros R.
      destruct (create_loop_refused (docs env) (doc_title_of job)
                  (combined_text_of env job) 4 0 1500) as (t & E & _).
      { intros i Hi. apply R. lia. }
      rewrite E in D. now injection D as <- _.
  - destruct created as [u | e]; [| discriminate]. simpl. intros ->.
    reflexivity.
Qed.

Lemma process_job_doc_url_witness :
  PNone = PNone /\
  nth_error
    (row_of titled_job "$500" "23h ago" "n8n, Zapier" "Hello" PNone) 14
  = Some (PStr "None").
Proof.
  destruct (process_job_doc_url (studio busy_docs) clock titled_job
              (PStr "DRY_RUN") (PStr "~01") PNone
              (row_of titled_job "$500" "23h ago" "n8n, Zapier" "Hello" PNone)
              (snd (process_job (studio busy_docs) clock titled_job
                      (PStr "DRY_RUN"))))
    as (_ & [_ N] & R).
  - vm_compute. reflexivity.
  - split; [| apply R]; apply N; intros attempt Ha; reflexivity.
Defined.

(** X22. The sheet gets at most one row for a job. With no sheet, or
    the sheet [DRY_RUN], nothing is appended. Otherwise a success has
    appended its row last of all, and it is a success even when the
    append raised an [HttpError]: the error is dropped and the row is
    not in the sheet. *)
Theorem process_job_appends env now_dt job sheet_id r trace :
  process_job env now_dt job sheet_id = (r, trace) ->
  (appends trace <= 1)%nat /\
  (live sheet_id = false -> appends trace = 0%nat) /\
  (forall id url row,
     r = Success id url row -> live sheet_id = true ->
     (exists before,
        trace = (before ++ [AppendRow sheet_id row])%list /\
        appends before = 0%nat) /\
     (append_reply env sheet_id row = Raises HttpError \/
      exists body, append_reply env sheet_id row = Returns body)).
Proof.
  intros H.
  destruct (sliceable (get job "title")) eqn:Hs.
  2:{ unfold process_job in H. rewrite Hs in H. injection H as <- <-.
      split; [cbv; lia |]. split; [reflexivity | discriminate]. }
  destruct (process_job_cases env now_dt job sheet_id Hs)
    as (created & doc_trace & D & C).
  unfold create_google_doc in D. apply create_loop_bounds in D.
  destruct D as (_ & _ & _ & _ & A0 & _).
  destruct (call_llm_counts env
              (mk_prompt CoverLetter (py_str (get job "title"))
                 (py_str (get job "description")) (load_bio env)))
    as [_ A1].
  destruct (call_llm_counts env
              (mk_prompt ProposalBody (py_str (get job "title"))
                 (py_str (get job "description")) (load_bio env)))
    as [_ A2].
  fold (generate_cover_letter env job (load_bio env)) in A1.
  fold (generate_proposal_body env job (load_bio env)) in A2.
  cbv zeta in C.
  set (before := (snd (generate_cover_letter env job (load_bio env))
                  ++ snd (generate_proposal_body env job (load_bio env))
                  ++ doc_trace)%list) in *.
  assert (B0 : appends before = 0%nat).
  { unfold before. rewrite !appends_app. lia. }
  destruct C as [[_ E] | (b & k & _ & _ & [[L E] | [L [[_ E] | [A E]]]])];
    rewrite E in H; injection H as <- <-.
  - split; [lia |]. split; [trivial | discriminate].
  - split; [lia |]. split; [trivial |]. intros id url row _ L'. congruence.
  - rewrite appends_app, B0.
    split; [cbv; lia |]. split; [congruence | discriminate].
  - rewrite appends_app, B0.
    split; [cbv; lia |]. split; [congruence |].
    intros id url row [= <- <- <-] _. split; [eauto | exact A].
Qed.

Lemma process_job_appends_witness :
  (exists before,
     snd (process_job (studio quiet_docs) clock titled_job (PStr "sheet1"))
     = (before
        ++ [AppendRow (PStr "sheet1")
              (row_of titled_job "$500" "23h ago" "n8n, Zapier" "Hello"
                 (PStr "https://docs.google.com/document/d/doc1/edit"))])%list
     /\ appends before = 0%nat) /\
  (append_reply (studio quiet_docs) (PStr "sheet1")
     (row_of titled_job "$500" "23h ago" "n8n, Zapier" "Hello"
        (PStr "https://docs.google.com/document/d/doc1/edit"))
   = Raises HttpError \/
   exists body,
     append_reply (studio quiet_docs) (PStr "sheet1")
       (row_of titled_job "$500" "23h ago" "n8n, Zapier" "Hello"
          (PStr "https://docs.google.com/document/d/doc1/edit"))
     = Returns body).
Proof.
  destruct (process_job_appends (studio quiet_docs) clock titled_job
              (PStr "sheet1")
              (Success (PStr "~01")
                 (PStr "https://docs.google.com/document/d/doc1/edit")
                 (row_of titled_job "$500" "23h ago" "n8n, Zapier" "Hello"
                    (PStr "https://docs.google.com/document/d/doc1/edit")))
              (snd (process_job (studio quiet_docs) clock titled_job
                      (PStr "sheet1"))))
    as (_ & _ & S).
  - vm_compute. reflexivity.
  - apply (S _ _ _ eq_refl). reflexivity.
Defined.

(** X23. [process_job] reads thirteen keys of a job and no other: two
    jobs that agree on them are processed alike. In particular the
    [hourly_rate] and the [job_type] that [transform_job] writes are
    never read. *)
Theorem process_job_reads_keys env now_dt job job' sheet_id :
  (forall k, In k keys_read -> get job k = get job' k) ->
  process_job env now_dt job sheet_id = process_job env now_dt job' sheet_id.
Proof.
  intros H.
  assert (K1 : get job "title" = get job' "title")
    by (apply H; simpl; tauto).
  assert (K2 : get job "description" = get job' "description")
    by (apply H; simpl; tauto).
  assert (K3 : get job "job_id" = get job' "job_id")
    by (apply H; simpl; tauto).
  assert (K4 : get job "budget" = get job' "budget")
    by (apply H; simpl; tauto).
  assert (K5 : get job "posted_date" = get job' "posted_date")
    by (apply H; simpl; tauto).
  assert (K6 : get job "skills" = get job' "skills")
    by (apply H; simpl; tauto).
  assert (K7 : get job "job_url" = get job' "job_url")
    by (apply H; simpl; tauto).
  assert (K8 : get job "experience_level" = get job' "experience_level")
    by (apply H; simpl; tauto).
  assert (K9 : get job "client_country" = get job' "client_country")
    by (apply H; simpl; tauto).
  assert (K10 : get job "client_total_spent" = get job' "client_total_spent")
    by (apply H; simpl; tauto).
  assert (K11 : get job "client_hires" = get job' "client_hires")
    by (apply H; simpl; tauto).
  assert (K12 : get job "proposal_count" = get job' "proposal_count")
    by (apply H; simpl; tauto).
  assert (K13 : get job "apply_url" = get job' "apply_url")
    by (apply H; simpl; tauto).
  unfold process_job, generate_cover_letter, generate_proposal_body, row_of.
  rewrite K1, K2, K3, K4, K5, K6, K7, K8, K9, K10, K11, K12, K13.
  reflexivity.
Qed.

Lemma process_job_reads_keys_witness :
  process_job (studio quiet_docs) clock titled_job (PStr "sheet1")
  = process_job (studio quiet_docs) clock titled_job_other_rate
      (PStr "sheet1").
Proof.
  apply (process_job_reads_keys (studio quiet_docs) clock titled_job
           titled_job_other_rate (PStr "sheet1")).
  intros k Hk. simpl in Hk.
  repeat (destruct Hk as [<- | Hk]; [reflexivity |]). destruct Hk.
Defined.

(** ** The age cell *)

(** X24. A posting date that lies in the future is never shown in days:
    its age is read off the hours and minutes of a negative difference,
    so that a job posted up to one hour from now is shown as posted 23
    hours ago. *)
Theorem age_str_of_future env now_dt s posted_dt :
  s <> EmptyString ->
  fromisoformat env (replace "Z" "+00:00" s) = Aware posted_dt ->
  instant now_dt < instant posted_dt ->
  (exists n, 0 <= n <= 59 /\
     (age_str env now_dt (PStr s) = of_Z n ++ "h ago" \/
      age_str env now_dt (PStr s) = of_Z n ++ "m ago")) /\
  (instant posted_dt <= instant now_dt + 3600000000 ->
   age_str env now_dt (PStr s) = "23h ago").
Proof.
  intros Hs Hp Hlt.
  assert (T : truthy (PStr s) = true) by (now apply truthy_str).
  unfold age_str. rewrite T, Hp. unfold age_of.
  set (diff := instant now_dt - instant posted_dt).
  assert (Hd : diff < 0) by (unfold diff; lia).
  assert (D : diff / 86400000000 < 0)
    by (apply Z.div_lt_upper_bound; lia).
  assert (D'' : (0 <? diff / 86400000000) = false)
    by (apply Z.ltb_ge; lia).
  rewrite D''.
  pose proof (Z.mod_pos_bound diff 86400000000 ltac:(lia)) as M.
  set (seconds := diff mod 86400000000 / 1000000).
  assert (Sb : 0 <= seconds < 86400).
  { unfold seconds. split.
    - apply Z.div_pos; lia.
    - apply Z.div_lt_upper_bound; lia. }
  split.
  - destruct (0 <? seconds / 3600) eqn:Hh.
    + exists (seconds / 3600). split; [| now left]. split.
      * apply Z.div_pos; lia.
      * assert (seconds / 3600 < 24)
          by (apply Z.div_lt_upper_bound; lia). lia.
    + exists (seconds mod 3600 / 60). split; [| now right].
      pose proof (Z.mod_pos_bound seconds 3600 ltac:(lia)) as M2. split.
      * apply Z.div_pos; lia.
      * assert (seconds mod 3600 / 60 < 60)
          by (apply Z.div_lt_upper_bound; lia). lia.
  - intros Hle.
    assert (Q : diff mod 86400000000 = diff + 86400000000).
    { symmetry. apply (Z.mod_unique diff 86400000000 (-1)); unfold diff; lia. }
    assert (S1 : 82800 <= seconds).
    { unfold seconds. rewrite Q. apply Z.div_le_lower_bound; unfold diff; lia. }
    assert (Hh : seconds / 3600 = 23).
    { symmetry. apply (Z.div_unique seconds 3600 23 (seconds - 82800)); lia. }
    rewrite Hh. reflexivity.
Qed.

Lemma age_str_of_future_witness :
  age_str (studio quiet_docs) clock (PStr "2026-11-04T00:01:00Z")
  = "23h ago".
Proof.
  apply (age_str_of_future (studio quiet_docs) clock "2026-11-04T00:01:00Z"
           (mk_datetime 739924 60000000)).
  - discriminate.
  - reflexivity.
  - vm_compute. reflexivity.
  - vm_compute. discriminate.
Defined.

(** ** The budget cell and a failure after the document *)





(** ** From the scraper to the generator *)

(** X27. [transform_job] passes the title on as it finds it, and the
    generator fails on what it cannot slice: the output written for a
    raw job whose title is missing, or is anything but a text or a
    list, fails in [process_job] before anything is called. *)
Theorem untitled_job_fails_downstream env now_dt job out sheet_id :
  transform_job job = Ok out ->
  sliceable (get job "title") = false ->
  process_job env now_dt (to_record out) sheet_id
  = (Failure (job_id out), []).
Proof.
  intros T Hs. apply transform_job_inv in T. cbv zeta in T.
  destruct T as (_ & _ & _ & _ & _ & _ & _ & Ht & _).
  unfold process_job.
  change (get (to_record out) "title") with (title out).
  change (get (to_record out) "job_id") with (job_id out).
  now rewrite Ht, Hs.
Qed.

Lemma untitled_job_fails_downstream_witness :
  process_job (studio quiet_docs) clock (to_record url_only_out)
    (PStr "sheet1")
  = (Failure (job_id url_only_out), []).
Proof.
  apply (untitled_job_fails_downstream (studio quiet_docs) clock url_only
           url_only_out (PStr "sheet1")); reflexivity.
Defined.
